(** * Storefront demo: checkout pricing, cart guards, catalog query engine

    A shallow embedding of the logic of four view components:
    - [ShoppingCart]   (derived amounts, quantity guard, coupons, step machine),
    - [ProductCatalog] (query engine, pager, add-to-cart guard, selections),
    - [Page]           (page-level add-to-cart handler and cart badge),
    - [MainDashboard]  (the rows and totals of the sales analyzer).

    Conventions of the embedding.
    - A JavaScript [number] that carries money is kept abstract behind the
      interface [JsNumber]; the definitions are written once and run on two
      instances: exact rationals ([Q], the arithmetic the specification
      reasons with) and IEEE-754 binary64 ([float], the arithmetic the
      program runs on). General laws that need algebra are proved over
      [Q]; concrete scenarios are evaluated in both.
    - Counts (quantity, stock, inventory count, page, page size) are [Z];
      a quantity input that does not parse to an integer is not covered.
    - Strings are [string], read as sequences of code units of the ASCII
      range; see [JsString] for what that leaves out.
    - [Record<string, boolean>] objects are [gmap string bool].
    - A state hook is a field of a state record, a handler a function from
      state to state; toast notifications are collected in a list of
      [Toast] events. Of the markup the model keeps which control belongs
      to which checkout step and which components a step names (a step
      that names an unbound component does not render); persistence and
      the callbacks supplied by the host are left out. *)

From Stdlib Require Import ZArith QArith Qround Qabs Qminmax Lqa Floats Uint63 Lia.
From Stdlib Require Import SpecFloat.
From Stdlib Require Import Ascii String.
From stdpp Require Import gmap strings list pretty.

Local Open Scope Z_scope.

(** ** Numbers *)

Class JsNumber (num : Type) := {
  n_lit : Z -> num;                 (* an integer literal *)
  n_add : num -> num -> num;        (* a + b *)
  n_sub : num -> num -> num;        (* a - b *)
  n_mul : num -> num -> num;        (* a * b *)
  n_div : num -> num -> num;        (* a / b *)
  n_min : num -> num -> num;        (* Math.min(a, b) *)
  n_max : num -> num -> num;        (* Math.max(a, b) *)
  n_lt : num -> num -> bool;        (* a < b *)
  n_truthy : num -> bool;           (* ToBoolean(a) *)
  n_round2 : num -> num             (* +a.toFixed(2) *)
}.

(** A decimal literal [m / 10^d], such as [0.0725 = n_dec 725 4]. *)
Definition n_dec {num} `{JsNumber num} (m : Z) (d : nat) : num :=
  n_div (n_lit m) (n_lit (10 ^ Z.of_nat d)).

(** *** Exact rationals *)

Module Exact.

(** [toFixed] switches to exponent notation from 10^21 on; read back by
    unary plus that text denotes the number itself. *)
Definition toFixed_limit : Q := inject_Z (10 ^ 21).

(** The integer [n] for which [n / 100 - x] is as close to zero as
    possible, the larger one on a tie, for [0 <= x]. *)
Definition cents (x : Q) : Z := Qfloor (x * 100 + (1 # 2)).

Definition round2 (x : Q) : Q :=
  if Qle_bool toFixed_limit (Qabs x) then x
  else if Qle_bool 0 x then inject_Z (cents x) / 100
  else - (inject_Z (cents (- x)) / 100).

(** An amount without a fraction of a cent. *)
Definition wholeCents (x : Q) : Prop := exists n : Z, x == inject_Z n / 100.

Definition lt (a b : Q) : bool := negb (Qle_bool b a).

Definition truthy (a : Q) : bool := negb (Qeq_bool a 0).

End Exact.

#[export] Instance exact_number : JsNumber Q := {|
  n_lit := inject_Z;
  n_add := Qplus;
  n_sub := Qminus;
  n_mul := Qmult;
  n_div := Qdiv;
  n_min := Qmin;
  n_max := Qmax;
  n_lt := Exact.lt;
  n_truthy := Exact.truthy;
  n_round2 := Exact.round2
|}.

(** *** IEEE-754 binary64 *)

Module Binary64.

(** The double nearest to an integer, ties to even; an integer beyond the
    largest double becomes an infinity. *)
Definition of_Z (z : Z) : float :=
  SF2Prim (binary_normalize prec emax z 0 false).

(** [Math.max]: NaN if either argument is NaN, and +0 above -0. *)
Definition max (a b : float) : float :=
  if PrimFloat.is_nan a || PrimFloat.is_nan b then PrimFloat.nan
  else if PrimFloat.ltb a b then b
  else if PrimFloat.ltb b a then a
  else if PrimFloat.get_sign a then b else a.

(** [Math.min]: NaN if either argument is NaN, and -0 below +0. *)
Definition min (a b : float) : float :=
  if PrimFloat.is_nan a || PrimFloat.is_nan b then PrimFloat.nan
  else if PrimFloat.ltb a b then a
  else if PrimFloat.ltb b a then b
  else if PrimFloat.get_sign a then a else b.

Definition truthy (a : float) : bool :=
  negb (PrimFloat.is_nan a || PrimFloat.is_zero a).

(** Round [m * 2^e * 100] to the nearest integer, ties upwards. *)
Definition cents (m : positive) (e : Z) : Z :=
  match e with
  | Zneg k => (2 * (Zpos m * 100) + 2 ^ Zpos k) / 2 ^ (Zpos k + 1)
  | _ => Zpos m * 100 * 2 ^ e
  end.

(** From 2^46 on, neighbouring doubles are at least 1/64 apart, so the
    double nearest to the two-decimal text of [x] is [x] itself; this
    also covers the exponent notation [toFixed] uses from 10^21 on.
    Below 2^46 the number of cents is below 2^53, hence exact as a
    double, and one correctly rounded division reads the text back. *)
Definition exact_from : float := Eval compute in of_Z (2 ^ 46).

Definition round2 (x : float) : float :=
  if PrimFloat.is_nan x then x
  else if PrimFloat.leb exact_from (PrimFloat.abs x) then x
  else
    match Prim2SF x with
    | S754_finite s m e =>
        let r := PrimFloat.div (of_Z (cents m e)) (of_Z 100) in
        if s then PrimFloat.opp r else r
    | _ => PrimFloat.zero
    end.

End Binary64.

#[export] Instance binary64_number : JsNumber float := {|
  n_lit := Binary64.of_Z;
  n_add := PrimFloat.add;
  n_sub := PrimFloat.sub;
  n_mul := PrimFloat.mul;
  n_div := PrimFloat.div;
  n_min := Binary64.min;
  n_max := Binary64.max;
  n_lt := PrimFloat.ltb;
  n_truthy := Binary64.truthy;
  n_round2 := Binary64.round2
|}.

(** ** Strings *)

(** Strings are modelled on the ASCII range: a string of the model is a
    sequence of code units below 128, and on such strings [trim],
    [toUpperCase] and [toLowerCase] below are the built-ins of the
    language. The built-ins do more outside that range ([trim] strips
    U+00A0, U+FEFF, U+2028, U+2029 and the space separators as well, the
    case mappings cover the letters of every script); a string with a code
    unit from 128 on is outside the model, and [isAscii] says that a
    string is inside it. *)

Module JsString.

Local Open Scope char_scope.

(** The string holds code units of the ASCII range only. *)
Fixpoint isAscii (s : string) : bool :=
  match s with
  | String c s' => (N_of_ascii c <? 128)%N && isAscii s'
  | EmptyString => true
  end.

(** White space and line terminators of the ASCII range (tab, line feed,
    vertical tab, form feed, carriage return, space), as stripped by
    [String.prototype.trim]. *)
Definition is_space (c : ascii) : bool :=
  let n := N_of_ascii c in
  ((9 <=? n) && (n <=? 13) || (n =? 32))%N.

Fixpoint trimStart (s : string) : string :=
  match s with
  | String c s' => if is_space c then trimStart s' else s
  | EmptyString => EmptyString
  end.

Fixpoint trimEnd (s : string) : string :=
  match s with
  | String c s' =>
      match trimEnd s' with
      | EmptyString => if is_space c then EmptyString else String c EmptyString
      | r => String c r
      end
  | EmptyString => EmptyString
  end.

Definition trim (s : string) : string := trimEnd (trimStart s).

Definition upper (c : ascii) : ascii :=
  let n := N_of_ascii c in
  if ((97 <=? n) && (n <=? 122))%N then ascii_of_N (n - 32) else c.

Definition lower (c : ascii) : ascii :=
  let n := N_of_ascii c in
  if ((65 <=? n) && (n <=? 90))%N then ascii_of_N (n + 32) else c.

Fixpoint map_chars (f : ascii -> ascii) (s : string) : string :=
  match s with
  | String c s' => String (f c) (map_chars f s')
  | EmptyString => EmptyString
  end.

Definition toUpperCase : string -> string := map_chars upper.
Definition toLowerCase : string -> string := map_chars lower.

Fixpoint startsWith (s pre : string) : bool :=
  match pre, s with
  | EmptyString, _ => true
  | String p pre', String c s' => Ascii.eqb c p && startsWith s' pre'
  | String _ _, EmptyString => false
  end.

(** [s.includes(sub)] *)
Fixpoint includes (s sub : string) : bool :=
  startsWith s sub ||
  match s with
  | String _ s' => includes s' sub
  | EmptyString => false
  end.

(** ToBoolean of a string: only the empty string is falsy. *)
Definition truthy (s : string) : bool :=
  match s with EmptyString => false | _ => true end.

(** A string that does not start with white space. *)
Definition trimmedStart (s : string) : Prop :=
  match s with
  | String c _ => is_space c = false
  | EmptyString => True
  end.

(** A string of white space only, and one that holds none. *)
Fixpoint allSpace (s : string) : bool :=
  match s with
  | String c s' => is_space c && allSpace s'
  | EmptyString => true
  end.

Fixpoint noSpace (s : string) : bool :=
  match s with
  | String c s' => negb (is_space c) && noSpace s'
  | EmptyString => true
  end.

End JsString.

(** ** Notifications *)

Inductive Toast : Type :=
  | toast_error (message : string)
  | toast_success (message : string)
  | toast_message (message : string)
  | toast_plain (message : string).

Definition is_error (t : Toast) : bool :=
  match t with toast_error _ => true | _ => false end.

(** A rejection is signalled when an error toast is raised. *)
Definition rejected (ts : list Toast) : bool := existsb is_error ts.

(** ** ShoppingCart: the checkout component *)

Module ShoppingCart.

Section Component.

Context {num : Type} `{JsNumber num}.

Record CartItem := {
  ci_id : string;
  ci_name : string;
  ci_price : num;
  ci_image : string;
  ci_quantity : Z;
  ci_stock : Z;
  ci_subtitle : option string
}.

Record Address := {
  addr_id : string;
  addr_label : string;
  addr_fullName : string;
  addr_line1 : string;
  addr_line2 : option string;
  addr_city : string;
  addr_state : option string;
  addr_postalCode : string;
  addr_country : string;
  addr_phone : option string;
  addr_isDefault : option bool;
  addr_email : option string
}.

Record ShippingMethod := {
  sm_id : string;
  sm_label : string;
  sm_description : option string;
  sm_eta : option string;
  sm_cost : num
}.

Record PaymentMethod := {
  pm_id : string;
  pm_label : string;
  pm_description : option string
}.

Inductive CouponType : Type := Percent | Fixed | FreeShipping.

Record Coupon := {
  c_code : string;
  c_type : CouponType;
  c_value : option num
}.

Inductive CheckoutStep : Type :=
  Cart | Details | Shipping | Payment | Review | Success.

Definition DEFAULT_SHIPPING : list ShippingMethod := [
  {| sm_id := "standard"; sm_label := "Standard";
     sm_description := Some "3-5 business days";
     sm_eta := Some "Arrives in 3-5 days"; sm_cost := n_lit 6 |};
  {| sm_id := "express"; sm_label := "Express";
     sm_description := Some "1-2 business days";
     sm_eta := Some "Arrives in 1-2 days"; sm_cost := n_lit 18 |};
  {| sm_id := "pickup"; sm_label := "Store Pickup";
     sm_description := Some "Ready today";
     sm_eta := Some "Pickup today"; sm_cost := n_lit 0 |} ].

Definition DEFAULT_PAYMENT : list PaymentMethod := [
  {| pm_id := "card"; pm_label := "Credit/Debit Card";
     pm_description := Some "Visa, Mastercard, Amex" |};
  {| pm_id := "wallet"; pm_label := "Wallet";
     pm_description := Some "Apple Pay / Google Pay" |};
  {| pm_id := "cod"; pm_label := "Cash on Delivery";
     pm_description := Some "Pay at your doorstep" |} ].

Definition DEFAULT_ITEMS : list CartItem := [
  {| ci_id := "sku-1"; ci_name := "Bridge Tee";
     ci_subtitle := Some "Midweight, 100% cotton";
     ci_price := n_lit 28; ci_quantity := 1; ci_stock := 8;
     ci_image :=
     "https://images.unsplash.com/photo-1541099649105-f69ad21f3246?q=80&w=1200&auto=format&fit=crop" |};
  {| ci_id := "sku-2"; ci_name := "Everyday Tote";
     ci_subtitle := Some "Recycled canvas";
     ci_price := n_lit 52; ci_quantity := 1; ci_stock := 5;
     ci_image :=
     "https://images.unsplash.com/photo-1587397845856-e6cf49176c70?q=80&w=1200&auto=format&fit=crop" |} ].

Definition SAVE10 : Coupon :=
  {| c_code := "SAVE10"; c_type := Percent; c_value := Some (n_lit 10) |}.
Definition WELCOME15 : Coupon :=
  {| c_code := "WELCOME15"; c_type := Percent; c_value := Some (n_lit 15) |}.
Definition TAKE5 : Coupon :=
  {| c_code := "TAKE5"; c_type := Fixed; c_value := Some (n_lit 5) |}.
Definition FREESHIP : Coupon :=
  {| c_code := "FREESHIP"; c_type := FreeShipping; c_value := None |}.

Definition COUPONS : list Coupon := [SAVE10; WELCOME15; TAKE5; FREESHIP].

(** *** Derived amounts *)

Definition subtotal (cart : list CartItem) : num :=
  fold_left
    (fun acc item => n_add acc (n_mul (ci_price item) (n_lit (ci_quantity item))))
    cart (n_lit 0).

(** [shippingOptions.find((m) => m.id === selectedShipping) ?? shippingOptions[0]] *)
Definition selectedShippingMethod
    (shippingOptions : list ShippingMethod) (selectedShipping : string)
    : option ShippingMethod :=
  match List.find (fun m => String.eqb (sm_id m) selectedShipping) shippingOptions with
  | Some m => Some m
  | None => head shippingOptions
  end.

(** [appliedCoupon?.type === "shipping"] *)
Definition hasShippingType (appliedCoupon : option Coupon) : bool :=
  match appliedCoupon with
  | Some {| c_type := FreeShipping |} => true
  | _ => false
  end.

Definition shippingCost
    (shippingOptions : list ShippingMethod) (selectedShipping : string)
    (appliedCoupon : option Coupon) : num :=
  match selectedShippingMethod shippingOptions selectedShipping with
  | None => n_lit 0
  | Some method =>
      if hasShippingType appliedCoupon then n_lit 0 else sm_cost method
  end.

(** [appliedCoupon.value] where it is truthy. *)
Definition truthyValue (c : Coupon) : option num :=
  match c_value c with
  | Some v => if n_truthy v then Some v else None
  | None => None
  end.

Definition discount (appliedCoupon : option Coupon) (subtotal : num) : num :=
  match appliedCoupon with
  | None => n_lit 0
  | Some c =>
      match c_type c, truthyValue c with
      | Percent, Some v => n_div (n_mul subtotal v) (n_lit 100)
      | Fixed, Some v => n_min v subtotal
      | _, _ => n_lit 0
      end
  end.

Definition taxedSubtotal (subtotal discount : num) : num :=
  n_max (n_sub subtotal discount) (n_lit 0).

Definition tax (taxedSubtotal taxRate : num) : num :=
  n_round2 (n_mul taxedSubtotal taxRate).

Definition total (taxedSubtotal tax shippingCost : num) : num :=
  n_round2 (n_add (n_add taxedSubtotal tax) shippingCost).

(** The amounts of one render, from the inputs the memo hooks depend on. *)
Record Amounts := {
  a_subtotal : num;
  a_shippingCost : num;
  a_discount : num;
  a_taxedSubtotal : num;
  a_tax : num;
  a_total : num
}.

Definition amounts
    (cart : list CartItem) (appliedCoupon : option Coupon)
    (shippingOptions : list ShippingMethod) (selectedShipping : string)
    (taxRate : num) : Amounts :=
  let subtotal := subtotal cart in
  let shippingCost := shippingCost shippingOptions selectedShipping appliedCoupon in
  let discount := discount appliedCoupon subtotal in
  let taxedSubtotal := taxedSubtotal subtotal discount in
  let tax := tax taxedSubtotal taxRate in
  let total := total taxedSubtotal tax shippingCost in
  {| a_subtotal := subtotal; a_shippingCost := shippingCost;
     a_discount := discount; a_taxedSubtotal := taxedSubtotal;
     a_tax := tax; a_total := total |}.

(** *** Inventory validation *)

Definition validateQty (item : CartItem) (nextQty : Z) : bool * list Toast :=
  if nextQty <? 1 then (true, [])
  else if nextQty >? ci_stock item then
    (false,
     [toast_error ("Only " +:+ pretty (ci_stock item) +:+ " left in stock for "
                    +:+ ci_name item)])
  else (true, []).

Definition setQuantity (it : CartItem) (q : Z) : CartItem :=
  {| ci_id := ci_id it; ci_name := ci_name it; ci_price := ci_price it;
     ci_image := ci_image it; ci_quantity := q; ci_stock := ci_stock it;
     ci_subtitle := ci_subtitle it |}.

(** The updater handed to [setCart]: a map over the previous cart; the
    toasts raised by [validateQty] along the way are collected in order. *)
Fixpoint updateQty (id : string) (nextQty : Z) (prev : list CartItem)
    : list CartItem * list Toast :=
  match prev with
  | [] => ([], [])
  | it :: rest =>
      let '(rest', ts') := updateQty id nextQty rest in
      if negb (String.eqb (ci_id it) id) then (it :: rest', ts')
      else
        let '(ok, ts) := validateQty it nextQty in
        if negb ok then (it :: rest', ts ++ ts')
        else (setQuantity it nextQty :: rest', ts ++ ts')
  end.

Definition removeItem (id : string) (prev : list CartItem)
    : list CartItem * list Toast :=
  (List.filter (fun it => negb (String.eqb (ci_id it) id)) prev,
   [toast_plain "Item removed"]).

(** *** Coupons *)

Definition findCoupon (c : string) : option Coupon :=
  List.find (fun k => String.eqb (c_code k) c) COUPONS.

(** Returns the next value of [appliedCoupon] and the toasts raised. *)
Definition applyCoupon (couponInput : string) (appliedCoupon : option Coupon)
    : option Coupon * list Toast :=
  let code := JsString.toUpperCase (JsString.trim couponInput) in
  if negb (JsString.truthy code) then (appliedCoupon, [])
  else
    match findCoupon code with
    | None => (appliedCoupon, [toast_error "Coupon not recognized"])
    | Some found =>
        (Some found, [toast_success ("Coupon applied: " +:+ c_code found)])
    end.

(** *** The checkout step machine *)

Record Props := {
  initialItems : list CartItem;
  savedAddresses : list Address;
  shippingOptions : list ShippingMethod;
  paymentMethods : list PaymentMethod;
  allowGuestCheckout : bool;
  taxRate : num
}.

(** The component state. [st_pending] is the order in flight between the
    press of "Place order" and the end of the simulated latency; it holds
    the e-mail address the handler will read from the render in which the
    button was pressed, or [None] where that read hits a missing address
    and throws. *)
Record State := {
  st_step : CheckoutStep;
  st_cart : list CartItem;
  st_couponInput : string;
  st_appliedCoupon : option Coupon;
  st_selectedShipping : string;
  st_selectedPayment : string;
  st_useSavedAddressId : string;
  st_guestCheckout : bool;
  st_contactEmail : string;
  st_orderNote : string;
  st_address : Address;
  st_isPlacingOrder : bool;
  st_pending : option (option string)
}.

Definition setStep (v : CheckoutStep) (st : State) : State :=
  let 'Build_State _ b c d e f g h i j k l m := st in Build_State v b c d e f g h i j k l m.
Definition setCart (v : list CartItem) (st : State) : State :=
  let 'Build_State a _ c d e f g h i j k l m := st in Build_State a v c d e f g h i j k l m.
Definition setCouponInput (v : string) (st : State) : State :=
  let 'Build_State a b _ d e f g h i j k l m := st in Build_State a b v d e f g h i j k l m.
Definition setAppliedCoupon (v : option Coupon) (st : State) : State :=
  let 'Build_State a b c _ e f g h i j k l m := st in Build_State a b c v e f g h i j k l m.
Definition setSelectedShipping (v : string) (st : State) : State :=
  let 'Build_State a b c d _ f g h i j k l m := st in Build_State a b c d v f g h i j k l m.
Definition setSelectedPayment (v : string) (st : State) : State :=
  let 'Build_State a b c d e _ g h i j k l m := st in Build_State a b c d e v g h i j k l m.
Definition setUseSavedAddressId (v : string) (st : State) : State :=
  let 'Build_State a b c d e f _ h i j k l m := st in Build_State a b c d e f v h i j k l m.
Definition setGuestCheckout (v : bool) (st : State) : State :=
  let 'Build_State a b c d e f g _ i j k l m := st in Build_State a b c d e f g v i j k l m.
Definition setContactEmail (v : string) (st : State) : State :=
  let 'Build_State a b c d e f g h _ j k l m := st in Build_State a b c d e f g h v j k l m.
Definition setOrderNote (v : string) (st : State) : State :=
  let 'Build_State a b c d e f g h i _ k l m := st in Build_State a b c d e f g h i v k l m.
Definition setAddress (v : Address) (st : State) : State :=
  let 'Build_State a b c d e f g h i j _ l m := st in Build_State a b c d e f g h i j v l m.
Definition setIsPlacingOrder (v : bool) (st : State) : State :=
  let 'Build_State a b c d e f g h i j k _ m := st in Build_State a b c d e f g h i j k v m.
Definition setPending (v : option (option string)) (st : State) : State :=
  let 'Build_State a b c d e f g h i j k l _ := st in Build_State a b c d e f g h i j k l v.

Inductive AddressField : Type :=
  FullName | Line1 | Line2 | City | Region | PostalCode | Country | Phone.

(** [setAddress((a) => ({ ...a, field: v }))] *)
Definition editAddress (f : AddressField) (v : string) (a : Address) : Address :=
  let 'Build_Address id label fullName line1 line2 city state postal country phone dflt email := a in
  match f with
  | FullName => Build_Address id label v line1 line2 city state postal country phone dflt email
  | Line1 => Build_Address id label fullName v line2 city state postal country phone dflt email
  | Line2 => Build_Address id label fullName line1 (Some v) city state postal country phone dflt email
  | City => Build_Address id label fullName line1 line2 v state postal country phone dflt email
  | Region => Build_Address id label fullName line1 line2 city (Some v) postal country phone dflt email
  | PostalCode => Build_Address id label fullName line1 line2 city state v country phone dflt email
  | Country => Build_Address id label fullName line1 line2 city state postal v phone dflt email
  | Phone => Build_Address id label fullName line1 line2 city state postal country (Some v) dflt email
  end.

Definition isCartEmpty (st : State) : bool :=
  match st_cart st with [] => true | _ => false end.

Definition findAddress (props : Props) (id : string) : option Address :=
  List.find (fun a => String.eqb (addr_id a) id) (savedAddresses props).

Definition canProceedFromCart (st : State) : bool := negb (isCartEmpty st).

Definition canProceedFromDetails (props : Props) (st : State) : bool :=
  (if st_guestCheckout st then JsString.truthy (st_contactEmail st) else true)
  && (if negb (String.eqb (st_useSavedAddressId st) "new")
      then bool_decide (is_Some (findAddress props (st_useSavedAddressId st)))
      else
        let a := st_address st in
        JsString.truthy (addr_fullName a) && JsString.truthy (addr_line1 a)
        && JsString.truthy (addr_city a) && JsString.truthy (addr_postalCode a)
        && JsString.truthy (addr_country a)).

Definition canProceedFromShipping (st : State) : bool :=
  JsString.truthy (st_selectedShipping st).

Definition canProceedFromPayment (st : State) : bool :=
  JsString.truthy (st_selectedPayment st).

(** [undefined] when a saved address is selected that the list lacks. *)
Definition selectedAddress (props : Props) (st : State) : option Address :=
  if negb (String.eqb (st_useSavedAddressId st) "new")
  then findAddress props (st_useSavedAddressId st)
  else
    let 'Build_Address _ _ fullName line1 line2 city state postal country phone dflt email :=
      st_address st in
    Some (Build_Address "new" "New address" fullName line1 line2 city state postal
            country phone dflt email).

(** [contactEmail || selectedAddress.email]; [None] where it throws. *)
Definition orderEmail (props : Props) (st : State) : option string :=
  if JsString.truthy (st_contactEmail st) then Some (st_contactEmail st)
  else
    match selectedAddress props st with
    | Some a => Some (default "" (addr_email a))
    | None => None
    end.

Definition order : list CheckoutStep :=
  [Cart; Details; Shipping; Payment; Review; Success].

Definition step_eqb (a b : CheckoutStep) : bool :=
  match a, b with
  | Cart, Cart | Details, Details | Shipping, Shipping
  | Payment, Payment | Review, Review | Success, Success => true
  | _, _ => false
  end.

(** [l.indexOf(s)], -1 when absent. *)
Fixpoint indexOf (s : CheckoutStep) (l : list CheckoutStep) : Z :=
  match l with
  | [] => -1
  | x :: l' =>
      if step_eqb x s then 0
      else let i := indexOf s l' in if i <? 0 then -1 else i + 1
  end.

Definition goBack (step : CheckoutStep) : CheckoutStep :=
  let idx := indexOf step order in
  if idx >? 0 then default step (order !! Z.to_nat (idx - 1)) else step.

(** What the user (or the timer) can do. *)
Inductive Event : Type :=
  | QtyChange (id : string) (next : Z)
  | RemoveClick (id : string)
  | CouponInputChange (v : string)
  | ApplyClick
  | ClearClick
  | CheckoutClick
  | GuestSwitch (v : bool)
  | EmailChange (v : string)
  | AddressChoice (id : string)
  | AddressChange (f : AddressField) (v : string)
  | NoteChange (v : string)
  | ContinueToShippingClick
  | ShippingChoice (id : string)
  | ContinueToPaymentClick
  | PaymentChoice (id : string)
  | ContinueToReviewClick
  | BackClick
  | PlaceOrderClick
  | LatencyElapsed
  | ContinueShoppingClick.

Definition onStep (s : CheckoutStep) (st : State) : bool := step_eqb (st_step st) s.

(** *** Rendering *)

(** The components the module imports (lines 3 to 14) and the ones it
    declares. *)
Definition imported : list string := [
  "ShoppingCartIcon"; "ShoppingBag"; "CircleCheckBig"; "CircleChevronLeft";
  "WalletMinimal"; "PackageCheck"; "TicketMinus"; "History";
  "Button"; "Input"; "Label"; "Card"; "CardContent"; "CardHeader"; "CardTitle";
  "Separator"; "Textarea"; "RadioGroup"; "RadioGroupItem"; "Switch" ].

Definition declared : list string := [
  "Stepper"; "Summary"; "CartStep"; "DetailsStep"; "ShippingStep"; "PaymentStep";
  "ReviewStep"; "SuccessStep" ].

(** The components named by the markup of the header, of the stepper, of
    the order summary and of each step. *)
Definition headerMarkup : list string := ["ShoppingCartIcon"; "ShoppingBag"].

Definition stepperMarkup : list string := ["CircleCheckBig"].

Definition summaryMarkup : list string := [
  "Card"; "CardHeader"; "CardTitle"; "CardContent"; "Label"; "Input"; "Button";
  "Separator" ].

Definition stepMarkup (s : CheckoutStep) : list string :=
  match s with
  | Cart =>
      ["Card"; "CardHeader"; "CardTitle"; "ShoppingCartIcon"; "CardContent"; "Label";
       "Input"; "Button"; "TicketMinus"; "Summary"; "History"]
  | Details =>
      ["Card"; "CardHeader"; "CardTitle"; "CardContent"; "Switch"; "Label"; "Input";
       "RadioGroup"; "RadioGroupItem"; "Textarea"; "Summary"; "Button";
       "CircleChevronLeft"]
  | Shipping =>
      ["Card"; "CardHeader"; "CardTitle"; "CardContent"; "RadioGroup";
       "RadioGroupItem"; "Summary"; "Button"; "CircleChevronLeft"]
  | Payment =>
      ["Card"; "CardHeader"; "CardTitle"; "CardContent"; "RadioGroup";
       "RadioGroupItem"; "Label"; "Input"; "WalletMinimal"; "PackageCheck"; "Summary";
       "Button"; "CircleChevronLeft"]
  | Review =>
      ["Card"; "CardHeader"; "CardTitle"; "CardContent"; "Separator"; "Summary";
       "Button"; "CircleChevronLeft"]
  | Success =>
      ["CircleCheckBig"; "ShoppingBag"; "Card"; "CardHeader"; "CardTitle";
       "CardContent"; "PackageCheck"; "WalletMinimal"; "Button"; "ShoppingBasket"]
  end.

(** All the components named when the checkout is rendered on a step. *)
Definition named (s : CheckoutStep) : list string :=
  headerMarkup ++ stepperMarkup ++ stepMarkup s
  ++ (if existsb (String.eqb "Summary") (stepMarkup s) then summaryMarkup else []).

Definition bound (component : string) : bool :=
  existsb (String.eqb component) (imported ++ declared).

(** The checkout renders on a step when every component it names there is
    bound. A name that is not bound throws a ReferenceError during the
    render; the module has no error boundary, so the tree is unmounted and
    no control is shown. *)
Definition renders (s : CheckoutStep) : bool := forallb bound (named s).

(** The control that raises the event is part of the markup of the
    current step and is not disabled. The order summary, with its quantity
    inputs and remove buttons, is part of every step but the last; the
    last step has one button, "Continue shopping". *)
Definition offered (props : Props) (st : State) (ev : Event) : bool :=
  match ev with
  | QtyChange _ _ | RemoveClick _ => negb (onStep Success st)
  | CouponInputChange _ | ApplyClick => onStep Cart st
  | ClearClick => onStep Cart st && bool_decide (is_Some (st_appliedCoupon st))
  | CheckoutClick => onStep Cart st && canProceedFromCart st
  | GuestSwitch _ => onStep Details st && allowGuestCheckout props
  | EmailChange _ | NoteChange _ => onStep Details st
  | AddressChoice id =>
      onStep Details st
      && (String.eqb id "new" || bool_decide (is_Some (findAddress props id)))
  | AddressChange _ _ =>
      onStep Details st && String.eqb (st_useSavedAddressId st) "new"
  | ContinueToShippingClick => onStep Details st && canProceedFromDetails props st
  | ShippingChoice _ => onStep Shipping st
  | ContinueToPaymentClick => onStep Shipping st && canProceedFromShipping st
  | PaymentChoice _ => onStep Payment st
  | ContinueToReviewClick => onStep Payment st && canProceedFromPayment st
  | BackClick =>
      onStep Details st || onStep Shipping st || onStep Payment st || onStep Review st
  | PlaceOrderClick =>
      onStep Review st && negb (st_isPlacingOrder st || isCartEmpty st)
  | LatencyElapsed => bool_decide (is_Some (st_pending st))
  | ContinueShoppingClick => onStep Success st
  end.

(** An event can occur: its control is offered by a step that renders.
    The end of the latency is raised by the timer, not by a control. *)
Definition enabled (props : Props) (st : State) (ev : Event) : bool :=
  match ev with
  | LatencyElapsed => offered props st ev
  | _ => renders (st_step st) && offered props st ev
  end.

(** The second half of [handlePlaceOrder], after the await. *)
Definition orderPlaced (st : State) : State * list Toast :=
  match st_pending st with
  | Some (Some email) =>
      (setCart [] (setIsPlacingOrder false (setStep Success (setPending None st))),
       toast_success "Order placed successfully"
       :: (if JsString.truthy email then [toast_plain "Confirmation email sent"] else []))
  | Some None => (setPending None st, [])
  | None => (st, [])
  end.

Definition handle (props : Props) (st : State) (ev : Event) : State * list Toast :=
  match ev with
  | QtyChange id next =>
      let '(cart, ts) := updateQty id next (st_cart st) in (setCart cart st, ts)
  | RemoveClick id =>
      let '(cart, ts) := removeItem id (st_cart st) in (setCart cart st, ts)
  | CouponInputChange v => (setCouponInput v st, [])
  | ApplyClick =>
      let '(c, ts) := applyCoupon (st_couponInput st) (st_appliedCoupon st) in
      (setAppliedCoupon c st, ts)
  | ClearClick => (setCouponInput "" (setAppliedCoupon None st), [])
  | CheckoutClick => (setStep Details st, [])
  | GuestSwitch v => (setGuestCheckout v st, [])
  | EmailChange v => (setContactEmail v st, [])
  | AddressChoice id => (setUseSavedAddressId id st, [])
  | AddressChange f v => (setAddress (editAddress f v (st_address st)) st, [])
  | NoteChange v => (setOrderNote v st, [])
  | ContinueToShippingClick => (setStep Shipping st, [])
  | ShippingChoice id => (setSelectedShipping id st, [])
  | ContinueToPaymentClick => (setStep Payment st, [])
  | PaymentChoice id => (setSelectedPayment id st, [])
  | ContinueToReviewClick => (setStep Review st, [])
  | BackClick => (setStep (goBack (st_step st)) st, [])
  | PlaceOrderClick =>
      (setPending (Some (orderEmail props st)) (setIsPlacingOrder true st), [])
  | LatencyElapsed => orderPlaced st
  | ContinueShoppingClick => (setStep Cart st, [])
  end.

(** One transition of the machine. *)
Definition transition (props : Props) (st st' : State) : Prop :=
  exists ev, enabled props st ev = true /\ fst (handle props st ev) = st'.

(** The state after mount: the initial values, overwritten by whatever the
    restore effect finds persisted; no order is in flight. *)
Definition mounted (st : State) : Prop :=
  st_isPlacingOrder st = false /\ st_pending st = None.

Inductive reachable (props : Props) : State -> Prop :=
  | reachable_mounted st : mounted st -> reachable props st
  | reachable_step st st' :
      reachable props st -> transition props st st' -> reachable props st'.

(** The default props and the values the state hooks start from. *)
Definition defaultProps : Props := {|
  initialItems := DEFAULT_ITEMS;
  savedAddresses := [];
  shippingOptions := DEFAULT_SHIPPING;
  paymentMethods := DEFAULT_PAYMENT;
  allowGuestCheckout := true;
  taxRate := n_dec 725 4
|}.

Definition newAddress : Address := {|
  addr_id := "new"; addr_label := "New address"; addr_fullName := "";
  addr_line1 := ""; addr_line2 := Some ""; addr_city := "";
  addr_state := Some ""; addr_postalCode := ""; addr_country := "";
  addr_phone := Some ""; addr_isDefault := None; addr_email := Some ""
|}.

(** [savedAddresses.find((a) => a.isDefault)?.id ?? (savedAddresses[0]?.id || "new")] *)
Definition initialAddressId (saved : list Address) : string :=
  match List.find (fun a => default false (addr_isDefault a)) saved with
  | Some a => addr_id a
  | None =>
      match head saved with
      | Some a => if JsString.truthy (addr_id a) then addr_id a else "new"
      | None => "new"
      end
  end.

Definition initialState (props : Props) : State := {|
  st_step := Cart;
  st_cart := initialItems props;
  st_couponInput := "";
  st_appliedCoupon := None;
  st_selectedShipping := default "standard" (sm_id <$> head (shippingOptions props));
  st_selectedPayment := default "card" (pm_id <$> head (paymentMethods props));
  st_useSavedAddressId := initialAddressId (savedAddresses props);
  st_guestCheckout := allowGuestCheckout props;
  st_contactEmail := "";
  st_orderNote := "";
  st_address := newAddress;
  st_isPlacingOrder := false;
  st_pending := None
|}.

(** A session: the events in turn, each one enabled where it occurs. *)
Fixpoint run (props : Props) (st : State) (evs : list Event) : option State :=
  match evs with
  | [] => Some st
  | ev :: evs' =>
      if enabled props st ev then run props (fst (handle props st ev)) evs' else None
  end.

(** A guest session from the cart to the confirmation. *)
Definition guestSession : list Event := [
  CheckoutClick;
  EmailChange "guest@example.com";
  AddressChange FullName "A. Guest";
  AddressChange Line1 "1 Bridge Street";
  AddressChange City "Springfield";
  AddressChange PostalCode "12345";
  AddressChange Country "US";
  ContinueToShippingClick;
  ContinueToPaymentClick;
  ContinueToReviewClick;
  PlaceOrderClick;
  LatencyElapsed ].

End Component.

Arguments CartItem : clear implicits.
Arguments ShippingMethod : clear implicits.
Arguments Coupon : clear implicits.
Arguments Amounts : clear implicits.
Arguments Props : clear implicits.
Arguments State : clear implicits.

(** The applied coupon is only ever set from the registry (by
    [applyCoupon] and by the restore-on-mount effect) or cleared. *)
Definition fromRegistry {num} `{JsNumber num} (appliedCoupon : option (Coupon num))
    : Prop :=
  match appliedCoupon with
  | Some c => In c COUPONS
  | None => True
  end.

(** *** The amounts in the words of the specification *)

(** The sum over the cart of price times quantity. *)
Fixpoint sumLines (cart : list (CartItem Q)) : Q :=
  match cart with
  | [] => 0
  | item :: rest => ci_price item * inject_Z (ci_quantity item) + sumLines rest
  end%Q.

(** The total as the testable properties put it:
    [round2(max(subtotal - discount, 0) * (1 + taxRate)) + shippingCost]. *)
Definition statedTotal {num} `{JsNumber num}
    (subtotal discount taxRate shippingCost : num) : num :=
  n_add
    (n_round2 (n_mul (n_max (n_sub subtotal discount) (n_lit 0))
                     (n_add (n_lit 1) taxRate)))
    shippingCost.

(** The discount the pricing rules give, read off the coupon alone. *)
Definition ruleDiscount {num} `{JsNumber num}
    (appliedCoupon : option (Coupon num)) (subtotal : num) : num :=
  match appliedCoupon with
  | Some {| c_type := Percent; c_value := Some v |} =>
      n_div (n_mul subtotal v) (n_lit 100)
  | Some {| c_type := Fixed; c_value := Some v |} => n_min v subtotal
  | _ => n_lit 0
  end.

(** Every value in the registry is truthy in this arithmetic. *)
Definition registryTruthy {num} `{JsNumber num} : Prop :=
  forall c v, In c (COUPONS (num := num)) -> c_value c = Some v -> n_truthy v = true.

(** The second end-to-end scenario: the default cart (28 and 52, one of
    each), coupon SAVE10, standard shipping at 6.0, tax rate 0.0725. *)
Definition scenario2 {num} `{JsNumber num} : Amounts num :=
  amounts DEFAULT_ITEMS (Some SAVE10) DEFAULT_SHIPPING "standard" (n_dec 725 4).

(** The first and third end-to-end scenarios: the default cart with no
    coupon, and with FREESHIP. *)
Definition scenario1 {num} `{JsNumber num} : Amounts num :=
  amounts DEFAULT_ITEMS None DEFAULT_SHIPPING "standard" (n_dec 725 4).

Definition scenario3 {num} `{JsNumber num} : Amounts num :=
  amounts DEFAULT_ITEMS (Some FREESHIP) DEFAULT_SHIPPING "standard" (n_dec 725 4).

(** A line of the page's Merino socks, five of them. *)
Definition socks {num} `{JsNumber num} : CartItem num :=
  {| ci_id := "p-004"; ci_name := "Merino Socks (2-pack)";
     ci_price := n_dec 295 1;
     ci_image :=
     "https://images.unsplash.com/photo-1533867617858-e7b97b4b0aea?q=80&w=1600&auto=format&fit=crop";
     ci_quantity := 5; ci_stock := 18; ci_subtitle := Some "Bridge" |}.

Definition socksScenario {num} `{JsNumber num} : Amounts num :=
  amounts [socks] (Some WELCOME15) DEFAULT_SHIPPING "standard" (n_dec 725 4).

(** The default cart after removing the tote and entering -1 as the
    quantity of the tee. *)
Definition returnedTee {num} `{JsNumber num} : list (CartItem num) :=
  fst (updateQty "sku-1" (-1) (fst (removeItem "sku-2" DEFAULT_ITEMS))).

(** The submitted coupon code as it is matched against the registry. *)
Definition normalized (couponInput : string) : string :=
  JsString.toUpperCase (JsString.trim couponInput).

(** The position of a step in the checkout order. *)
Definition position (s : CheckoutStep) : Z :=
  match s with
  | Cart => 0 | Details => 1 | Shipping => 2
  | Payment => 3 | Review => 4 | Success => 5
  end.

(** The invariant of a line item: [1 <= quantity <= stock]. *)
Definition lineInvariant {num} (item : CartItem num) : Prop :=
  1 <= ci_quantity item <= ci_stock item.


(** A cart with nothing left to order, waiting on its first step. *)
Definition idleOnEmptyCart {num} (st : State num) : Prop :=
  st_step st = Cart /\ st_cart st = [] /\ st_pending st = None.

(** The state the default checkout is in after a list of events. *)
Definition stateAfter (events : list Event) : State Q :=
  fold_left (fun st ev => fst (handle defaultProps st ev)) events
    (initialState defaultProps).

(** The guest session with its order in flight, and the default checkout
    after both of its items were removed. *)
Definition orderInFlight : State Q := stateAfter (take 11 guestSession).
Definition emptied : State Q := stateAfter [RemoveClick "sku-1"; RemoveClick "sku-2"].


End ShoppingCart.

(** ** ProductCatalog: the catalog component *)

Module ProductCatalog.

Section Component.

Context {num : Type} `{JsNumber num}.

(** [a.localeCompare(b)] is the host's collation; only its sign is used. *)
Variable localeCompare : string -> string -> Z.

Record CatalogProduct := {
  p_id : string;
  p_name : string;
  p_price : num;
  p_image : option string;
  p_category : option string;
  p_sku : option string;
  p_brand : option string;
  p_rating : option num;
  p_reviewsCount : option Z;
  p_inStock : option bool;
  p_inventoryCount : option Z;
  p_description : option string
}.

Inductive SortOption : Type :=
  Relevance | PriceAsc | PriceDesc | NameAsc | NameDesc | Newest.

(** The state the query engine reads. *)
Record Filters := {
  query : string;
  activeCategory : string;
  sort : SortOption;
  pageSize : Z;
  page : Z;
  onlyInStock : bool;
  onlyWishlist : bool;
  wishlist : gmap string bool
}.

Record Computed := {
  total : Z;
  totalPages : Z;
  currentPage : Z;
  items : list CatalogProduct
}.

(** [m[k]] read as a condition: a missing key is falsy. *)
Definition flagged (m : gmap string bool) (k : string) : bool :=
  default false (m !! k).

(** [s && s.toLowerCase().includes(q)] for an optional field. *)
Definition fieldIncludes (s : option string) (q : string) : bool :=
  match s with
  | Some s => JsString.truthy s && JsString.includes (JsString.toLowerCase s) q
  | None => false
  end.

Definition matchesQuery (q : string) (p : CatalogProduct) : bool :=
  JsString.includes (JsString.toLowerCase (p_name p)) q
  || fieldIncludes (p_brand p) q
  || fieldIncludes (p_sku p) q.

(** [p.inStock !== false] *)
Definition notMarkedOut (p : CatalogProduct) : bool :=
  match p_inStock p with Some false => false | _ => true end.

(** The in-stock-only filter: [p.inStock !== false && (p.inventoryCount ?? 1) > 0]. *)
Definition keptInStock (p : CatalogProduct) : bool :=
  notMarkedOut p && (default 1 (p_inventoryCount p) >? 0).

(** [Array.prototype.sort] with a comparator: a stable sort, in which [a]
    moves behind [b] only where the comparator is positive on [(a, b)]. *)
Fixpoint insertSorted {A} (positive : A -> A -> bool) (a : A) (l : list A) : list A :=
  match l with
  | [] => [a]
  | b :: l' => if positive a b then b :: insertSorted positive a l' else a :: l
  end.

Fixpoint sortWith {A} (positive : A -> A -> bool) (l : list A) : list A :=
  match l with
  | [] => []
  | a :: l' => insertSorted positive a (sortWith positive l')
  end.

(** A list in order for [le]: each element is [le] to all that follow it. *)
Fixpoint inOrder {A} (le : A -> A -> Prop) (l : list A) : Prop :=
  match l with
  | [] => True
  | a :: l' => Forall (le a) l' /\ inOrder le l'
  end.

Definition sorted (o : SortOption) (l : list CatalogProduct) : list CatalogProduct :=
  match o with
  | PriceAsc =>
      sortWith (fun a b => n_lt (n_lit 0) (n_sub (p_price a) (p_price b))) l
  | PriceDesc =>
      sortWith (fun a b => n_lt (n_lit 0) (n_sub (p_price b) (p_price a))) l
  | NameAsc => sortWith (fun a b => localeCompare (p_name a) (p_name b) >? 0) l
  | NameDesc => sortWith (fun a b => localeCompare (p_name b) (p_name a) >? 0) l
  | Newest => sortWith (fun a b => localeCompare (p_id b) (p_id a) >? 0) l
  | Relevance => l
  end.

(** A relative index of [slice], resolved against the length. *)
Definition sliceIndex (len i : Z) : Z :=
  if i <? 0 then Z.max (len + i) 0 else Z.min i len.

(** [l.slice(start, end)] *)
Definition slice {A} (l : list A) (start end_ : Z) : list A :=
  let len := Z.of_nat (length l) in
  let k := sliceIndex len start in
  let final := sliceIndex len end_ in
  take (Z.to_nat (final - k)) (drop (Z.to_nat k) l).

(** [Math.ceil(a / b)] on counts, for [0 < b]. *)
Definition ceilDiv (a b : Z) : Z := - ((- a) / b).

Definition filtered (products : list CatalogProduct) (f : Filters) : list CatalogProduct :=
  let list := products in
  let list :=
    if JsString.truthy (JsString.trim (query f))
    then let q := JsString.toLowerCase (query f) in List.filter (matchesQuery q) list
    else list in
  let list :=
    if negb (String.eqb (activeCategory f) "all")
    then List.filter (fun p => String.eqb (default "" (p_category p)) (activeCategory f)) list
    else list in
  let list := if onlyInStock f then List.filter keptInStock list else list in
  let list :=
    if onlyWishlist f then List.filter (fun p => flagged (wishlist f) (p_id p)) list
    else list in
  list.

(** The memoised query result. The page size is a positive count in every
    use; the model does not cover the infinities a page size of 0 yields. *)
Definition computed (products : list CatalogProduct) (f : Filters) : Computed :=
  let list := sorted (sort f) (filtered products f) in
  let total := Z.of_nat (length list) in
  let totalPages := Z.max 1 (ceilDiv total (pageSize f)) in
  let currentPage := Z.min (page f) totalPages in
  let start := (currentPage - 1) * pageSize f in
  let end_ := start + pageSize f in
  {| total := total; totalPages := totalPages; currentPage := currentPage;
     items := slice list start end_ |}.

(** *** Page navigation *)

Definition canPrev (c : Computed) : bool := currentPage c >? 1.
Definition canNext (c : Computed) : bool := currentPage c <? totalPages c.

Inductive PageEvent : Type :=
  | PrevClick
  | NextClick
  | NumberClick (idx : nat)      (* the button of page idx + 1 *)
  | LastClick
  | FiltersChanged.              (* the effect that resets the page *)

(** The next value of [page]. The pager is rendered for more than one
    page; it shows at most five numbered buttons, and the button of the
    last page beyond that. *)
Definition setPage (c : Computed) (page : Z) (ev : PageEvent) : Z :=
  match ev with
  | PrevClick => if (totalPages c >? 1) && canPrev c then page - 1 else page
  | NextClick => if (totalPages c >? 1) && canNext c then page + 1 else page
  | NumberClick idx =>
      if (totalPages c >? 1) && (Z.of_nat idx <? Z.min (totalPages c) 5)
      then Z.of_nat idx + 1 else page
  | LastClick => if totalPages c >? 5 then totalPages c else page
  | FiltersChanged => 1
  end.

(** *** The add-to-cart guard *)

(** Modelled on the words of the specification: the availability predicate
    [inStock !== false && inventoryCount > 0]; an absent count is not
    above zero. *)
Definition available (p : CatalogProduct) : bool :=
  notMarkedOut p &&
  match p_inventoryCount p with
  | Some n => n >? 0
  | None => false
  end.

(** [handleAddToCart]: whether the product passed the guard, and the toasts.
    [callback] is the outcome of the [onAddToCart] prop: absent, resolved
    ([Some true]) or rejected ([Some false]). *)
Definition handleAddToCart (callback : option bool) (p : CatalogProduct)
    : bool * list Toast :=
  if negb (notMarkedOut p) || (default 0 (p_inventoryCount p) <=? 0)
  then (false, [toast_error "Out of stock"])
  else
    (true,
     match callback with
     | Some true => [toast_success "Added to cart"]
     | Some false => [toast_error "Failed to add to cart"]
     | None => [toast_message "Added to cart"]
     end).

(** *** The compare selection *)

(** [Object.keys(m).filter((k) => m[k])] *)
Definition activeKeys (m : gmap string bool) : list string :=
  List.filter (flagged m) (map_to_list m).*1.

Definition toggleCompare (id : string) (prev : gmap string bool)
    : gmap string bool * list Toast :=
  let nextVal := negb (flagged prev id) in
  let next := <[id := nextVal]> prev in
  let active := activeKeys next in
  if (4 <? length active)%nat
  then (prev, [toast_error "You can compare up to 4 products"])
  else (next, []).

(** The selection starts empty, is toggled, or is cleared from the
    compare bar. *)
Inductive compareReachable : gmap string bool -> Prop :=
  | compare_initial : compareReachable ∅
  | compare_toggled id prev :
      compareReachable prev -> compareReachable (fst (toggleCompare id prev))
  | compare_cleared prev : compareReachable prev -> compareReachable ∅.

(** A product that carries no inventory count. *)
Definition giftCard : CatalogProduct := {|
  p_id := "p-900"; p_name := "Gift Card"; p_price := n_lit 25; p_image := None;
  p_category := Some "gifts"; p_sku := None; p_brand := None; p_rating := None;
  p_reviewsCount := None; p_inStock := Some true; p_inventoryCount := None;
  p_description := None
|}.

(** The filters as the component starts with them, for a page size. *)
Definition initialFilters (defaultPageSize : Z) : Filters := {|
  query := ""; activeCategory := "all"; sort := Relevance;
  pageSize := defaultPageSize; page := 1;
  onlyInStock := false; onlyWishlist := false; wishlist := ∅
|}.

Definition withOnlyInStock (v : bool) (f : Filters) : Filters :=
  {| query := query f; activeCategory := activeCategory f; sort := sort f;
     pageSize := pageSize f; page := page f;
     onlyInStock := v; onlyWishlist := onlyWishlist f; wishlist := wishlist f |}.

(** The selection after four products were toggled on. *)
Definition fourSelected : gmap string bool :=
  fst (toggleCompare "p-004" (fst (toggleCompare "p-003"
    (fst (toggleCompare "p-002" (fst (toggleCompare "p-001" ∅))))))).

End Component.

Arguments CatalogProduct : clear implicits.
Arguments Computed : clear implicits.

(** The filters with another sort option, page and page size. *)
Definition withPaging (o : SortOption) (size pg : Z) (f : Filters) : Filters :=
  {| query := query f; activeCategory := activeCategory f; sort := o;
     pageSize := size; page := pg;
     onlyInStock := onlyInStock f; onlyWishlist := onlyWishlist f;
     wishlist := wishlist f |}.

(** A collation to run the engine with: the order of the code units. *)
Definition codeUnitCompare (a b : string) : Z :=
  match String.compare a b with
  | Lt => -1
  | Eq => 0
  | Gt => 1
  end.

(** *** Wishlist, selection, bulk actions and categories *)

Section Selections.

Context {num : Type} `{JsNumber num}.

Variable localeCompare : string -> string -> Z.

(** The same filters on another remembered page. *)
Definition onPage (pg : Z) (f : Filters) : Filters :=
  {| query := query f; activeCategory := activeCategory f; sort := sort f;
     pageSize := pageSize f; page := pg;
     onlyInStock := onlyInStock f; onlyWishlist := onlyWishlist f;
     wishlist := wishlist f |}.

(** The items of the pages [first], [first + 1], ... ([count] of them). *)
Fixpoint pagesFrom (products : list (CatalogProduct num)) (f : Filters)
    (first : Z) (count : nat) : list (CatalogProduct num) :=
  match count with
  | O => []
  | S count' =>
      items (computed localeCompare products (onPage first f))
      ++ pagesFrom products f (first + 1) count'
  end.

(** The first half of [toggleWishlist]: the optimistic update. Returns the
    flag that was set and the next wishlist. *)
Definition wishlistToggled (id : string) (w : gmap string bool)
    : bool * gmap string bool :=
  let next := negb (flagged w id) in (next, <[id := next]> w).

(** The updater of the [catch] branch: the flag is set back. *)
Definition wishlistReverted (id : string) (next : bool) (w : gmap string bool)
    : gmap string bool :=
  <[id := negb next]> w.

(** [toggleWishlist] with the outcome of the [onToggleWishlist] prop:
    absent, resolved ([Some true]) or rejected ([Some false]). *)
Definition toggleWishlist (callback : option bool) (id : string) (w : gmap string bool)
    : gmap string bool * list Toast :=
  let '(next, w1) := wishlistToggled id w in
  match callback with
  | Some true =>
      (w1, [toast_success (if next then "Added to wishlist" else "Removed from wishlist")])
  | Some false =>
      (wishlistReverted id next w1, [toast_error "Unable to update wishlist"])
  | None =>
      (w1, [toast_message (if next then "Wishlist updated" else "Wishlist removed")])
  end.

(** [setSelected((prev) => ({ ...prev, [id]: value ?? !prev[id] }))] *)
Definition toggleSelect (id : string) (value : option bool) (prev : gmap string bool)
    : gmap string bool :=
  <[id := default (negb (flagged prev id)) value]> prev.

(** [Object.keys(selected).filter((k) => selected[k])]; the ids come in the
    order of the map's keys, not in the order they were inserted. *)
Definition selectedIds (selected : gmap string bool) : list string :=
  activeKeys selected.

Inductive BulkAction : Type := BulkDelete | BulkDiscount | BulkFeature.

Definition actionName (a : BulkAction) : string :=
  match a with
  | BulkDelete => "delete"
  | BulkDiscount => "discount"
  | BulkFeature => "feature"
  end.

(** [bulkAction]: the next selection, the toasts, and the ids handed to
    the [onBulkAction] prop when it is called. *)
Definition bulkAction (callback : option bool) (action : BulkAction)
    (selected : gmap string bool)
    : gmap string bool * list Toast * option (list string) :=
  let ids := selectedIds selected in
  match ids with
  | [] => (selected, [], None)
  | _ =>
      match callback with
      | Some true =>
          (∅, [toast_success ("Bulk action '" +:+ actionName action +:+ "' completed")],
           Some ids)
      | Some false => (selected, [toast_error "Bulk action failed"], Some ids)
      | None =>
          (∅, [toast_message ("Bulk '" +:+ actionName action +:+ "' for "
                               +:+ pretty (length ids) +:+ " item(s)")],
           None)
      end
  end.

(** [set.add(c)] on the insertion-ordered set. *)
Definition addOnce (seen : list string) (c : string) : list string :=
  if existsb (String.eqb c) seen then seen else seen ++ [c].

(** [if (p.category && p.category.trim()) set.add(p.category)] *)
Definition addCategory (seen : list string) (p : CatalogProduct num) : list string :=
  match p_category p with
  | Some c =>
      if JsString.truthy c && JsString.truthy (JsString.trim c)
      then addOnce seen c else seen
  | None => seen
  end.

(** The categories named by the products, in the order they first occur. *)
Definition namedCategories (products : list (CatalogProduct num)) : list string :=
  fold_left addCategory products [].

Definition categories (products : list (CatalogProduct num)) : list string :=
  "all" :: sortWith (fun a b => localeCompare a b >? 0) (namedCategories products).

End Selections.

(** The wishlist view, two to a page and remembered on page 3, after the
    fifth product was taken off the wishlist. *)
Definition staleWishlistView : Filters := {|
  query := ""; activeCategory := "all"; sort := Relevance;
  pageSize := 2; page := 3; onlyInStock := false; onlyWishlist := true;
  wishlist :=
    fst (toggleWishlist None "p-005"
           (list_to_map [("p-001", true); ("p-002", true); ("p-003", true);
                         ("p-004", true); ("p-005", true)]))
|}.

(** A search for gift cards in stock, dearest first. *)
Definition giftQuery : Filters := {|
  query := "Gift"; activeCategory := "gifts"; sort := PriceDesc;
  pageSize := 12; page := 1; onlyInStock := true; onlyWishlist := false;
  wishlist := ∅
|}.

(** The whole catalog, cheapest first, two to a page. *)
Definition twoPerPage : Filters := withPaging PriceAsc 2 1 (initialFilters 12).

End ProductCatalog.

(** ** Page: the host screen *)

Module Page.

Import ShoppingCart ProductCatalog.

Section Component.

Context {num : Type} `{JsNumber num}.

Definition product (id name : string) (price : num) (image category sku brand : string)
    (inventoryCount : Z) (description : string) : CatalogProduct num :=
  {| p_id := id; p_name := name; p_price := price; p_image := Some image;
     p_category := Some category; p_sku := Some sku; p_brand := Some brand;
     p_rating := None; p_reviewsCount := None; p_inStock := Some true;
     p_inventoryCount := Some inventoryCount; p_description := Some description |}.

Definition products : list (CatalogProduct num) := [
  product "p-001" "Bridge Tee" (n_lit 28)
    "https://images.unsplash.com/photo-1541099649105-f69ad21f3246?q=80&w=1600&auto=format&fit=crop"
    "apparel" "TEE-001" "Bridge" 12
    "Midweight tee in soft cotton with a classic fit.";
  product "p-002" "Everyday Tote" (n_lit 52)
    "https://images.unsplash.com/photo-1587397845856-e6cf49176c70?q=80&w=1600&auto=format&fit=crop"
    "bags" "TOTE-001" "Bridge" 5
    "Recycled canvas tote for daily carry.";
  product "p-003" "Canvas Backpack" (n_dec 895 1)
    "https://images.unsplash.com/photo-1500530855697-b586d89ba3ee?q=80&w=1600&auto=format&fit=crop"
    "bags" "PACK-002" "Bridge" 3
    "Sturdy backpack with padded laptop compartment.";
  product "p-004" "Merino Socks (2-pack)" (n_dec 295 1)
    "https://images.unsplash.com/photo-1533867617858-e7b97b4b0aea?q=80&w=1600&auto=format&fit=crop"
    "accessories" "SOCK-002" "Bridge" 18
    "Temperature-regulating comfort for all-day wear.";
  product "p-005" "Brushed Cotton Hoodie" (n_dec 895 1)
    "https://images.unsplash.com/photo-1520975682031-a2b2ae8346f9?q=80&w=1600&auto=format&fit=crop"
    "apparel" "HOOD-001" "Bridge" 7
    "Soft brushed interior with a modern silhouette." ].

Definition FALLBACK_IMAGE : string :=
  "https://images.unsplash.com/photo-1517336714731-489689fd1ca8?q=80&w=1600&auto=format&fit=crop".

(** [p.image || FALLBACK_IMAGE] *)
Definition imageOf (p : CatalogProduct num) : string :=
  match p_image p with
  | Some i => if JsString.truthy i then i else FALLBACK_IMAGE
  | None => FALLBACK_IMAGE
  end.

Definition newLine (p : CatalogProduct num) : CartItem num :=
  {| ci_id := p_id p; ci_name := p_name p; ci_price := p_price p;
     ci_image := imageOf p; ci_quantity := 1;
     ci_stock := default 10 (p_inventoryCount p); ci_subtitle := p_brand p |}.

(** The updater handed to [setCart]. The stock of a line is always a
    number, so the last default of
    [p.inventoryCount ?? existing.stock ?? 1] is never taken. *)
Definition handleAddToCart (p : CatalogProduct num) (prev : list (CartItem num))
    : list (CartItem num) :=
  match List.find (fun i => String.eqb (ci_id i) (p_id p)) prev with
  | Some existing =>
      let nextQty := ci_quantity existing + 1 in
      let stock := default (ci_stock existing) (p_inventoryCount p) in
      map (fun i =>
             if String.eqb (ci_id i) (p_id p)
             then setQuantity i (Z.min nextQty stock) else i)
          prev
  | None => prev ++ [newLine p]
  end.

Definition handleOrderComplete (prev : list (CartItem num)) : list (CartItem num) := [].

(** The carts the page can hold when the catalog offers [catalog]. *)
Inductive cartReachable (catalog : list (CatalogProduct num))
    : list (CartItem num) -> Prop :=
  | cart_initial : cartReachable catalog []
  | cart_added p prev :
      In p catalog -> cartReachable catalog prev ->
      cartReachable catalog (handleAddToCart p prev)
  | cart_completed prev :
      cartReachable catalog prev -> cartReachable catalog (handleOrderComplete prev).

(** A line records the stock of the product it was created from. *)
Definition recordedFrom (catalog : list (CatalogProduct num)) (line : CartItem num)
    : Prop :=
  exists p, In p catalog /\ p_id p = ci_id line
            /\ ci_stock line = default 10 (p_inventoryCount p).

(** The line of a product after one more of it is added:
    min(previous quantity + 1, stock), with the stock the line records. *)
Definition oneMore (line : CartItem num) : CartItem num :=
  setQuantity line (Z.min (ci_quantity line + 1) (ci_stock line)).

(** One more of the first product of the page, the tee. *)
Definition addTee (cart : list (CartItem num)) : list (CartItem num) :=
  match head products with
  | Some tee => handleAddToCart tee cart
  | None => cart
  end.

Definition twoTees : list (CartItem num) := addTee (addTee []).

End Component.

(** *** The cart badge and the path from the catalog *)

Section Host.

Context {num : Type} `{JsNumber num}.

(** [cart.reduce((n, it) => n + it.quantity, 0)] *)
Definition cartCount (cart : list (CartItem num)) : Z :=
  fold_left (fun n it => n + ci_quantity it) cart 0.

(** A click on "Add to cart" in the catalog: the catalog's guard, then the
    [onAddToCart] prop, which the page binds to its own handler. *)
Definition addFromCatalog (p : CatalogProduct num) (cart : list (CartItem num))
    : list (CartItem num) * list Toast :=
  let '(passed, toasts) := ProductCatalog.handleAddToCart (Some true) p in
  (if passed then handleAddToCart p cart else cart, toasts).

(** The carts reached through the catalog alone. *)
Inductive shopped (catalog : list (CatalogProduct num)) : list (CartItem num) -> Prop :=
  | shopped_initial : shopped catalog []
  | shopped_added p prev :
      In p catalog -> shopped catalog prev ->
      shopped catalog (fst (addFromCatalog p prev))
  | shopped_completed prev :
      shopped catalog prev -> shopped catalog (handleOrderComplete prev).

(** A click on "Add to cart" on the first product of the page, the tee. *)
Definition teeClicked (cart : list (CartItem num)) : list (CartItem num) :=
  match head products with
  | Some tee => fst (addFromCatalog tee cart)
  | None => cart
  end.

End Host.

End Page.

(** ** MainDashboard: the sales analyzer *)

Module MainDashboard.

Section Analyzer.

Context {num : Type} `{JsNumber num}.

Record SalesRow := {
  r_id : string;
  r_product : string;
  r_qty : num;
  r_price : num;
  r_cost : num
}.

(** [Partial<SalesRow>] *)
Record Patch := {
  patch_id : option string;
  patch_product : option string;
  patch_qty : option num;
  patch_price : option num;
  patch_cost : option num
}.

Record Totals := {
  revenue : num;
  cost : num;
  profit : num;
  margin : num
}.

(** [Number(x) || 0] on a number *)
Definition orZero (x : num) : num := if n_truthy x then x else n_lit 0.

Definition totals (rows : list SalesRow) : Totals :=
  let revenue :=
    fold_left (fun s r => n_add s (n_mul (orZero (r_qty r)) (orZero (r_price r))))
      rows (n_lit 0) in
  let cost :=
    fold_left (fun s r => n_add s (n_mul (orZero (r_qty r)) (orZero (r_cost r))))
      rows (n_lit 0) in
  let profit := n_sub revenue cost in
  let margin := if n_lt (n_lit 0) revenue then n_div profit revenue else n_lit 0 in
  {| revenue := revenue; cost := cost; profit := profit; margin := margin |}.

(** The contribution of a row, as the summary computes it. *)
Definition contribution (r : SalesRow) : num :=
  n_mul (orZero (r_qty r)) (n_sub (orZero (r_price r)) (orZero (r_cost r))).

(** [r.product || "Untitled"] *)
Definition productLabel (r : SalesRow) : string :=
  if JsString.truthy (r_product r) then r_product r else "Untitled".

(** The first of the rows sorted by contribution, largest first. *)
Definition topContributor (rows : list SalesRow) : option (string * num) :=
  head (ProductCatalog.sortWith
          (fun a b => n_lt (n_lit 0) (n_sub (snd b) (snd a)))
          (map (fun r => (productLabel r, contribution r)) rows)).

Definition blankRow (id : string) : SalesRow :=
  {| r_id := id; r_product := ""; r_qty := n_lit 0; r_price := n_lit 0;
     r_cost := n_lit 0 |}.

(** [{ ...r, ...patch }] *)
Definition patched (r : SalesRow) (patch : Patch) : SalesRow :=
  {| r_id := default (r_id r) (patch_id patch);
     r_product := default (r_product r) (patch_product patch);
     r_qty := default (r_qty r) (patch_qty patch);
     r_price := default (r_price r) (patch_price patch);
     r_cost := default (r_cost r) (patch_cost patch) |}.

Definition updateRow (id : string) (patch : Patch) (prev : list SalesRow)
    : list SalesRow :=
  map (fun r => if String.eqb (r_id r) id then patched r patch else r) prev.

(** [now] stands for the reading of [Date.now()]. *)
Definition addRow (now : Z) (prev : list SalesRow) : list SalesRow :=
  prev ++ [blankRow ("r-" +:+ pretty now)].

(** [Math.max(1, Math.min(20, bulkRowCount))] *)
Definition bulkCount (bulkRowCount : Z) : Z := Z.max 1 (Z.min 20 bulkRowCount).

(** [now i] stands for the reading of [Date.now()] when row [i] is made;
    the count is a whole number. *)
Definition addBulkRows (now : nat -> Z) (bulkRowCount : Z) (prev : list SalesRow)
    : list SalesRow * list Toast :=
  let count := bulkCount bulkRowCount in
  let newRows :=
    map (fun i => blankRow ("r-" +:+ pretty (now i) +:+ "-" +:+ pretty i))
      (seq 0 (Z.to_nat count)) in
  (prev ++ newRows, [toast_success ("Added " +:+ pretty count +:+ " rows")]).

Definition removeRow (id : string) (prev : list SalesRow) : list SalesRow :=
  if (1 <? length prev)%nat
  then List.filter (fun r => negb (String.eqb (r_id r) id)) prev
  else prev.

Definition clearAllRows (now : Z) : list SalesRow * list Toast :=
  ([blankRow ("r-" +:+ pretty now)], [toast_message "All rows cleared"]).

(** The rows the analyzer starts with. *)
Definition initialRows : list SalesRow := [blankRow "r-1"].

(** What can be done to the rows. *)
Inductive RowsEvent : Type :=
  | RowEdited (id : string) (patch : Patch)
  | RowAdded (now : Z)
  | RowsAdded (now : nat -> Z) (bulkRowCount : Z)
  | RowRemoved (id : string)
  | RowsCleared (now : Z).

Definition rowsAfter (ev : RowsEvent) (prev : list SalesRow) : list SalesRow :=
  match ev with
  | RowEdited id patch => updateRow id patch prev
  | RowAdded now => addRow now prev
  | RowsAdded now n => fst (addBulkRows now n prev)
  | RowRemoved id => removeRow id prev
  | RowsCleared now => fst (clearAllRows now)
  end.

End Analyzer.

Arguments SalesRow : clear implicits.
Arguments Patch : clear implicits.
Arguments Totals : clear implicits.

(** The sum over the rows of quantity times (price - cost). *)
Fixpoint sumContributions (rows : list (SalesRow Q)) : Q :=
  match rows with
  | [] => 0
  | r :: rest => contribution r + sumContributions rest
  end%Q.

(** Two rows of sales: ten tees sold at a gain, two unnamed items at a loss. *)
Definition sampleRows : list (SalesRow Q) := [
  {| r_id := "r-1"; r_product := "Tee"; r_qty := 10; r_price := 28; r_cost := 12 |};
  {| r_id := "r-2"; r_product := ""; r_qty := 2; r_price := 52; r_cost := 60 |} ]%Q.

End MainDashboard.

(** * Properties *)

(** ** Rounding to two decimals *)

Module NumberFacts.

Local Open Scope Q_scope.

Lemma cents_bounds (x : Q) :
  inject_Z (Exact.cents x) <= x * 100 + (1 # 2) < inject_Z (Exact.cents x) + 1.
Proof.
  unfold Exact.cents. split.
  - apply Qfloor_le.
  - pose proof (Qlt_floor (x * 100 + (1 # 2))) as Hlt.
    rewrite inject_Z_plus in Hlt. exact Hlt.
Qed.

(** Below the limit of [toFixed], [round2] is a whole number of cents and
    lies within half a cent of its argument. *)
Lemma round2_nearest_cent (x : Q) :
  Qabs x < Exact.toFixed_limit ->
  (exists n : Z, Exact.round2 x == n # 100)
  /\ Qabs (Exact.round2 x - x) <= 1 # 200.
Proof.
  intros Hlim. unfold Exact.round2.
  destruct (Qle_bool Exact.toFixed_limit (Qabs x)) eqn:Hbig.
  - apply Qle_bool_iff in Hbig. exfalso. apply (Qlt_not_le _ _ Hlim Hbig).
  - destruct (Qle_bool 0 x) eqn:Hsign.
    + pose proof (cents_bounds x) as [Hlo Hhi].
      split.
      * exists (Exact.cents x). unfold Qdiv, Qeq. simpl. lia.
      * apply Qabs_Qle_condition.
        assert (E : inject_Z (Exact.cents x) / 100 == inject_Z (Exact.cents x) * (1 # 100))
          by reflexivity.
        rewrite E. split; lra.
    + pose proof (cents_bounds (- x)) as [Hlo Hhi].
      split.
      * exists (- Exact.cents (- x))%Z. unfold Qdiv, Qeq. simpl. lia.
      * apply Qabs_Qle_condition.
        assert (E : inject_Z (Exact.cents (- x)) / 100
                    == inject_Z (Exact.cents (- x)) * (1 # 100)) by reflexivity.
        rewrite E. split; lra.
Qed.

(** The floor is the one integer that lies at most 1 below. *)
Lemma Qfloor_unique_bounds (z : Q) (n : Z) :
  inject_Z n <= z < inject_Z n + 1 -> Qfloor z = n.
Proof.
  intros [Hlo Hhi].
  pose proof (Qfloor_le z) as Hfl. pose proof (Qlt_floor z) as Hfu.
  rewrite inject_Z_plus in Hfu. change (inject_Z 1) with 1 in Hfu.
  assert (H1 : inject_Z n < inject_Z (Qfloor z) + 1) by lra.
  assert (H2 : inject_Z (Qfloor z) < inject_Z n + 1) by lra.
  change 1 with (inject_Z 1) in H1, H2.
  rewrite <- inject_Z_plus in H1, H2. rewrite <- Zlt_Qlt in H1, H2. lia.
Qed.

(** Between 0 and the limit of [toFixed], [round2] is the number of cents
    over 100. *)
Lemma round2_below_limit (x : Q) :
  0 <= x -> x < Exact.toFixed_limit ->
  Exact.round2 x = inject_Z (Exact.cents x) / 100.
Proof.
  intros Hpos Hlim. unfold Exact.round2.
  destruct (Qle_bool Exact.toFixed_limit (Qabs x)) eqn:Hbig.
  - apply Qle_bool_iff in Hbig. rewrite (Qabs_pos x Hpos) in Hbig.
    exfalso. exact (Qlt_not_le _ _ Hlim Hbig).
  - destruct (Qle_bool 0 x) eqn:Hsign; [reflexivity|].
    apply Qle_bool_iff in Hpos. congruence.
Qed.

(** Whole cents move through the count of cents. *)
Lemma cents_shift (n : Z) (b t : Q) :
  b == inject_Z n / 100 -> Exact.cents (b + t) = (n + Exact.cents t)%Z.
Proof.
  intros Hb. unfold Exact.cents at 1. apply Qfloor_unique_bounds.
  pose proof (cents_bounds t) as [Hlo Hhi].
  assert (Hb' : b * 100 == inject_Z n) by (rewrite Hb; field).
  rewrite inject_Z_plus. split; lra.
Qed.

(** An amount of whole cents is its own rounding. *)
Lemma round2_whole_cents (x : Q) :
  0 <= x -> x < Exact.toFixed_limit -> Exact.wholeCents x -> Exact.round2 x == x.
Proof.
  intros Hpos Hlim [n Hn].
  rewrite (round2_below_limit x Hpos Hlim).
  assert (E : Exact.cents x = n).
  { assert (Hx : x == x + 0) by ring.
    unfold Exact.cents. apply Qfloor_unique_bounds.
    assert (Hn' : x * 100 == inject_Z n) by (rewrite Hn; field).
    split; lra. }
  rewrite E, Hn. reflexivity.
Qed.

(** A tie goes away from zero, as [toFixed] has it. *)
Example round2_ties :
  Exact.round2 (1005 # 1000) == 101 # 100
  /\ Exact.round2 (- (1005 # 1000)) == - (101 # 100)
  /\ Exact.round2 (1004 # 1000) == 1.
Proof. repeat split. Qed.

(** In binary64 the literal 1.005 lies below the tie and rounds down. *)
Example round2_binary64 :
  n_round2 (n_dec 1005 3 : float) = n_lit 1
  /\ n_round2 (n_dec 5225 3 : float) = n_dec 522 2
  /\ n_round2 (n_dec 8 0 : float) = n_lit 8.
Proof. repeat split. Qed.

End NumberFacts.

(** ** The checkout component *)

Module CheckoutFacts.

Import ShoppingCart.

(** *** Derived amounts *)

Section AnyNumber.

Context {num : Type} `{JsNumber num}.

Lemma discount_rule (appliedCoupon : option (Coupon num)) (subtotal : num) :
  registryTruthy -> fromRegistry appliedCoupon ->
  discount appliedCoupon subtotal = ruleDiscount appliedCoupon subtotal.
Proof.
  intros Htruthy Hreg. destruct appliedCoupon as [c|]; [|reflexivity].
  simpl in Hreg. unfold discount, truthyValue, ruleDiscount.
  destruct c as [code ty [v|]]; simpl.
  - rewrite (Htruthy _ v Hreg eq_refl). reflexivity.
  - destruct ty; reflexivity.
Qed.

Lemma shippingCost_rule
    (shippingOptions : list (ShippingMethod num)) (selectedShipping : string)
    (appliedCoupon : option (Coupon num)) (method : ShippingMethod num) :
  selectedShippingMethod shippingOptions selectedShipping = Some method ->
  shippingCost shippingOptions selectedShipping appliedCoupon
  = if hasShippingType appliedCoupon then n_lit 0 else sm_cost method.
Proof. intros Hm. unfold shippingCost. rewrite Hm. reflexivity. Qed.

(** The four derived amounts that do not depend on how a sum is taken. *)
Lemma amounts_rules
    (cart : list (CartItem num)) (appliedCoupon : option (Coupon num))
    (shippingOptions : list (ShippingMethod num)) (selectedShipping : string)
    (taxRate : num) (method : ShippingMethod num) :
  registryTruthy -> fromRegistry appliedCoupon ->
  selectedShippingMethod shippingOptions selectedShipping = Some method ->
  let a := amounts cart appliedCoupon shippingOptions selectedShipping taxRate in
  let base := n_max (n_sub (a_subtotal a) (a_discount a)) (n_lit 0) in
  a_discount a = ruleDiscount appliedCoupon (a_subtotal a)
  /\ a_shippingCost a = (if hasShippingType appliedCoupon then n_lit 0 else sm_cost method)
  /\ a_tax a = n_round2 (n_mul base taxRate)
  /\ a_total a = n_round2 (n_add (n_add base (a_tax a)) (a_shippingCost a)).
Proof.
  intros Htruthy Hreg Hmethod a base.
  split; [exact (discount_rule _ _ Htruthy Hreg)|].
  split; [exact (shippingCost_rule _ _ _ _ Hmethod)|].
  split; reflexivity.
Qed.

End AnyNumber.

Lemma registryTruthy_exact : registryTruthy (num := Q).
Proof.
  intros c v Hin Hv. simpl in Hin.
  destruct Hin as [<-|[<-|[<-|[<-|[]]]]]; simpl in Hv; inversion Hv; reflexivity.
Qed.

Lemma registryTruthy_binary64 : registryTruthy (num := float).
Proof.
  intros c v Hin Hv. simpl in Hin.
  destruct Hin as [<-|[<-|[<-|[<-|[]]]]]; simpl in Hv; inversion Hv; reflexivity.
Qed.

(** The same rules hold for the amounts the program computes in binary64. *)
Lemma amounts_rules_binary64
    (cart : list (CartItem float)) (appliedCoupon : option (Coupon float))
    (shippingOptions : list (ShippingMethod float)) (selectedShipping : string)
    (taxRate : float) (method : ShippingMethod float) :
  fromRegistry appliedCoupon ->
  selectedShippingMethod shippingOptions selectedShipping = Some method ->
  let a := amounts cart appliedCoupon shippingOptions selectedShipping taxRate in
  let base := Binary64.max (a_subtotal a - a_discount a)%float 0%float in
  a_discount a = ruleDiscount appliedCoupon (a_subtotal a)
  /\ a_shippingCost a = (if hasShippingType appliedCoupon then 0%float else sm_cost method)
  /\ a_tax a = Binary64.round2 (base * taxRate)%float
  /\ a_total a = Binary64.round2 (base + a_tax a + a_shippingCost a)%float.
Proof.
  intros Hreg Hmethod.
  exact (amounts_rules cart appliedCoupon shippingOptions selectedShipping taxRate
           method registryTruthy_binary64 Hreg Hmethod).
Qed.

Lemma fold_subtotal (cart : list (CartItem Q)) (acc : Q) :
  (fold_left
     (fun acc item => n_add acc (n_mul (ci_price item) (n_lit (ci_quantity item))))
     cart acc == acc + sumLines cart)%Q.
Proof.
  revert acc. induction cart as [|item rest IH]; intros acc; simpl.
  - ring.
  - rewrite IH. ring.
Qed.

Lemma subtotal_sum (cart : list (CartItem Q)) : (subtotal cart == sumLines cart)%Q.
Proof. unfold subtotal. rewrite fold_subtotal. simpl. ring. Qed.

(** C1. For every cart, applied registry coupon, selected shipping method
    and tax rate, in either arithmetic: the discount is subtotal * value /
    100 for a percent coupon, min(value, subtotal) for a fixed coupon, and
    0 for a shipping coupon or none; the shipping cost is 0 under a
    shipping coupon and the cost of the selected method otherwise; tax =
    round2(max(subtotal - discount, 0) * taxRate); total =
    round2(max(subtotal - discount, 0) + tax + shippingCost). The subtotal
    is the sum over the cart of price times quantity. In the second
    scenario discount = 8.00, tax = 5.22 and total = 83.22, over the
    rationals and in binary64 alike. *)
Theorem derived_amounts {num : Type} `{JsNumber num}
    (cart : list (CartItem num)) (appliedCoupon : option (Coupon num))
    (shippingOptions : list (ShippingMethod num)) (selectedShipping : string)
    (taxRate : num) (method : ShippingMethod num)
    (Htruthy : registryTruthy (num := num))
    (Hcoupon : fromRegistry appliedCoupon)
    (Hmethod : selectedShippingMethod shippingOptions selectedShipping = Some method) :
  let a := amounts cart appliedCoupon shippingOptions selectedShipping taxRate in
  let base := n_max (n_sub (a_subtotal a) (a_discount a)) (n_lit 0) in
  (a_discount a = ruleDiscount appliedCoupon (a_subtotal a)
   /\ a_shippingCost a
      = (if hasShippingType appliedCoupon then n_lit 0 else sm_cost method)
   /\ a_tax a = n_round2 (n_mul base taxRate)
   /\ a_total a = n_round2 (n_add (n_add base (a_tax a)) (a_shippingCost a)))
  /\ (forall lines : list (CartItem Q), subtotal lines == sumLines lines)%Q
  /\ ((a_discount (scenario2 (num := Q)) == 8)%Q
      /\ (a_tax (scenario2 (num := Q)) == 522 # 100)%Q
      /\ (a_total (scenario2 (num := Q)) == 8322 # 100)%Q)
  /\ (a_discount (scenario2 (num := float)) = 8%float
      /\ a_tax (scenario2 (num := float)) = (522 / 100)%float
      /\ a_total (scenario2 (num := float)) = (8322 / 100)%float).
Proof.
  intros a base. split; [|split; [|split]].
  - exact (amounts_rules cart appliedCoupon shippingOptions selectedShipping taxRate
             method Htruthy Hcoupon Hmethod).
  - exact subtotal_sum.
  - split; [|split]; vm_compute; reflexivity.
  - split; [|split]; vm_compute; reflexivity.
Qed.

Lemma derived_amounts_witness :
  registryTruthy (num := float)
  /\ fromRegistry (Some (SAVE10 (num := float)))
  /\ selectedShippingMethod (DEFAULT_SHIPPING (num := float)) "standard"
     = head DEFAULT_SHIPPING
  /\ a_total (scenario2 (num := float))
     = Binary64.round2 (72 + 522 / 100 + 6)%float.
Proof.
  split; [exact registryTruthy_binary64|].
  split; [left; reflexivity|]. split; [reflexivity|].
  exact (proj2 (proj2 (proj2 (proj1
    (derived_amounts (num := float) DEFAULT_ITEMS (Some SAVE10) DEFAULT_SHIPPING
       "standard" (n_dec 725 4)
       {| sm_id := "standard"; sm_label := "Standard";
          sm_description := Some "3-5 business days";
          sm_eta := Some "Arrives in 3-5 days"; sm_cost := n_lit 6 |}
       registryTruthy_binary64 (or_introl eq_refl) eq_refl))))).
Defined.

(** Where the stated formula is right: over the rationals, for a taxable
    base and a shipping cost of whole cents and a tax rate that is not
    negative, rounding once and adding the shipping cost afterwards gives
    the total of the component. *)
Lemma round2_sum_whole_cents (base ship rate : Q) :
  (0 <= base -> 0 <= ship -> 0 <= rate ->
   Exact.wholeCents base -> Exact.wholeCents ship ->
   base * (1 + rate) + ship + 1 < Exact.toFixed_limit ->
   Exact.round2 (base + Exact.round2 (base * rate) + ship)
   == Exact.round2 (base * (1 + rate)) + ship)%Q.
Proof.
  intros Hbase Hship Hrate [nb Hnb] [ns Hns] Hlim.
  set (t := (base * rate)%Q) in *.
  assert (Ht : (0 <= t)%Q) by (apply Qmult_le_0_compat; assumption).
  assert (Hsplit : (base * (1 + rate) == base + t)%Q) by (unfold t; ring).
  assert (Htlim : (t < Exact.toFixed_limit)%Q) by lra.
  pose proof (NumberFacts.cents_bounds t) as [Hlo Hhi].
  assert (HT : (0 <= Exact.cents t)%Z).
  { unfold Exact.cents. change 0%Z with (Qfloor 0). apply Qfloor_resp_le. lra. }
  assert (HTq : (0 <= inject_Z (Exact.cents t))%Q)
    by (change 0%Q with (inject_Z 0); rewrite <- Zle_Qle; exact HT).
  rewrite (NumberFacts.round2_below_limit t Ht Htlim).
  set (T := Exact.cents t) in *.
  assert (Hnb' : (base * 100 == inject_Z nb)%Q) by (rewrite Hnb; field).
  assert (Hns' : (ship * 100 == inject_Z ns)%Q) by (rewrite Hns; field).
  assert (HTdiv : (inject_Z T / 100 == inject_Z T * (1 # 100))%Q) by reflexivity.
  rewrite NumberFacts.round2_whole_cents.
  - rewrite (NumberFacts.round2_below_limit (base * (1 + rate))); [| nra | lra].
    assert (E : Exact.cents (base * (1 + rate)) = (nb + T)%Z).
    { unfold Exact.cents. apply NumberFacts.Qfloor_unique_bounds.
      rewrite inject_Z_plus. split; lra. }
    rewrite E, inject_Z_plus. unfold Qdiv. change (/ 100)%Q with (1 # 100)%Q. lra.
  - lra.
  - lra.
  - exists (nb + T + ns)%Z. rewrite !inject_Z_plus.
    unfold Qdiv. change (/ 100)%Q with (1 # 100)%Q. lra.
Qed.

Lemma stated_total_for_whole_cents
    (cart : list (CartItem Q)) (appliedCoupon : option (Coupon Q))
    (shippingOptions : list (ShippingMethod Q)) (selectedShipping : string)
    (taxRate : Q) :
  let a := amounts cart appliedCoupon shippingOptions selectedShipping taxRate in
  (Exact.wholeCents (a_taxedSubtotal a) -> Exact.wholeCents (a_shippingCost a) ->
   0 <= a_shippingCost a -> 0 <= taxRate ->
   a_taxedSubtotal a * (1 + taxRate) + a_shippingCost a + 1 < Exact.toFixed_limit ->
   a_total a
   == statedTotal (a_subtotal a) (a_discount a) taxRate (a_shippingCost a))%Q.
Proof.
  intros a Hbase Hship Hpos Hrate Hlim.
  apply (round2_sum_whole_cents (a_taxedSubtotal a) (a_shippingCost a) taxRate);
    try assumption.
  apply Q.le_max_r.
Qed.

(** The first, third and fourth end-to-end scenarios, in binary64. *)
Example scenario1_binary64 :
  let a := scenario1 (num := float) in
  a_subtotal a = n_lit 80 /\ a_discount a = n_lit 0
  /\ a_tax a = n_dec 580 2 /\ a_total a = n_dec 9180 2.
Proof. repeat split. Qed.

Example scenario3_binary64 :
  let a := scenario3 (num := float) in
  a_shippingCost a = n_lit 0 /\ a_discount a = n_lit 0
  /\ a_tax a = n_round2 (n_mul (a_subtotal a) (n_dec 725 4)).
Proof. repeat split. Qed.

Example scenario4 :
  let result := updateQty (num := float) "sku-2" 99 DEFAULT_ITEMS in
  fst result = DEFAULT_ITEMS /\ rejected (snd result) = true.
Proof. repeat split. Qed.

(** In the socks scenario the total the component shows and the total of
    the stated formula are one cent apart, in both arithmetics. *)
Lemma stated_total_off_by_a_cent :
  let a := socksScenario (num := Q) in
  let b := socksScenario (num := float) in
  ((a_total a == 14047 # 100)%Q
   /\ (statedTotal (a_subtotal a) (a_discount a) (n_dec 725 4) (a_shippingCost a)
       == 14046 # 100)%Q)
  /\ (a_total b = n_dec 14047 2
      /\ statedTotal (a_subtotal b) (a_discount b) (n_dec 725 4) (a_shippingCost b)
         = n_dec 14046 2).
Proof. repeat split; vm_compute; reflexivity. Qed.

(** C2, refuted as stated: with five pairs of socks at 29.5, coupon
    WELCOME15, standard shipping and tax rate 0.0725 the total differs from
    round2(max(subtotal - discount, 0) * (1 + taxRate)) + shippingCost,
    over the rationals and in binary64. *)
Lemma stated_total_fails :
  let a := socksScenario (num := Q) in
  let b := socksScenario (num := float) in
  ~ (a_total a
     == statedTotal (a_subtotal a) (a_discount a) (n_dec 725 4) (a_shippingCost a))%Q
  /\ PrimFloat.eqb (a_total b)
       (statedTotal (a_subtotal b) (a_discount b) (n_dec 725 4) (a_shippingCost b))
     = false.
Proof.
  split.
  - vm_compute. discriminate.
  - vm_compute. reflexivity.
Qed.

(** C2, amended. For every cart, tax rate, applied coupon and selected
    shipping method, in either arithmetic: the total is round2 of the sum
    of the taxable base max(subtotal - discount, 0), the tax already
    rounded to two decimals, and the shipping cost, where the shipping
    cost is 0 under a shipping coupon and the cost of the selected method
    otherwise. *)
Theorem total_rounds_the_sum {num : Type} `{JsNumber num}
    (cart : list (CartItem num)) (appliedCoupon : option (Coupon num))
    (shippingOptions : list (ShippingMethod num)) (selectedShipping : string)
    (taxRate : num) (method : ShippingMethod num)
    (Hmethod : selectedShippingMethod shippingOptions selectedShipping = Some method) :
  let a := amounts cart appliedCoupon shippingOptions selectedShipping taxRate in
  let base := n_max (n_sub (a_subtotal a) (a_discount a)) (n_lit 0) in
  let shipping := if hasShippingType appliedCoupon then n_lit 0 else sm_cost method in
  a_total a = n_round2 (n_add (n_add base (n_round2 (n_mul base taxRate))) shipping).
Proof.
  intros a base shipping. subst a base shipping. simpl.
  rewrite (shippingCost_rule _ _ _ _ Hmethod). reflexivity.
Qed.

Lemma total_rounds_the_sum_witness :
  selectedShippingMethod (DEFAULT_SHIPPING (num := float)) "express"
  = DEFAULT_SHIPPING !! 1%nat
  /\ a_total (amounts [socks] (Some FREESHIP) DEFAULT_SHIPPING "express" (n_dec 725 4))
     = n_round2 (n_add (n_add (n_dec 1475 1) (n_round2 (n_mul (n_dec 1475 1) (n_dec 725 4))))
                       (n_lit 0)).
Proof.
  split; [reflexivity|].
  exact (total_rounds_the_sum (num := float) [socks] (Some FREESHIP) DEFAULT_SHIPPING
           "express" (n_dec 725 4)
           {| sm_id := "express"; sm_label := "Express";
              sm_description := Some "1-2 business days";
              sm_eta := Some "Arrives in 1-2 days"; sm_cost := n_lit 18 |}
           eq_refl).
Defined.

(** *** The discount against the subtotal *)




(** *** The quantity guard *)

Section Handlers.

Context {num : Type} `{JsNumber num}.

Lemma updateQty_length (id : string) (q : Z) (prev : list (CartItem num)) :
  length (fst (updateQty id q prev)) = length prev.
Proof.
  induction prev as [|it rest IH]; [reflexivity|]. simpl.
  destruct (updateQty id q rest) as [rest' ts']. simpl in IH.
  destruct (negb (ci_id it =? id)%string); [simpl; congruence|].
  destruct (validateQty it q) as [[|] ts]; simpl; congruence.
Qed.

(** Lines with another id are left alone. *)
Lemma updateQty_other (id : string) (q : Z) (prev : list (CartItem num)) (i : nat)
    (it : CartItem num) :
  prev !! i = Some it -> ci_id it <> id ->
  fst (updateQty id q prev) !! i = Some it.
Proof.
  revert i. induction prev as [|x rest IH]; intros i Hi Hid; [discriminate|].
  simpl. destruct (updateQty id q rest) as [rest' ts']. simpl in IH.
  destruct i as [|i]; simpl in Hi.
  - inversion Hi; subst x. apply String.eqb_neq in Hid. rewrite Hid. reflexivity.
  - destruct (negb (ci_id x =? id)%string); [exact (IH i Hi Hid)|].
    destruct (validateQty x q) as [[|] ts]; exact (IH i Hi Hid).
Qed.

(** A request above the stock leaves the quantity as it was and raises an
    error toast. *)
Lemma updateQty_over_stock (id : string) (q : Z) (prev : list (CartItem num)) (i : nat)
    (it : CartItem num) :
  prev !! i = Some it -> ci_id it = id -> 1 <= q -> ci_stock it < q ->
  fst (updateQty id q prev) !! i = Some it
  /\ rejected (snd (updateQty id q prev)) = true.
Proof.
  revert i. induction prev as [|x rest IH]; intros i Hi Hid Hq Hs; [discriminate|].
  simpl. destruct (updateQty id q rest) as [rest' ts']. simpl in IH.
  destruct i as [|i]; simpl in Hi.
  - inversion Hi; subst x. apply String.eqb_eq in Hid. rewrite Hid. simpl.
    unfold validateQty.
    destruct (Z.ltb_spec q 1); [lia|]. destruct (Z.gtb_spec q (ci_stock it)); [|lia].
    simpl. split; reflexivity.
  - destruct (IH i Hi Hid Hq Hs) as [IH1 IH2].
    destruct (negb (ci_id x =? id)%string); [split; assumption|].
    destruct (validateQty x q) as [[|] ts]; simpl; split; try assumption;
      unfold rejected in *; rewrite existsb_app, IH2; apply orb_true_r.
Qed.

(** A request between 1 and the stock becomes the quantity. *)
Lemma updateQty_in_range (id : string) (q : Z) (prev : list (CartItem num)) (i : nat)
    (it : CartItem num) :
  prev !! i = Some it -> ci_id it = id -> 1 <= q <= ci_stock it ->
  fst (updateQty id q prev) !! i = Some (setQuantity it q).
Proof.
  revert i. induction prev as [|x rest IH]; intros i Hi Hid Hq; [discriminate|].
  simpl. destruct (updateQty id q rest) as [rest' ts']. simpl in IH.
  destruct i as [|i]; simpl in Hi.
  - inversion Hi; subst x. apply String.eqb_eq in Hid. rewrite Hid. simpl.
    unfold validateQty.
    destruct (Z.ltb_spec q 1); [lia|]. destruct (Z.gtb_spec q (ci_stock it)); [lia|].
    reflexivity.
  - destruct (negb (ci_id x =? id)%string); [exact (IH i Hi Hid Hq)|].
    destruct (validateQty x q) as [[|] ts]; exact (IH i Hi Hid Hq).
Qed.

(** Requests of at least 1 keep every line within [1, stock]. *)
Lemma updateQty_keeps_invariant (id : string) (q : Z) (prev : list (CartItem num)) :
  1 <= q -> Forall lineInvariant prev ->
  Forall lineInvariant (fst (updateQty id q prev)).
Proof.
  intros Hq. induction 1 as [|x rest Hx Hrest IH]; [constructor|].
  simpl. destruct (updateQty id q rest) as [rest' ts']. simpl in IH.
  destruct (negb (ci_id x =? id)%string); [constructor; assumption|].
  unfold validateQty.
  destruct (Z.ltb_spec q 1); [lia|]. destruct (Z.gtb_spec q (ci_stock x)); simpl.
  - constructor; assumption.
  - constructor; [|assumption]. unfold lineInvariant. simpl. lia.
Qed.

(** C3, on the failing input: in the default cart, which satisfies the
    invariant, the request 0 for the tee passes [validateQty] without a
    toast and becomes the quantity; the line is left outside [1, stock]. *)
Theorem quantity_below_one_accepted :
  let prev := DEFAULT_ITEMS (num := num) in
  let result := updateQty "sku-1" 0 prev in
  Forall lineInvariant prev
  /\ map ci_quantity (fst result) = [0; 1]
  /\ snd result = []
  /\ ~ Forall lineInvariant (fst result).
Proof.
  simpl. split; [|split; [reflexivity|split; [reflexivity|]]].
  - repeat constructor; simpl; lia.
  - intros Hall. inversion Hall as [|x l Hx Hl]. unfold lineInvariant in Hx.
    simpl in Hx. lia.
Qed.

(** *** Coupons *)

Lemma findCoupon_some (c : string) (found : Coupon num) :
  findCoupon c = Some found -> In found COUPONS /\ c_code found = c.
Proof.
  intros Hf. apply find_some in Hf. destruct Hf as [Hin Heq].
  split; [exact Hin|]. apply String.eqb_eq. exact Heq.
Qed.

(** C7, amended. The submitted code is trimmed and uppercased and looked
    up in the registry. An empty normalised code changes nothing and
    raises no toast; a non-empty one that matches no entry leaves the
    applied coupon unchanged and signals a rejection (so does "NOPE");
    a match replaces the applied coupon, whatever it was, by the entry of
    the registry that carries the code. *)
Theorem applyCoupon_outcome (couponInput : string) (appliedCoupon : option (Coupon num)) :
  let code := normalized couponInput in
  let result := applyCoupon couponInput appliedCoupon in
  match findCoupon code with
  | Some found =>
      fst result = Some found /\ In found COUPONS /\ c_code found = code
      /\ rejected (snd result) = false
  | None =>
      fst result = appliedCoupon
      /\ rejected (snd result) = JsString.truthy code
      /\ (code = "" -> snd result = [])
  end
  /\ fst (applyCoupon "NOPE" appliedCoupon) = appliedCoupon
  /\ rejected (snd (applyCoupon "NOPE" appliedCoupon)) = true.
Proof.
  intros code result. split; [|split; reflexivity].
  subst result. unfold applyCoupon. fold (normalized couponInput). fold code.
  destruct code as [|ch rest] eqn:Hcode.
  - simpl. repeat split.
  - simpl JsString.truthy. simpl negb. cbv iota.
    destruct (findCoupon (String ch rest)) as [found|] eqn:Hfind.
    + destruct (findCoupon_some _ _ Hfind) as [Hin Hc]. simpl. repeat split; assumption.
    + simpl. repeat split. discriminate.
Qed.

End Handlers.

(** C7, refuted as stated: a blank submission normalises to the empty
    code, which matches no entry of the registry, and yet no rejection is
    signalled: the handler returns before the lookup. *)
Lemma blank_code_not_rejected :
  normalized "   " = ""
  /\ findCoupon (num := Q) (normalized "   ") = None
  /\ rejected (snd (applyCoupon (num := Q) "   " None)) = false.
Proof. repeat split. Qed.

(** *** The step machine *)

Section StepMachine.

Context {num : Type} `{JsNumber num}.

Variable props : Props num.

Lemma onStep_true (s : CheckoutStep) (st : State num) :
  onStep s st = true <-> st_step st = s.
Proof.
  unfold onStep. destruct (st_step st), s; simpl; split; intros E;
    try reflexivity; discriminate.
Qed.

(** An event that can occur is offered by the markup of its step. *)
Lemma enabled_offered (st : State num) (ev : Event) :
  enabled props st ev = true -> offered props st ev = true.
Proof.
  destruct ev; unfold enabled; intros E;
    try (apply andb_true_iff in E; exact (proj2 E)); exact E.
Qed.

(** Every step renders but the last, whose markup names [ShoppingBasket]. *)
Lemma renders_but_success (s : CheckoutStep) :
  renders s = negb (step_eqb s Success).
Proof. destruct s; reflexivity. Qed.

(** What an event does to the step and to the order in flight. *)
Lemma handle_step (st : State num) (ev : Event) :
  let st' := fst (handle props st ev) in
  match ev with
  | CheckoutClick => st_step st' = Details /\ st_pending st' = st_pending st
  | ContinueToShippingClick => st_step st' = Shipping /\ st_pending st' = st_pending st
  | ContinueToPaymentClick => st_step st' = Payment /\ st_pending st' = st_pending st
  | ContinueToReviewClick => st_step st' = Review /\ st_pending st' = st_pending st
  | BackClick => st_step st' = goBack (st_step st) /\ st_pending st' = st_pending st
  | ContinueShoppingClick => st_step st' = Cart /\ st_pending st' = st_pending st
  | PlaceOrderClick => st_step st' = st_step st /\ st_isPlacingOrder st' = true
  | LatencyElapsed =>
      st_pending st' = None
      /\ (st_step st' = st_step st \/ st_step st' = Success)
  | _ => st_step st' = st_step st /\ st_pending st' = st_pending st
  end.
Proof.
  destruct st as [step cart input applied ship pay addrId guest email note addr placing pend].
  destruct ev; simpl; try (split; reflexivity); try reflexivity.
  - destruct (updateQty id next cart); split; reflexivity.
  - destruct (applyCoupon input applied); split; reflexivity.
  - unfold orderPlaced; simpl. destruct pend as [[e|]|]; simpl; auto.
Qed.

(** The step [goBack] leads to, step by step. *)
Lemma goBack_steps (s : CheckoutStep) :
  goBack s =
  match s with
  | Cart | Details => Cart
  | Shipping => Details
  | Payment => Shipping
  | Review => Payment
  | Success => Review
  end.
Proof. destruct s; reflexivity. Qed.

(** No order is in flight on the last step: [Success] is entered when the
    latency ends, which consumes the order, and "Place order" is offered
    on [Review] alone. *)
Lemma success_has_no_pending (st : State num) :
  reachable props st -> st_step st = Success -> st_pending st = None.
Proof.
  induction 1 as [st [_ Hp]|st st' Hreach IH [ev [Hen Hst']]]; intros Hs; [exact Hp|].
  pose proof (handle_step st ev) as Hh. rewrite Hst' in Hh.
  apply enabled_offered in Hen.
  destruct ev; simpl in Hh, Hen; unfold onStep in Hen.
  all: try (destruct Hh as [Hstep Hpend]; rewrite Hpend; apply IH; congruence).
  all: try (destruct Hh as [Hstep _]; congruence).
  - (* BackClick: it is offered on the four middle steps *)
    destruct Hh as [Hstep _]. rewrite goBack_steps in Hstep.
    destruct (st_step st); simpl in Hen; try discriminate; congruence.
  - (* PlaceOrderClick: it is offered on Review *)
    destruct Hh as [Hstep _]. rewrite <- Hstep, Hs in Hen. discriminate.
Qed.

(** On the last step nothing can occur: its markup does not render, and
    no order is in flight. *)
Lemma nothing_enabled_on_success (st : State num) (ev : Event) :
  st_step st = Success -> st_pending st = None -> enabled props st ev = false.
Proof.
  intros Hs Hp.
  destruct ev; unfold enabled; rewrite ?Hs; try reflexivity.
  simpl. rewrite Hp. reflexivity.
Qed.

(** C9. Going back from any step after the first leads to the step just
    before it in the order cart, details, shipping, payment, review,
    success. The last step does not render: its markup names
    [ShoppingBasket], which the module does not import. So in every
    reachable state on [Success] no event can occur and the machine has no
    transition at all, neither back to [Review] nor on to [Cart]; the
    handler of "Continue shopping", which would lead to [Cart], is never
    offered. *)
Theorem success_is_a_dead_end (st : State num)
    (Hreach : reachable props st) (Hsuccess : st_step st = Success) :
  (forall s, 0 < position s -> position (goBack s) = position s - 1)
  /\ bound "ShoppingBasket" = false
  /\ In "ShoppingBasket" (stepMarkup Success)
  /\ renders Success = false
  /\ (forall ev, enabled props st ev = false)
  /\ (forall st', ~ transition props st st')
  /\ offered props st ContinueShoppingClick = true
  /\ st_step (fst (handle props st ContinueShoppingClick)) = Cart.
Proof.
  pose proof (success_has_no_pending st Hreach Hsuccess) as Hpend.
  split; [intros s Hs; destruct s; simpl in *; try reflexivity; lia|].
  split; [reflexivity|].
  split; [simpl; tauto|].
  split; [reflexivity|].
  split; [intros ev; exact (nothing_enabled_on_success st ev Hsuccess Hpend)|].
  split.
  - intros st' [ev [Hen _]].
    rewrite (nothing_enabled_on_success st ev Hsuccess Hpend) in Hen. discriminate Hen.
  - split; [apply onStep_true; exact Hsuccess|].
    apply (handle_step st ContinueShoppingClick).
Qed.

Lemma run_reachable (st st' : State num) (evs : list Event) :
  reachable props st -> run props st evs = Some st' -> reachable props st'.
Proof.
  revert st. induction evs as [|ev evs IH]; intros st Hreach Hrun; simpl in Hrun.
  - inversion Hrun; subst st'. exact Hreach.
  - destruct (enabled props st ev) eqn:Hen; [|discriminate].
    apply (IH _ (reachable_step _ _ _ Hreach (ex_intro _ ev (conj Hen eq_refl))) Hrun).
Qed.

End StepMachine.

(** The state a guest session ends in. *)
Lemma guestSession_ends_on_success :
  st_step <$> run (num := Q) defaultProps (initialState defaultProps) guestSession
  = Some Success.
Proof. reflexivity. Qed.

Lemma guestSession_reachable :
  reachable defaultProps (stateAfter guestSession).
Proof.
  apply (run_reachable defaultProps (initialState defaultProps) _ guestSession);
    [apply reachable_mounted; split; reflexivity|reflexivity].
Qed.

Lemma success_is_a_dead_end_witness :
  run defaultProps (initialState defaultProps) guestSession = Some (stateAfter guestSession)
  /\ reachable defaultProps (stateAfter guestSession)
  /\ st_step (stateAfter guestSession) = Success
  /\ enabled defaultProps (stateAfter guestSession) ContinueShoppingClick = false.
Proof.
  split; [reflexivity|]. split; [exact guestSession_reachable|].
  split; [reflexivity|].
  exact (proj1 (proj2 (proj2 (proj2 (proj2
    (success_is_a_dead_end defaultProps (stateAfter guestSession)
       guestSession_reachable eq_refl))))) ContinueShoppingClick).
Defined.

End CheckoutFacts.

(** ** The catalog component *)

Module CatalogFacts.

Import ProductCatalog.

Section Catalog.

Context {num : Type} `{JsNumber num}.

Variable localeCompare : string -> string -> Z.

(** *** Stock gating *)

(** The add-to-cart guard accepts exactly the available products. *)
Lemma guard_is_available (callback : option bool) (p : CatalogProduct num) :
  fst (handleAddToCart callback p) = available p.
Proof.
  unfold handleAddToCart, available.
  destruct (notMarkedOut p); simpl; [|reflexivity].
  destruct (p_inventoryCount p) as [n|]; simpl; [|reflexivity].
  destruct (Z.leb_spec n 0), (Z.gtb_spec n 0); simpl; try reflexivity; lia.
Qed.

(** The in-stock-only filter agrees with it on products that carry a count. *)
Lemma filter_is_available_with_count (p : CatalogProduct num) (n : Z) :
  p_inventoryCount p = Some n -> keptInStock p = available p.
Proof. intros Hn. unfold keptInStock, available. rewrite Hn. reflexivity. Qed.

(** The two sites differ exactly on the products without a count that are
    not marked out of stock. *)
Lemma filter_differs_from_guard (callback : option bool) (p : CatalogProduct num) :
  keptInStock p <> fst (handleAddToCart callback p)
  <-> p_inventoryCount p = None /\ notMarkedOut p = true.
Proof.
  rewrite guard_is_available. unfold keptInStock, available.
  destruct (notMarkedOut p), (p_inventoryCount p) as [n|]; simpl; split;
    try (intros Hne; exfalso; apply Hne; reflexivity);
    try (intros [E1 E2]; discriminate);
    try (intros _; split; reflexivity);
    intros _; discriminate.
Qed.

(** C4, on the failing input: a product without an inventory count that
    is not marked out of stock is kept by the in-stock-only filter of the
    query engine, is refused by the add-to-cart guard, and does not satisfy
    the availability predicate. *)
Theorem in_stock_filter_keeps_what_the_guard_refuses (callback : option bool) :
  let f := withOnlyInStock true (initialFilters 12) in
  keptInStock (giftCard (num := num)) = true
  /\ items (computed localeCompare [giftCard] f) = [giftCard]
  /\ handleAddToCart callback (giftCard (num := num)) = (false, [toast_error "Out of stock"])
  /\ available (giftCard (num := num)) = false.
Proof. repeat split. Qed.

(** *** Pagination *)

(** Sorting rearranges the products and loses none. *)
Lemma insertSorted_Permutation {A} (positive : A -> A -> bool) (a : A) (l : list A) :
  insertSorted positive a l ≡ₚ a :: l.
Proof.
  induction l as [|b l IH]; [reflexivity|]. simpl.
  destruct (positive a b); [|reflexivity].
  rewrite IH. apply Permutation_swap.
Qed.

Lemma sortWith_Permutation {A} (positive : A -> A -> bool) (l : list A) :
  sortWith positive l ≡ₚ l.
Proof.
  induction l as [|a l IH]; [reflexivity|]. simpl.
  rewrite insertSorted_Permutation, IH. reflexivity.
Qed.

Lemma sorted_Permutation (o : SortOption) (l : list (CatalogProduct num)) :
  sorted localeCompare o l ≡ₚ l.
Proof. destruct o; simpl; try apply sortWith_Permutation; reflexivity. Qed.

Lemma sorted_length (o : SortOption) (l : list (CatalogProduct num)) :
  length (sorted localeCompare o l) = length l.
Proof. apply Permutation_length, sorted_Permutation. Qed.

(** [ceilDiv a b] is the least number of pages of size [b] that hold [a]. *)
Lemma ceilDiv_spec (a b : Z) :
  0 < b -> (ceilDiv a b - 1) * b < a <= ceilDiv a b * b.
Proof.
  intros Hb. unfold ceilDiv.
  pose proof (Z.div_mod (- a) b ltac:(lia)) as Hdm.
  pose proof (Z.mod_pos_bound (- a) b Hb) as Hm.
  nia.
Qed.

(** A slice from a position within the list is a [take] of a [drop]. *)
Lemma slice_window {A} (l : list A) (start size : Z) :
  0 <= start -> 0 <= size ->
  slice l start (start + size) = take (Z.to_nat size) (drop (Z.to_nat start) l).
Proof.
  intros Hs Hz. unfold slice, sliceIndex.
  set (len := Z.of_nat (length l)).
  assert (Hlen : 0 <= len) by (unfold len; lia).
  destruct (Z.ltb_spec start 0); [lia|].
  destruct (Z.ltb_spec (start + size) 0); [lia|].
  destruct (Z.le_gt_cases start len) as [Hin|Hout].
  - rewrite (Z.min_l start len) by lia.
    destruct (Z.le_gt_cases (start + size) len) as [Hin'|Hout'].
    + rewrite Z.min_l by lia. f_equal. lia.
    + rewrite Z.min_r by lia.
      rewrite !take_ge; [reflexivity| |]; rewrite length_drop; unfold len in *; lia.
  - rewrite !Z.min_r by lia. replace (Z.to_nat (len - len)) with 0%nat by lia.
    rewrite drop_ge by (unfold len in *; lia).
    rewrite drop_ge by (unfold len in *; lia). rewrite !take_nil. reflexivity.
Qed.

(** The clamp of the remembered page. *)
Lemma currentPage_clamped (products : list (CatalogProduct num)) (f : Filters) :
  let c := computed localeCompare products f in
  1 <= totalPages c /\ currentPage c = Z.min (page f) (totalPages c).
Proof. simpl. split; [lia|reflexivity]. Qed.

(** Every way the pager sets the page keeps it a page number, so the
    remembered page is at least 1 throughout a session. *)
Lemma setPage_at_least_one
    (products : list (CatalogProduct num)) (f : Filters) (ev : PageEvent) :
  1 <= page f ->
  1 <= setPage (computed localeCompare products f) (page f) ev.
Proof.
  intros Hpage.
  destruct (currentPage_clamped products f) as [Hpages Hcur].
  set (c := computed localeCompare products f) in *.
  destruct ev; simpl; unfold canPrev, canNext;
    repeat match goal with
    | |- context [?a >? ?b] => destruct (Z.gtb_spec a b)
    | |- context [?a <? ?b] => destruct (Z.ltb_spec a b)
    end; simpl; lia.
Qed.

(** C5. For a page size of at least 1 and a remembered page (a page
    number, so at least 1): [total] counts the filtered products;
    [totalPages] is max(1, k) for the least k with total <= k * pageSize,
    that is ceil(total / pageSize); [currentPage] is min(page,
    totalPages), never above the remembered page; the items are the window
    of that page, at most [pageSize] of them, and all [total] of them
    whenever total <= pageSize. *)
Theorem computed_pagination
    (products : list (CatalogProduct num)) (f : Filters)
    (Hsize : 1 <= pageSize f) (Hpage : 1 <= page f) :
  let c := computed localeCompare products f in
  let list := sorted localeCompare (sort f) (filtered products f) in
  total c = Z.of_nat (length (filtered products f))
  /\ (exists k, (k - 1) * pageSize f < total c <= k * pageSize f
                /\ totalPages c = Z.max 1 k)
  /\ currentPage c = Z.min (page f) (totalPages c)
  /\ 1 <= currentPage c <= page f
  /\ items c
     = take (Z.to_nat (pageSize f))
         (drop (Z.to_nat ((currentPage c - 1) * pageSize f)) list)
  /\ Z.of_nat (length (items c)) <= pageSize f
  /\ (total c <= pageSize f ->
      items c = list /\ Z.of_nat (length (items c)) = total c).
Proof.
  intros c list.
  assert (Htotal : total c = Z.of_nat (length list)) by reflexivity.
  pose proof (ceilDiv_spec (total c) (pageSize f) ltac:(lia)) as Hceil.
  assert (Hpages : totalPages c = Z.max 1 (ceilDiv (total c) (pageSize f)))
    by reflexivity.
  assert (Hcur : currentPage c = Z.min (page f) (totalPages c)) by reflexivity.
  assert (Hitems : items c
            = take (Z.to_nat (pageSize f))
                (drop (Z.to_nat ((currentPage c - 1) * pageSize f)) list)).
  { change (items c) with
      (slice list ((currentPage c - 1) * pageSize f)
         ((currentPage c - 1) * pageSize f + pageSize f)).
    apply slice_window; nia. }
  split; [rewrite Htotal; unfold list; rewrite sorted_length; reflexivity|].
  split; [exists (ceilDiv (total c) (pageSize f)); split; assumption|].
  split; [exact Hcur|].
  split; [lia|].
  split; [exact Hitems|].
  split.
  - rewrite Hitems, length_take. lia.
  - intros Hle.
    assert (Hone : currentPage c = 1) by nia.
    rewrite Hitems, Hone. simpl. rewrite drop_0.
    rewrite take_ge by lia. split; [reflexivity|]. symmetry; exact Htotal.
Qed.

End Catalog.

Lemma computed_pagination_witness :
  1 <= pageSize (initialFilters 12)
  /\ 1 <= page (initialFilters 12)
  /\ items (computed codeUnitCompare [giftCard] (initialFilters 12))
     = [giftCard (num := Q)].
Proof.
  split; [simpl; lia|]. split; [simpl; lia|].
  refine (proj1 (proj2 (proj2 (proj2 (proj2 (proj2 (proj2
    (computed_pagination codeUnitCompare [giftCard] (initialFilters 12) _ _)))))) _));
    simpl; lia.
Defined.

(** The engine on the five products of the page, two per page. *)
Example cheapest_first :
  map p_id (items (computed codeUnitCompare (Page.products (num := float))
                     (withPaging PriceAsc 2 1 (initialFilters 12))))
  = ["p-001"; "p-004"].
Proof. reflexivity. Qed.

(** A remembered page beyond the last one is clamped down to it. *)
Example page_clamped_down :
  let c := computed codeUnitCompare (Page.products (num := float))
             (withPaging PriceDesc 2 9 (initialFilters 12)) in
  totalPages c = 3 /\ currentPage c = 3 /\ map p_id (items c) = ["p-001"].
Proof. repeat split. Qed.

(** The clamp never raises the page: a page 0, which the pager never
    sets, would show nothing. *)
Example page_zero_shows_nothing :
  let c := computed codeUnitCompare [giftCard (num := float)]
             (withPaging Relevance 12 0 (initialFilters 12)) in
  total c = 1 /\ currentPage c = 0 /\ items c = [].
Proof. repeat split. Qed.

(** *** The compare selection *)

Section Compare.

Implicit Types (m prev : gmap string bool) (id k : string).

Lemma flagged_insert m id k (v : bool) :
  flagged (<[id := v]> m) k = if decide (id = k) then v else flagged m k.
Proof. unfold flagged. rewrite lookup_insert. destruct (decide (id = k)); reflexivity. Qed.

Lemma flagged_delete m id k :
  flagged (delete id m) k = if decide (id = k) then false else flagged m k.
Proof. unfold flagged. rewrite lookup_delete. destruct (decide (id = k)); reflexivity. Qed.

(** Two maps that agree on the listed keys give the same selection. *)
Lemma filter_flagged_agree m m' (keys : list string) :
  (forall k, In k keys -> flagged m k = flagged m' k) ->
  List.filter (flagged m) keys = List.filter (flagged m') keys.
Proof.
  induction keys as [|k keys IH]; intros Hagree; [reflexivity|]. simpl.
  rewrite (Hagree k (or_introl eq_refl)), IH; [reflexivity|].
  intros k' Hk'. apply Hagree. right. exact Hk'.
Qed.

Lemma filter_Permutation_length {A} (test : A -> bool) (l l' : list A) :
  l ≡ₚ l' -> length (List.filter test l) = length (List.filter test l').
Proof.
  induction 1 as [|x l l' _ IH|x y l|l l' l'' _ IH1 _ IH2]; simpl.
  - reflexivity.
  - destruct (test x); simpl; congruence.
  - destruct (test x), (test y); reflexivity.
  - congruence.
Qed.

(** The number of selected keys, split at one key. *)
Lemma activeKeys_split m id :
  length (activeKeys m)
  = ((if flagged m id then 1 else 0) + length (activeKeys (delete id m)))%nat.
Proof.
  unfold activeKeys.
  destruct (m !! id) as [v|] eqn:Hid.
  - pose proof (map_to_list_delete m id v Hid) as Hperm.
    assert (Hf : flagged m id = v) by (unfold flagged; rewrite Hid; reflexivity).
    rewrite <- (filter_Permutation_length (flagged m) _ _
                  (fmap_Permutation fst _ _ Hperm)).
    cbn [fmap list_fmap fst List.filter]. rewrite Hf.
    rewrite (filter_flagged_agree m (delete id m)).
    + destruct v; reflexivity.
    + intros k Hk. rewrite flagged_delete. destruct (decide (id = k)) as [->|]; [|reflexivity].
      apply list_elem_of_In, list_elem_of_fmap in Hk. destruct Hk as [[k' v'] [Hk1 Hk2]].
      simpl in Hk1; subst k'. apply elem_of_map_to_list in Hk2.
      rewrite lookup_delete_eq in Hk2. discriminate.
  - assert (Hf : flagged m id = false) by (unfold flagged; rewrite Hid; reflexivity).
    rewrite (delete_id m id Hid), Hf. reflexivity.
Qed.

Lemma activeKeys_insert m id (v : bool) :
  length (activeKeys (<[id := v]> m))
  = ((if v then 1 else 0) + length (activeKeys (delete id m)))%nat.
Proof.
  rewrite (activeKeys_split (<[id := v]> m) id), flagged_insert.
  rewrite decide_True by reflexivity. rewrite delete_insert_eq. reflexivity.
Qed.

(** Toggling a product on adds one to the selection, toggling it off
    takes one away. *)
Lemma activeKeys_toggle m id :
  length (activeKeys (<[id := negb (flagged m id)]> m))
  = if flagged m id then pred (length (activeKeys m)) else S (length (activeKeys m)).
Proof.
  rewrite activeKeys_insert, (activeKeys_split m id).
  destruct (flagged m id); reflexivity.
Qed.

Lemma compare_size prev :
  compareReachable prev -> (length (activeKeys prev) <= 4)%nat.
Proof.
  induction 1 as [|id prev _ IH|prev _ _].
  - vm_compute. lia.
  - unfold toggleCompare.
    destruct (Nat.ltb_spec 4 (length (activeKeys (<[id := negb (flagged prev id)]> prev))));
      simpl; lia.
  - vm_compute. lia.
Qed.

(** C8. In every selection reached by toggling (and clearing): at most 4
    products are selected; toggling a 5th product on is rejected and
    returns the selection as it was; toggling a selected product off
    succeeds, deselects it and leaves the others as they were. *)
Theorem compare_at_most_four prev (Hreach : compareReachable prev) :
  (length (activeKeys prev) <= 4)%nat
  /\ (forall id,
        flagged prev id = false -> length (activeKeys prev) = 4%nat ->
        fst (toggleCompare id prev) = prev
        /\ rejected (snd (toggleCompare id prev)) = true)
  /\ (forall id,
        flagged prev id = true ->
        let next := fst (toggleCompare id prev) in
        snd (toggleCompare id prev) = []
        /\ flagged next id = false
        /\ (forall k, k <> id -> next !! k = prev !! k)
        /\ S (length (activeKeys next)) = length (activeKeys prev)).
Proof.
  pose proof (compare_size prev Hreach) as Hsize.
  split; [exact Hsize|]. split.
  - intros id Hoff Hfour. unfold toggleCompare.
    rewrite activeKeys_toggle, Hoff, Hfour. simpl. split; reflexivity.
  - intros id Hon next. subst next. unfold toggleCompare.
    pose proof (activeKeys_toggle prev id) as Hcount.
    rewrite Hon in *. simpl negb in *.
    destruct (Nat.ltb_spec 4 (length (activeKeys (<[id := false]> prev)))); [lia|].
    simpl. split; [reflexivity|]. split.
    + rewrite flagged_insert, decide_True by reflexivity. reflexivity.
    + split.
      * intros k Hk. apply lookup_insert_ne. congruence.
      * pose proof (activeKeys_split prev id) as Hsplit. rewrite Hon in Hsplit. lia.
Qed.

Lemma compare_at_most_four_witness :
  compareReachable fourSelected
  /\ flagged fourSelected "p-005" = false
  /\ length (activeKeys fourSelected) = 4%nat
  /\ fst (toggleCompare "p-005" fourSelected) = fourSelected.
Proof.
  assert (Hreach : compareReachable fourSelected)
    by (repeat apply compare_toggled; apply compare_initial).
  split; [exact Hreach|]. split; [reflexivity|]. split; [reflexivity|].
  apply (proj1 (proj2 (compare_at_most_four fourSelected Hreach))); reflexivity.
Defined.

End Compare.

End CatalogFacts.

(** ** The page *)

Module PageFacts.

Import ShoppingCart ProductCatalog Page.

Section AddToCart.

Context {num : Type} `{JsNumber num}.

(** The catalog handed to the page; its products have distinct ids. *)
Variable catalog : list (CatalogProduct num).
Hypothesis distinct_ids : NoDup (map p_id catalog).

Lemma same_id_same_product (p p' : CatalogProduct num) :
  In p catalog -> In p' catalog -> p_id p = p_id p' -> p = p'.
Proof using distinct_ids.
  clear H. revert distinct_ids. induction catalog as [|x l IH]; intros Hnd Hp Hp' Hid;
    [contradiction|].
  simpl in Hnd. apply NoDup_cons in Hnd. destruct Hnd as [Hx Hl].
  destruct Hp as [->|Hp], Hp' as [->|Hp'].
  - reflexivity.
  - exfalso. apply Hx. rewrite Hid. apply list_elem_of_In, in_map, Hp'.
  - exfalso. apply Hx. rewrite <- Hid. apply list_elem_of_In, in_map, Hp.
  - exact (IH Hl Hp Hp' Hid).
Qed.

Lemma find_line_none (id : string) (cart : list (CartItem num)) :
  List.find (fun i => String.eqb (ci_id i) id) cart = None
  <-> (forall line, In line cart -> ci_id line <> id).
Proof.
  split.
  - intros Hnone line Hin Hid.
    pose proof (find_none _ _ Hnone line Hin) as Hf. simpl in Hf.
    apply String.eqb_neq in Hf. contradiction.
  - intros Hall. induction cart as [|x l IH]; [reflexivity|]. simpl.
    destruct (String.eqb_spec (ci_id x) id) as [E|_].
    + exfalso. exact (Hall x (or_introl eq_refl) E).
    + apply IH. intros line Hin. apply Hall. right. exact Hin.
Qed.

(** Adding a product does not change the ids that were in the cart. *)
Lemma handleAddToCart_ids (p : CatalogProduct num) (cart : list (CartItem num)) :
  map ci_id (handleAddToCart p cart)
  = match List.find (fun i => String.eqb (ci_id i) (p_id p)) cart with
    | Some _ => map ci_id cart
    | None => map ci_id cart ++ [p_id p]
    end.
Proof.
  unfold handleAddToCart.
  destruct (List.find _ cart) as [existing|].
  - rewrite map_map. apply map_ext. intros i.
    destruct (String.eqb (ci_id i) (p_id p)); reflexivity.
  - rewrite map_app. reflexivity.
Qed.

(** The carts of the page hold one line per product, each with the stock
    of its product recorded. *)
Lemma cart_invariant (cart : list (CartItem num)) :
  cartReachable catalog cart ->
  NoDup (map ci_id cart) /\ Forall (recordedFrom catalog) cart.
Proof using distinct_ids.
  induction 1 as [|p prev Hp _ [IHnd IHrec]|prev _ _].
  - split; constructor.
  - split.
    + rewrite handleAddToCart_ids.
      destruct (List.find _ prev) as [existing|] eqn:Hfind; [exact IHnd|].
      apply NoDup_app. split; [exact IHnd|]. split; [|apply NoDup_singleton].
      intros id Hid Hid'. apply list_elem_of_In in Hid.
      apply list_elem_of_In in Hid'. destruct Hid' as [<-|[]].
      apply in_map_iff in Hid. destruct Hid as [line [Hline Hin]].
      exact (proj1 (find_line_none _ _) Hfind line Hin Hline).
    + unfold handleAddToCart.
      destruct (List.find _ prev) as [existing|] eqn:Hfind.
      * apply Forall_forall. intros line Hin. apply list_elem_of_In in Hin.
        apply in_map_iff in Hin. destruct Hin as [i [Hi Hin]].
        pose proof (proj1 (Forall_forall _ _) IHrec i (proj2 (list_elem_of_In _ _) Hin))
          as [q [Hq1 [Hq2 Hq3]]].
        destruct (String.eqb (ci_id i) (p_id p)); subst line;
          exists q; repeat split; assumption.
      * apply Forall_app. split; [exact IHrec|]. apply Forall_singleton.
        exists p. repeat split. exact Hp.
  - split; constructor.
Qed.

Lemma same_id_same_line (cart : list (CartItem num)) (a b : CartItem num) :
  NoDup (map ci_id cart) -> In a cart -> In b cart -> ci_id a = ci_id b -> a = b.
Proof.
  induction cart as [|x l IH]; intros Hnd Ha Hb Hid; [contradiction|].
  simpl in Hnd. apply NoDup_cons in Hnd. destruct Hnd as [Hx Hl].
  destruct Ha as [->|Ha], Hb as [->|Hb].
  - reflexivity.
  - exfalso. apply Hx. rewrite Hid. apply list_elem_of_In, in_map, Hb.
  - exfalso. apply Hx. rewrite <- Hid. apply list_elem_of_In, in_map, Ha.
  - exact (IH Hl Ha Hb Hid).
Qed.

(** C10. In a cart of the page, adding a product of the catalog that is
    already in the cart sets its line's quantity to min(previous quantity
    + 1, stock), the stock being the one the line records, and leaves the
    other lines as they were; so the quantity of that line is not above
    its stock afterwards. Adding a product that is not in the cart appends
    a line with quantity 1. *)
Theorem add_to_cart_respects_stock
    (cart : list (CartItem num)) (p : CatalogProduct num)
    (Hreach : cartReachable catalog cart) (Hp : In p catalog) :
  ((exists line, In line cart /\ ci_id line = p_id p) ->
     handleAddToCart p cart
     = map (fun i => if String.eqb (ci_id i) (p_id p) then oneMore i else i) cart
     /\ (forall line', In line' (handleAddToCart p cart) -> ci_id line' = p_id p ->
           ci_quantity line' <= ci_stock line'))
  /\ ((forall line, In line cart -> ci_id line <> p_id p) ->
      handleAddToCart p cart = cart ++ [newLine p]
      /\ ci_quantity (newLine p) = 1).
Proof using distinct_ids.
  destruct (cart_invariant cart Hreach) as [Hnd Hrec].
  split.
  - intros [line [Hin Hid]].
    assert (Heq : handleAddToCart p cart
                  = map (fun i => if String.eqb (ci_id i) (p_id p) then oneMore i else i)
                      cart).
    { unfold handleAddToCart.
      destruct (List.find _ cart) as [existing|] eqn:Hfind.
      - apply find_some in Hfind. destruct Hfind as [Hex Hexid].
        apply String.eqb_eq in Hexid.
        pose proof (proj1 (Forall_forall _ _) Hrec existing
                      (proj2 (list_elem_of_In _ _) Hex)) as [q [Hq1 [Hq2 Hq3]]].
        assert (q = p) by (apply same_id_same_product; congruence). subst q.
        assert (Hstock : default (ci_stock existing) (p_inventoryCount p)
                         = ci_stock existing).
        { rewrite Hq3. destruct (p_inventoryCount p); reflexivity. }
        rewrite Hstock. apply map_ext_in. intros i Hi.
        destruct (String.eqb_spec (ci_id i) (p_id p)) as [E|_]; [|reflexivity].
        assert (i = existing) by (apply (same_id_same_line cart); congruence).
        subst i. reflexivity.
      - exfalso. exact (proj1 (find_line_none _ _) Hfind line Hin Hid). }
    split; [exact Heq|].
    intros line' Hin' Hid'. rewrite Heq in Hin'. apply in_map_iff in Hin'.
    destruct Hin' as [i [Hi _]].
    destruct (String.eqb_spec (ci_id i) (p_id p)) as [E|E]; subst line'.
    + unfold oneMore. simpl. lia.
    + contradiction.
  - intros Hfresh. unfold handleAddToCart.
    rewrite (proj2 (find_line_none _ _) Hfresh). split; reflexivity.
Qed.

End AddToCart.

Lemma products_distinct_ids {num : Type} `{JsNumber num} :
  NoDup (map p_id (products (num := num))).
Proof. apply (bool_decide_unpack _). vm_compute. exact I. Qed.

Lemma add_to_cart_respects_stock_witness :
  NoDup (map p_id (products (num := Q)))
  /\ cartReachable products (twoTees (num := Q))
  /\ map ci_quantity (twoTees (num := Q)) = [2]
  /\ map ci_quantity (addTee (twoTees (num := Q))) = [3].
Proof.
  assert (Hreach : cartReachable products (twoTees (num := Q))).
  { cbv beta iota delta [twoTees addTee products head].
    do 2 (apply cart_added; [left; reflexivity|]). apply cart_initial. }
  split; [exact products_distinct_ids|]. split; [exact Hreach|].
  split; [reflexivity|].
  cbv beta iota delta [addTee products head].
  match goal with
  | |- map _ (handleAddToCart ?tee _) = _ =>
      rewrite (proj1 (proj1 (add_to_cart_respects_stock products products_distinct_ids
                               twoTees tee Hreach (or_introl eq_refl))
                       (ex_intro _ (oneMore (newLine tee))
                          (conj (or_introl eq_refl) eq_refl))))
  end.
  reflexivity.
Defined.

End PageFacts.

(** ** Strings *)

Module StringFacts.

Import JsString.

Lemma is_space_upper (c : ascii) : is_space (upper c) = is_space c.
Proof. destruct c as [[] [] [] [] [] [] [] []]; reflexivity. Qed.

Lemma upper_upper (c : ascii) : upper (upper c) = upper c.
Proof. destruct c as [[] [] [] [] [] [] [] []]; reflexivity. Qed.

Lemma map_chars_empty (f : ascii -> ascii) (s : string) :
  map_chars f s = EmptyString <-> s = EmptyString.
Proof. destruct s; simpl; split; intros E; try reflexivity; discriminate. Qed.

Lemma trimStart_upper (s : string) :
  trimStart (toUpperCase s) = toUpperCase (trimStart s).
Proof.
  unfold toUpperCase. induction s as [|c s IH]; [reflexivity|].
  cbn [map_chars trimStart]. rewrite is_space_upper.
  destruct (is_space c); [exact IH|reflexivity].
Qed.

Lemma trimEnd_upper (s : string) :
  trimEnd (toUpperCase s) = toUpperCase (trimEnd s).
Proof.
  unfold toUpperCase. induction s as [|c s IH]; [reflexivity|].
  cbn [map_chars trimEnd]. rewrite IH, is_space_upper.
  destruct (trimEnd s) as [|d r]; cbn [map_chars].
  - destruct (is_space c); reflexivity.
  - reflexivity.
Qed.

Lemma trimStart_trimmedStart (s : string) : trimmedStart (trimStart s).
Proof.
  induction s as [|c s IH]; [exact I|]. simpl.
  destruct (is_space c) eqn:E; [exact IH|exact E].
Qed.

Lemma trimStart_fixed (s : string) : trimmedStart s -> trimStart s = s.
Proof. destruct s as [|c s]; simpl; [reflexivity|]. intros ->. reflexivity. Qed.

Lemma trimEnd_trimmedStart (s : string) : trimmedStart s -> trimmedStart (trimEnd s).
Proof.
  destruct s as [|c s]; simpl; [trivial|]. intros E.
  destruct (trimEnd s); simpl; [rewrite E; simpl|]; exact E.
Qed.

Lemma trimEnd_trimEnd (s : string) : trimEnd (trimEnd s) = trimEnd s.
Proof.
  induction s as [|c s IH]; [reflexivity|]. simpl.
  destruct (trimEnd s) as [|d r] eqn:E.
  - destruct (is_space c) eqn:Ec; simpl; [reflexivity|]. rewrite Ec. reflexivity.
  - simpl in *. rewrite IH. reflexivity.
Qed.

Lemma trim_trim (s : string) : trim (trim s) = trim s.
Proof.
  unfold trim.
  rewrite (trimStart_fixed (trimEnd (trimStart s))).
  - apply trimEnd_trimEnd.
  - apply trimEnd_trimmedStart, trimStart_trimmedStart.
Qed.

Lemma toUpperCase_toUpperCase (s : string) :
  toUpperCase (toUpperCase s) = toUpperCase s.
Proof.
  unfold toUpperCase. induction s as [|c s IH]; [reflexivity|].
  cbn [map_chars]. rewrite upper_upper, IH. reflexivity.
Qed.

(** Normalising a coupon code twice is normalising it once. *)
Lemma normalized_normalized (s : string) :
  ShoppingCart.normalized (ShoppingCart.normalized s) = ShoppingCart.normalized s.
Proof.
  unfold ShoppingCart.normalized.
  rewrite <- (toUpperCase_toUpperCase (trim s)) at 2.
  f_equal.
  assert (Hc : forall t, trim (toUpperCase t) = toUpperCase (trim t)).
  { intros t. unfold trim. rewrite trimStart_upper, trimEnd_upper. reflexivity. }
  rewrite Hc, trim_trim. reflexivity.
Qed.

(** *** The ASCII range is closed under the string functions *)

Lemma upper_ascii (c : ascii) :
  (N_of_ascii (upper c) <? 128)%N = (N_of_ascii c <? 128)%N.
Proof. destruct c as [[] [] [] [] [] [] [] []]; reflexivity. Qed.

Lemma space_ascii (c : ascii) : is_space c = true -> (N_of_ascii c <? 128)%N = true.
Proof. destruct c as [[] [] [] [] [] [] [] []]; intros E; try reflexivity; discriminate E. Qed.

Lemma isAscii_toUpperCase (s : string) : isAscii (toUpperCase s) = isAscii s.
Proof.
  unfold toUpperCase. induction s as [|c s IH]; [reflexivity|].
  cbn [map_chars isAscii]. rewrite upper_ascii, IH. reflexivity.
Qed.

Lemma isAscii_trimStart (s : string) : isAscii s = true -> isAscii (trimStart s) = true.
Proof.
  induction s as [|c s IH]; [trivial|]. intros Hs. cbn [trimStart].
  destruct (is_space c); [|exact Hs].
  apply IH. cbn [isAscii] in Hs. apply andb_true_iff in Hs. exact (proj2 Hs).
Qed.

Lemma isAscii_trimEnd (s : string) : isAscii s = true -> isAscii (trimEnd s) = true.
Proof.
  induction s as [|c s IH]; [trivial|]. intros Hs. cbn [isAscii] in Hs.
  apply andb_true_iff in Hs. destruct Hs as [Hc Hs]. specialize (IH Hs).
  cbn [trimEnd]. destruct (trimEnd s) as [|d r].
  - destruct (is_space c); [reflexivity|]. cbn [isAscii]. rewrite Hc. reflexivity.
  - cbn [isAscii] in *. rewrite Hc. exact IH.
Qed.

Lemma isAscii_app (a b : string) : isAscii (a +:+ b) = isAscii a && isAscii b.
Proof.
  induction a as [|c a IH]; [reflexivity|].
  change (String c a +:+ b) with (String c (a +:+ b)).
  cbn [isAscii]. rewrite IH. apply andb_assoc.
Qed.

Lemma allSpace_ascii (s : string) : allSpace s = true -> isAscii s = true.
Proof.
  induction s as [|c s IH]; [trivial|]. cbn [allSpace isAscii]. intros Hs.
  apply andb_true_iff in Hs. destruct Hs as [Hc Hs].
  rewrite (space_ascii c Hc), (IH Hs). reflexivity.
Qed.

(** *** White space around a word *)

Lemma noSpace_toUpperCase (s : string) : noSpace (toUpperCase s) = noSpace s.
Proof.
  unfold toUpperCase. induction s as [|c s IH]; [reflexivity|].
  cbn [map_chars noSpace]. rewrite is_space_upper, IH. reflexivity.
Qed.

Lemma trimStart_app_space (pre t : string) :
  allSpace pre = true -> trimStart (pre +:+ t) = trimStart t.
Proof.
  induction pre as [|c pre IH]; [reflexivity|]. cbn [allSpace]. intros Hs.
  apply andb_true_iff in Hs. destruct Hs as [Hc Hs].
  change (String c pre +:+ t) with (String c (pre +:+ t)).
  cbn [trimStart]. rewrite Hc. exact (IH Hs).
Qed.

Lemma trimStart_allSpace (s : string) : allSpace s = true -> trimStart s = EmptyString.
Proof.
  induction s as [|c s IH]; [reflexivity|]. cbn [allSpace]. intros Hs.
  apply andb_true_iff in Hs. destruct Hs as [Hc Hs].
  cbn [trimStart]. rewrite Hc. exact (IH Hs).
Qed.

Lemma trimEnd_allSpace (s : string) : allSpace s = true -> trimEnd s = EmptyString.
Proof.
  induction s as [|c s IH]; [reflexivity|]. cbn [allSpace]. intros Hs.
  apply andb_true_iff in Hs. destruct Hs as [Hc Hs].
  cbn [trimEnd]. rewrite (IH Hs), Hc. reflexivity.
Qed.

Lemma trimEnd_app_space (body post : string) :
  allSpace post = true -> trimEnd (body +:+ post) = trimEnd body.
Proof.
  intros Hpost. induction body as [|c body IH].
  - change (EmptyString +:+ post) with post.
    rewrite (trimEnd_allSpace post Hpost). reflexivity.
  - change (String c body +:+ post) with (String c (body +:+ post)).
    cbn [trimEnd]. rewrite IH. reflexivity.
Qed.

Lemma trimEnd_noSpace (s : string) : noSpace s = true -> trimEnd s = s.
Proof.
  induction s as [|c s IH]; [reflexivity|]. cbn [noSpace]. intros Hs.
  apply andb_true_iff in Hs. destruct Hs as [Hc Hs]. apply negb_true_iff in Hc.
  cbn [trimEnd]. rewrite (IH Hs). destruct s; [rewrite Hc|]; reflexivity.
Qed.

(** A word without white space, with white space before and after it,
    is trimmed to the word. *)
Lemma trim_padded (pre body post : string) :
  allSpace pre = true -> allSpace post = true -> noSpace body = true ->
  trim (pre +:+ (body +:+ post)) = body.
Proof.
  intros Hpre Hpost Hbody. unfold trim. rewrite (trimStart_app_space pre _ Hpre).
  destruct body as [|c body].
  - change (EmptyString +:+ post) with post.
    rewrite (trimStart_allSpace post Hpost). reflexivity.
  - pose proof Hbody as Hword. cbn [noSpace] in Hbody.
    apply andb_true_iff in Hbody. destruct Hbody as [Hc _]. apply negb_true_iff in Hc.
    change (String c body +:+ post) with (String c (body +:+ post)).
    cbn [trimStart]. rewrite Hc.
    change (String c (body +:+ post)) with (String c body +:+ post).
    rewrite (trimEnd_app_space _ post Hpost). exact (trimEnd_noSpace _ Hword).
Qed.

End StringFacts.

(** ** More of the checkout component *)

Module CheckoutMore.

Import ShoppingCart.

Section Cart.

Context {num : Type} `{JsNumber num}.

Lemma setQuantity_same (it : CartItem num) : setQuantity it (ci_quantity it) = it.
Proof. destruct it; reflexivity. Qed.

(** X1. For an input of ASCII characters, the code the checkout derives
    from it (trimmed, then uppercased) is again of ASCII characters, and
    submitting that code has the outcome of submitting the input itself:
    the same applied coupon and the same toasts. *)
Theorem applyCoupon_on_the_normalised_code
    (couponInput : string) (appliedCoupon : option (Coupon num))
    (Hascii : JsString.isAscii couponInput = true) :
  JsString.isAscii (normalized couponInput) = true
  /\ applyCoupon (normalized couponInput) appliedCoupon
     = applyCoupon couponInput appliedCoupon.
Proof.
  split.
  - unfold normalized, JsString.trim. rewrite StringFacts.isAscii_toUpperCase.
    apply StringFacts.isAscii_trimEnd, StringFacts.isAscii_trimStart. exact Hascii.
  - unfold applyCoupon. fold (normalized (normalized couponInput)).
    fold (normalized couponInput).
    rewrite StringFacts.normalized_normalized. reflexivity.
Qed.

(** X2. Removing an item leaves exactly the lines with another id, in the
    order they had; a cart without the id comes back unchanged; no
    rejection is signalled either way. *)
Theorem removeItem_leaves_the_others (id : string) (prev : list (CartItem num)) :
  let result := fst (removeItem id prev) in
  (forall it, In it result <-> In it prev /\ ci_id it <> id)
  /\ sublist result prev
  /\ ((forall it, In it prev -> ci_id it <> id) -> result = prev)
  /\ rejected (snd (removeItem id prev)) = false.
Proof.
  simpl. split; [|split; [|split; [|reflexivity]]].
  - intros it. rewrite filter_In. split.
    + intros [Hin Hne]. split; [exact Hin|].
      apply negb_true_iff, String.eqb_neq in Hne. exact Hne.
    + intros [Hin Hne]. split; [exact Hin|].
      apply negb_true_iff, String.eqb_neq. exact Hne.
  - induction prev as [|x l IH]; simpl; [constructor|].
    destruct (negb (ci_id x =? id)%string); [apply sublist_skip|apply sublist_cons];
      exact IH.
  - induction prev as [|x l IH]; intros Hall; simpl; [reflexivity|].
    pose proof (Hall x (or_introl eq_refl)) as Hx. apply String.eqb_neq in Hx.
    rewrite Hx. simpl. f_equal. apply IH. intros it Hin. apply Hall. right. exact Hin.
Qed.

(** X3. A quantity update changes nothing but quantities: the cart keeps
    its length, every line keeps its position and all its other fields,
    and lines with another id are left as they are; when no line has the
    id the cart comes back unchanged and no toast is raised. *)
Theorem updateQty_changes_quantities_only
    (id : string) (q : Z) (prev : list (CartItem num)) :
  let result := updateQty id q prev in
  length (fst result) = length prev
  /\ (forall i it, prev !! i = Some it ->
        exists q', fst result !! i = Some (setQuantity it q')
                   /\ (ci_id it <> id -> q' = ci_quantity it))
  /\ ((forall it, In it prev -> ci_id it <> id) -> result = (prev, [])).
Proof.
  simpl. split; [|split].
  - induction prev as [|it rest IH]; [reflexivity|]. simpl.
    destruct (updateQty id q rest) as [rest' ts']. simpl in IH.
    destruct (negb (ci_id it =? id)%string); [simpl; congruence|].
    destruct (validateQty it q) as [[|] ts]; simpl; congruence.
  - induction prev as [|x rest IH]; intros i it Hi; [discriminate|].
    simpl. destruct (updateQty id q rest) as [rest' ts']. simpl in IH.
    destruct i as [|i]; simpl in Hi.
    + inversion Hi; subst x.
      destruct (String.eqb_spec (ci_id it) id) as [E|E]; simpl.
      * destruct (validateQty it q) as [[|] ts]; simpl.
        -- exists q. split; [reflexivity|]. intros Hne. contradiction.
        -- exists (ci_quantity it). rewrite setQuantity_same. split; [reflexivity|].
           intros _. reflexivity.
      * exists (ci_quantity it). rewrite setQuantity_same. split; reflexivity.
    + destruct (IH i it Hi) as [q' [Hq1 Hq2]]. exists q'. split; [|exact Hq2].
      destruct (negb (ci_id x =? id)%string); [exact Hq1|].
      destruct (validateQty x q) as [[|] ts]; exact Hq1.
  - induction prev as [|x rest IH]; intros Hall; [reflexivity|]. simpl.
    rewrite IH by (intros it Hin; apply Hall; right; exact Hin).
    pose proof (Hall x (or_introl eq_refl)) as Hx. apply String.eqb_neq in Hx.
    rewrite Hx. reflexivity.
Qed.

(** X4. A request of at least 1 for a line: above the stock it leaves the
    line as it was and signals a rejection; up to the stock it becomes the
    quantity of the line. *)
Theorem quantity_request_outcome
    (id : string) (q : Z) (prev : list (CartItem num)) (i : nat) (it : CartItem num)
    (Hline : prev !! i = Some it) (Hid : ci_id it = id) (Hq : 1 <= q) :
  let result := updateQty id q prev in
  (ci_stock it < q ->
     fst result !! i = Some it /\ rejected (snd result) = true)
  /\ (q <= ci_stock it ->
        fst result !! i = Some (setQuantity it q)
        /\ ci_quantity (setQuantity it q) = q).
Proof.
  simpl. split.
  - intros Hover. exact (CheckoutFacts.updateQty_over_stock id q prev i it Hline Hid Hq Hover).
  - intros Hin. split; [|reflexivity].
    exact (CheckoutFacts.updateQty_in_range id q prev i it Hline Hid (conj Hq Hin)).
Qed.

(** X5. Requests of at least 1 keep the line invariant: in a cart where
    every line has 1 <= quantity <= stock, so has every line afterwards. *)
Theorem quantity_request_keeps_invariant
    (id : string) (q : Z) (prev : list (CartItem num))
    (Hq : 1 <= q) (Hprev : Forall lineInvariant prev) :
  Forall lineInvariant (fst (updateQty id q prev)).
Proof. exact (CheckoutFacts.updateQty_keeps_invariant id q prev Hq Hprev). Qed.

Lemma findCoupon_registry (c : Coupon num) :
  In c COUPONS -> findCoupon (c_code c) = Some c.
Proof.
  intros Hin. simpl in Hin.
  destruct Hin as [<-|[<-|[<-|[<-|[]]]]]; reflexivity.
Qed.

Lemma applyCoupon_on_code
    (c : Coupon num) (couponInput : string) (appliedCoupon : option (Coupon num)) :
  In c COUPONS -> normalized couponInput = c_code c ->
  applyCoupon couponInput appliedCoupon
  = (Some c, [toast_success ("Coupon applied: " +:+ c_code c)]).
Proof.
  intros Hc Hcode. unfold applyCoupon. fold (normalized couponInput). rewrite Hcode.
  rewrite (findCoupon_registry c Hc).
  simpl in Hc. destruct Hc as [<-|[<-|[<-|[<-|[]]]]]; reflexivity.
Qed.

(** The codes of the registry are ASCII words without white space. *)
Lemma registry_codes_are_words (c : Coupon num) :
  In c COUPONS ->
  JsString.noSpace (c_code c) = true /\ JsString.isAscii (c_code c) = true.
Proof.
  intros Hc. simpl in Hc. destruct Hc as [<-|[<-|[<-|[<-|[]]]]]; split; reflexivity.
Qed.

(** X6. Every registry coupon is accepted by its code in any letter case
    and with any white space of the ASCII range (tab, line feed, vertical
    tab, form feed, carriage return, space) before and after it: an input
    made of such white space, a word that uppercases to the code of a
    registry entry, and such white space again is an ASCII input, and
    submitting it applies that entry, replaces the coupon applied before
    and raises the success toast that names the code. *)
Theorem applyCoupon_accepts_registry_codes
    (c : Coupon num) (pre body post : string) (appliedCoupon : option (Coupon num))
    (Hc : In c COUPONS)
    (Hpre : JsString.allSpace pre = true) (Hpost : JsString.allSpace post = true)
    (Hbody : JsString.toUpperCase body = c_code c) :
  JsString.isAscii (pre +:+ (body +:+ post)) = true
  /\ applyCoupon (pre +:+ (body +:+ post)) appliedCoupon
     = (Some c, [toast_success ("Coupon applied: " +:+ c_code c)]).
Proof.
  destruct (registry_codes_are_words c Hc) as [Hword Hascii].
  rewrite <- Hbody in Hword, Hascii.
  rewrite StringFacts.noSpace_toUpperCase in Hword.
  rewrite StringFacts.isAscii_toUpperCase in Hascii.
  split.
  - rewrite !StringFacts.isAscii_app, Hascii.
    rewrite (StringFacts.allSpace_ascii pre Hpre), (StringFacts.allSpace_ascii post Hpost).
    reflexivity.
  - apply (applyCoupon_on_code c _ appliedCoupon Hc).
    unfold normalized. rewrite (StringFacts.trim_padded pre body post Hpre Hpost Hword).
    exact Hbody.
Qed.

Lemma applyCoupon_fromRegistry (couponInput : string) (appliedCoupon : option (Coupon num)) :
  fromRegistry appliedCoupon ->
  fromRegistry (fst (applyCoupon couponInput appliedCoupon)).
Proof.
  intros Hreg. unfold applyCoupon.
  destruct (negb (JsString.truthy _)); [exact Hreg|].
  destruct (findCoupon _) as [found|] eqn:Hfind; [|exact Hreg].
  simpl. exact (proj1 (CheckoutFacts.findCoupon_some _ _ Hfind)).
Qed.

(** X7. No event puts a coupon from outside the registry into the state:
    if the applied coupon is none or a registry entry before an event, it
    is so after it. *)
Theorem applied_coupon_stays_in_registry
    (props : Props num) (st : State num) (ev : Event)
    (Hreg : fromRegistry (st_appliedCoupon st)) :
  fromRegistry (st_appliedCoupon (fst (handle props st ev))).
Proof.
  destruct st as [step cart input applied ship pay addrId guest email note addr placing pend].
  simpl in Hreg.
  destruct ev; simpl; try exact Hreg; try exact I.
  - destruct (updateQty id next cart); exact Hreg.
  - pose proof (applyCoupon_fromRegistry input applied Hreg) as Hnext.
    destruct (applyCoupon input applied); exact Hnext.
  - unfold orderPlaced; simpl. destruct pend as [[e|]|]; exact Hreg.
Qed.

End Cart.

Section Steps.

Context {num : Type} `{JsNumber num}.

Variable props : Props num.


(** X9. The confirmation step is entered in one way only: by the end of
    the latency of an order in flight; the cart is then empty, no order is
    being placed and none is in flight. *)
Theorem success_is_entered_by_completion (st : State num) (ev : Event)
    (Hbefore : st_step st <> Success)
    (Hafter : st_step (fst (handle props st ev)) = Success) :
  let st' := fst (handle props st ev) in
  ev = LatencyElapsed
  /\ (exists email, st_pending st = Some (Some email))
  /\ st_cart st' = [] /\ st_isPlacingOrder st' = false /\ st_pending st' = None.
Proof.
  destruct st as [step cart input applied ship pay addrId guest email note addr placing pend].
  simpl in Hbefore.
  destruct ev; simpl in Hafter; try discriminate Hafter; try contradiction.
  - destruct (updateQty id next cart); simpl in Hafter; contradiction.
  - destruct (applyCoupon input applied); simpl in Hafter; contradiction.
  - rewrite CheckoutFacts.goBack_steps in Hafter. destruct step; discriminate || contradiction.
  - unfold orderPlaced in *; simpl in *. destruct pend as [[e|]|]; simpl in *;
      try contradiction.
    repeat split. exists e. reflexivity.
Qed.

(** X10. While no order is in flight the checkout moves one step at a
    time: a transition keeps the step, advances it by one, takes it back
    by one, or leads from the confirmation to the cart. *)
Theorem steps_move_by_one (st st' : State num)
    (Hidle : st_pending st = None) (Htrans : transition props st st') :
  position (st_step st') = position (st_step st)
  \/ position (st_step st') = position (st_step st) + 1
  \/ position (st_step st') = position (st_step st) - 1
  \/ (st_step st = Success /\ st_step st' = Cart).
Proof.
  destruct Htrans as [ev [Hen Hst']]. subst st'.
  apply (CheckoutFacts.enabled_offered props) in Hen.
  destruct st as [step cart input applied ship pay addrId guest email note addr placing pend].
  simpl in Hidle. subst pend.
  destruct ev; simpl in Hen; unfold onStep in Hen; simpl in Hen; simpl;
    try (left; reflexivity);
    try (destruct step; try discriminate Hen; simpl; auto; fail).
  - destruct (updateQty id next cart); left; reflexivity.
  - destruct (applyCoupon input applied); left; reflexivity.
Qed.

(** X11. An empty cart cannot be checked out: on the cart step with no
    lines and no order in flight, every transition stays there. *)
Theorem empty_cart_stays (st st' : State num)
    (Hidle : idleOnEmptyCart st) (Htrans : transition props st st') :
  idleOnEmptyCart st'.
Proof.
  destruct Htrans as [ev [Hen Hst']]. subst st'.
  apply (CheckoutFacts.enabled_offered props) in Hen.
  destruct st as [step cart input applied ship pay addrId guest email note addr placing pend].
  destruct Hidle as (Hstep & Hcart & Hpend). simpl in Hstep, Hcart, Hpend. subst.
  destruct ev; simpl in Hen; try discriminate Hen; unfold idleOnEmptyCart; simpl;
    try (repeat split; reflexivity).
  destruct (applyCoupon input applied); repeat split; reflexivity.
Qed.

End Steps.

Section Pricing.

Local Open Scope Q_scope.

Lemma round2_not_negative (x : Q) : 0 <= x -> 0 <= Exact.round2 x.
Proof.
  intros Hx. unfold Exact.round2.
  destruct (Qle_bool Exact.toFixed_limit (Qabs x)); [exact Hx|].
  destruct (Qle_bool 0 x) eqn:Hsign.
  - assert (Hc : (0 <= Exact.cents x)%Z).
    { unfold Exact.cents. change 0%Z with (Qfloor 0). apply Qfloor_resp_le. lra. }
    apply Qle_shift_div_l; [reflexivity|].
    change (0 * 100) with (inject_Z 0). rewrite <- Zle_Qle. exact Hc.
  - apply Qle_bool_iff in Hx. congruence.
Qed.

Lemma selected_method_listed
    (shippingOptions : list (ShippingMethod Q)) (selectedShipping : string)
    (method : ShippingMethod Q) :
  selectedShippingMethod shippingOptions selectedShipping = Some method ->
  In method shippingOptions.
Proof.
  unfold selectedShippingMethod.
  destruct (List.find _ shippingOptions) as [m|] eqn:Hfind.
  - intros E. inversion E; subst m. exact (proj1 (find_some _ _ Hfind)).
  - destruct shippingOptions as [|m l]; simpl; [discriminate|].
    intros E. inversion E. left. reflexivity.
Qed.

(** X12. With a tax rate and shipping costs that are not negative, none
    of taxable base, shipping cost, tax and total is negative, whatever
    the cart and the coupon: a discount above the subtotal (or a negative
    subtotal) is cut off at a taxable base of 0. *)
Theorem amounts_not_negative
    (cart : list (CartItem Q)) (appliedCoupon : option (Coupon Q))
    (shippingOptions : list (ShippingMethod Q)) (selectedShipping : string)
    (taxRate : Q)
    (Hrate : 0 <= taxRate)
    (Hcosts : forall m, In m shippingOptions -> 0 <= sm_cost m) :
  let a := amounts cart appliedCoupon shippingOptions selectedShipping taxRate in
  0 <= a_taxedSubtotal a /\ 0 <= a_shippingCost a /\ 0 <= a_tax a /\ 0 <= a_total a.
Proof.
  intros a.
  assert (Hbase : 0 <= a_taxedSubtotal a) by apply Q.le_max_r.
  assert (Hship : 0 <= a_shippingCost a).
  { subst a. simpl. unfold shippingCost.
    destruct (selectedShippingMethod shippingOptions selectedShipping) as [m|] eqn:Hm;
      [|apply Qle_refl].
    destruct (hasShippingType appliedCoupon); [apply Qle_refl|].
    apply Hcosts. exact (selected_method_listed _ _ _ Hm). }
  assert (Htax : 0 <= a_tax a).
  { apply round2_not_negative. apply Qmult_le_0_compat; assumption. }
  repeat split; try assumption.
  apply round2_not_negative.
  change (0 <= a_taxedSubtotal a + a_tax a + a_shippingCost a). lra.
Qed.

(** X13. For a registry coupon (or none) on a cart whose subtotal S is
    not negative, the discount lies between 0 and S and the taxable base
    is exactly S minus the discount: the cut-off at 0 never acts. *)
Theorem taxable_base_is_subtotal_less_discount
    (cart : list (CartItem Q)) (appliedCoupon : option (Coupon Q))
    (shippingOptions : list (ShippingMethod Q)) (selectedShipping : string)
    (taxRate : Q)
    (Hreg : fromRegistry appliedCoupon) (Hs : 0 <= subtotal cart) :
  let a := amounts cart appliedCoupon shippingOptions selectedShipping taxRate in
  0 <= a_discount a <= a_subtotal a
  /\ a_taxedSubtotal a == a_subtotal a - a_discount a.
Proof.
  intros a.
  assert (Hd : 0 <= a_discount a <= a_subtotal a).
  { subst a. simpl.
    rewrite (CheckoutFacts.discount_rule appliedCoupon _
               CheckoutFacts.registryTruthy_exact Hreg).
    set (S := subtotal cart) in *.
    destruct appliedCoupon as [c|]; simpl; [|split; [apply Qle_refl|exact Hs]].
    simpl in Hreg. destruct Hreg as [<-|[<-|[<-|[<-|[]]]]]; simpl.
    - change (0 <= S * (10 # 1) * (1 # 100) <= S). split; lra.
    - change (0 <= S * (15 # 1) * (1 # 100) <= S). split; lra.
    - split; [apply Q.min_glb; [discriminate|exact Hs]|apply Q.le_min_r].
    - split; [apply Qle_refl|exact Hs]. }
  split; [exact Hd|].
  change (Qmax (a_subtotal a - a_discount a) 0 == a_subtotal a - a_discount a).
  apply Q.max_l. lra.
Qed.

End Pricing.

Section FreeShipping.

Context {num : Type} `{JsNumber num}.

(** X14. Under the FREESHIP coupon the shipping cost is 0 for every list
    of shipping options and every selection, so the total does not depend
    on the shipping method chosen. *)
Theorem free_shipping_ignores_the_method
    (cart : list (CartItem num))
    (shippingOptions : list (ShippingMethod num)) (selected selected' : string)
    (taxRate : num) :
  let a := amounts cart (Some FREESHIP) shippingOptions selected taxRate in
  let a' := amounts cart (Some FREESHIP) shippingOptions selected' taxRate in
  a_shippingCost a = n_lit 0 /\ a_discount a = n_lit 0 /\ a_total a = a_total a'.
Proof.
  assert (Hzero : forall sel, shippingCost shippingOptions sel (Some FREESHIP) = n_lit 0).
  { intros sel. unfold shippingCost.
    destruct (selectedShippingMethod shippingOptions sel); reflexivity. }
  simpl. split; [apply Hzero|]. split; [reflexivity|].
  rewrite (Hzero selected), (Hzero selected'). reflexivity.
Qed.

End FreeShipping.

(** The theorems above at concrete inputs. *)

Lemma quantity_request_outcome_witness :
  DEFAULT_ITEMS (num := Q) !! 1%nat = head (fst (removeItem "sku-1" DEFAULT_ITEMS))
  /\ 1 <= 99
  /\ rejected (snd (updateQty (num := Q) "sku-2" 99 DEFAULT_ITEMS)) = true.
Proof.
  split; [reflexivity|]. split; [lia|].
  refine (proj2 (proj1 (quantity_request_outcome (num := Q) "sku-2" 99 DEFAULT_ITEMS 1
                          _ eq_refl eq_refl _) _)); simpl; lia.
Defined.

Lemma quantity_request_keeps_invariant_witness :
  1 <= 3
  /\ Forall lineInvariant (DEFAULT_ITEMS (num := Q))
  /\ Forall lineInvariant (fst (updateQty (num := Q) "sku-2" 3 DEFAULT_ITEMS)).
Proof.
  assert (Hinv : Forall lineInvariant (DEFAULT_ITEMS (num := Q)))
    by (repeat constructor; simpl; lia).
  split; [lia|]. split; [exact Hinv|].
  apply (quantity_request_keeps_invariant (num := Q) "sku-2" 3 DEFAULT_ITEMS);
    [lia|exact Hinv].
Defined.

Lemma applyCoupon_on_the_normalised_code_witness :
  JsString.isAscii "  take5 " = true
  /\ normalized "  take5 " = "TAKE5"
  /\ applyCoupon (num := Q) "TAKE5" None = applyCoupon "  take5 " None.
Proof.
  split; [reflexivity|]. split; [reflexivity|].
  exact (proj2 (applyCoupon_on_the_normalised_code (num := Q) "  take5 " None eq_refl)).
Defined.

Lemma applyCoupon_accepts_registry_codes_witness :
  In WELCOME15 (COUPONS (num := Q))
  /\ JsString.allSpace "  " = true
  /\ JsString.allSpace " " = true
  /\ JsString.toUpperCase "WelCome15" = "WELCOME15"
  /\ fst (applyCoupon (num := Q) "  WelCome15 " (Some SAVE10)) = Some WELCOME15.
Proof.
  split; [right; left; reflexivity|]. do 3 (split; [reflexivity|]).
  change "  WelCome15 " with ("  " +:+ ("WelCome15" +:+ " ")).
  rewrite (proj2 (applyCoupon_accepts_registry_codes (num := Q) WELCOME15
                    "  " "WelCome15" " " (Some SAVE10)
                    (or_intror (or_introl eq_refl)) eq_refl eq_refl eq_refl)).
  reflexivity.
Defined.

Lemma applied_coupon_stays_in_registry_witness :
  fromRegistry (st_appliedCoupon (initialState (num := Q) defaultProps))
  /\ fromRegistry
       (st_appliedCoupon
          (fst (handle defaultProps
                  (fst (handle defaultProps (initialState (num := Q) defaultProps)
                          (CouponInputChange "take5")))
                  ApplyClick))).
Proof.
  split; [exact I|].
  apply (applied_coupon_stays_in_registry (num := Q)). exact I.
Defined.


Lemma success_is_entered_by_completion_witness :
  st_step orderInFlight <> Success
  /\ st_step (fst (handle defaultProps orderInFlight LatencyElapsed)) = Success
  /\ st_cart (fst (handle defaultProps orderInFlight LatencyElapsed)) = [].
Proof.
  assert (Hnot : st_step orderInFlight <> Success) by (vm_compute; discriminate).
  assert (Hsuccess : st_step (fst (handle defaultProps orderInFlight LatencyElapsed))
                     = Success) by (vm_compute; reflexivity).
  split; [exact Hnot|]. split; [exact Hsuccess|].
  exact (proj1 (proj2 (proj2
    (success_is_entered_by_completion (num := Q) defaultProps orderInFlight
       LatencyElapsed Hnot Hsuccess)))).
Defined.

Lemma steps_move_by_one_witness :
  st_pending (initialState (num := Q) defaultProps) = None
  /\ transition defaultProps (initialState (num := Q) defaultProps)
       (fst (handle defaultProps (initialState defaultProps) CheckoutClick))
  /\ position Details = position Cart + 1.
Proof.
  assert (Htrans : transition defaultProps (initialState (num := Q) defaultProps)
                     (fst (handle defaultProps (initialState defaultProps) CheckoutClick)))
    by (exists CheckoutClick; split; reflexivity).
  split; [reflexivity|]. split; [exact Htrans|].
  pose proof (steps_move_by_one (num := Q) defaultProps (initialState defaultProps)
                (fst (handle defaultProps (initialState defaultProps) CheckoutClick))
                eq_refl Htrans) as Hmove.
  reflexivity.
Defined.

Lemma empty_cart_stays_witness :
  idleOnEmptyCart emptied
  /\ transition defaultProps emptied
       (fst (handle defaultProps emptied (CouponInputChange "SAVE10")))
  /\ idleOnEmptyCart (fst (handle defaultProps emptied (CouponInputChange "SAVE10"))).
Proof.
  assert (Hidle : idleOnEmptyCart emptied) by (vm_compute; repeat split).
  assert (Htrans : transition defaultProps emptied
                     (fst (handle defaultProps emptied (CouponInputChange "SAVE10"))))
    by (exists (CouponInputChange "SAVE10"); split; [vm_compute|]; reflexivity).
  split; [exact Hidle|]. split; [exact Htrans|].
  exact (empty_cart_stays (num := Q) defaultProps _ _ Hidle Htrans).
Defined.

Lemma amounts_not_negative_witness :
  (0 <= n_dec 725 4)%Q
  /\ (forall m, In m (DEFAULT_SHIPPING (num := Q)) -> 0 <= sm_cost m)%Q
  /\ (0 <= a_total (amounts returnedTee (Some TAKE5) DEFAULT_SHIPPING "pickup"
                      (n_dec 725 4)))%Q.
Proof.
  assert (Hcosts : forall m, In m (DEFAULT_SHIPPING (num := Q)) -> (0 <= sm_cost m)%Q).
  { intros m Hm. simpl in Hm. destruct Hm as [<-|[<-|[<-|[]]]]; simpl; discriminate. }
  split; [discriminate|]. split; [exact Hcosts|].
  refine (proj2 (proj2 (proj2
    (amounts_not_negative returnedTee (Some TAKE5) DEFAULT_SHIPPING "pickup"
       (n_dec 725 4) _ Hcosts)))).
  discriminate.
Defined.

Lemma taxable_base_is_subtotal_less_discount_witness :
  fromRegistry (Some (TAKE5 (num := Q)))
  /\ (0 <= subtotal (DEFAULT_ITEMS (num := Q)))%Q
  /\ (a_taxedSubtotal (amounts DEFAULT_ITEMS (Some TAKE5) DEFAULT_SHIPPING "standard"
                         (n_dec 725 4))
      == 80 - a_discount (amounts DEFAULT_ITEMS (Some TAKE5) DEFAULT_SHIPPING "standard"
                            (n_dec 725 4)))%Q.
Proof.
  assert (Hreg : fromRegistry (Some (TAKE5 (num := Q))))
    by (right; right; left; reflexivity).
  assert (Hs : (0 <= subtotal (DEFAULT_ITEMS (num := Q)))%Q) by discriminate.
  split; [exact Hreg|]. split; [exact Hs|].
  exact (proj2 (taxable_base_is_subtotal_less_discount DEFAULT_ITEMS (Some TAKE5)
                  DEFAULT_SHIPPING "standard" (n_dec 725 4) Hreg Hs)).
Defined.

End CheckoutMore.

(** ** The catalog: query engine, pager and selections *)

Module CatalogMore.

Import ProductCatalog.

Section Query.

Context {num : Type} `{JsNumber num}.

Variable localeCompare : string -> string -> Z.

Lemma In_slice {A} (l : list A) (start end_ : Z) (x : A) :
  In x (slice l start end_) -> In x l.
Proof.
  unfold slice. intros Hx. apply list_elem_of_In in Hx. apply list_elem_of_In.
  eapply elem_of_sublist; [exact Hx|].
  etransitivity; [apply sublist_take|apply sublist_drop].
Qed.

(** The filters keep exactly the products that pass every active one. *)
Lemma filtered_In
    (products : list (CatalogProduct num)) (f : Filters) (p : CatalogProduct num) :
  In p (filtered products f)
  <-> In p products
      /\ (JsString.truthy (JsString.trim (query f)) = true ->
          matchesQuery (JsString.toLowerCase (query f)) p = true)
      /\ (activeCategory f <> "all" -> default "" (p_category p) = activeCategory f)
      /\ (onlyInStock f = true -> keptInStock p = true)
      /\ (onlyWishlist f = true -> flagged (wishlist f) (p_id p) = true).
Proof.
  unfold filtered.
  destruct (JsString.truthy (JsString.trim (query f))) eqn:Hq,
           (String.eqb_spec (activeCategory f) "all") as [Hc|Hc],
           (onlyInStock f) eqn:Hs, (onlyWishlist f) eqn:Hw; simpl negb; cbv iota;
    rewrite ?filter_In, ?String.eqb_eq; intuition (congruence || auto).
Qed.

(** X15. Whatever the sort option, the page and the page size, a product
    shown in the grid is one of the products handed to the catalog and
    passes every active filter: the search text (when it is not blank),
    the category (unless "all"), in-stock-only and wishlist-only. *)
Theorem items_satisfy_filters
    (products : list (CatalogProduct num)) (f : Filters) (p : CatalogProduct num)
    (Hp : In p (items (computed localeCompare products f))) :
  In p products
  /\ (JsString.truthy (JsString.trim (query f)) = true ->
      matchesQuery (JsString.toLowerCase (query f)) p = true)
  /\ (activeCategory f <> "all" -> default "" (p_category p) = activeCategory f)
  /\ (onlyInStock f = true -> keptInStock p = true)
  /\ (onlyWishlist f = true -> flagged (wishlist f) (p_id p) = true).
Proof.
  apply filtered_In.
  unfold computed in Hp. cbn [items] in Hp. apply In_slice in Hp.
  apply list_elem_of_In in Hp. apply list_elem_of_In.
  rewrite CatalogFacts.sorted_Permutation in Hp. exact Hp.
Qed.

Lemma take_add {A} (n m : nat) : forall l : list A,
  take (n + m) l = take n l ++ take m (drop n l).
Proof.
  induction n as [|n IH]; intros [|x l]; simpl; rewrite ?take_nil; try reflexivity.
  f_equal. apply IH.
Qed.

(** The items of page [k], for a page in range. *)
Lemma page_items (products : list (CatalogProduct num)) (f : Filters) (k : Z) :
  1 <= pageSize f ->
  1 <= k <= totalPages (computed localeCompare products f) ->
  items (computed localeCompare products (onPage k f))
  = take (Z.to_nat (pageSize f))
      (drop (Z.to_nat ((k - 1) * pageSize f))
         (sorted localeCompare (sort f) (filtered products f))).
Proof.
  intros Hs Hk. unfold computed in *. cbn [items totalPages] in *.
  change (pageSize (onPage k f)) with (pageSize f).
  change (page (onPage k f)) with k.
  change (sort (onPage k f)) with (sort f).
  change (filtered products (onPage k f)) with (filtered products f).
  rewrite Z.min_l by lia.
  apply CatalogFacts.slice_window; nia.
Qed.

Lemma pagesFrom_window
    (products : list (CatalogProduct num)) (f : Filters) (count : nat) :
  forall first : Z,
  1 <= pageSize f -> 1 <= first ->
  first + Z.of_nat count - 1 <= totalPages (computed localeCompare products f) ->
  pagesFrom localeCompare products f first count
  = take (count * Z.to_nat (pageSize f))
      (drop (Z.to_nat ((first - 1) * pageSize f))
         (sorted localeCompare (sort f) (filtered products f))).
Proof.
  induction count as [|count IH]; intros first Hs Hf Hl; [reflexivity|].
  cbn [pagesFrom]. rewrite page_items by lia. rewrite IH by lia.
  change (S count * Z.to_nat (pageSize f))%nat
    with (Z.to_nat (pageSize f) + count * Z.to_nat (pageSize f))%nat.
  rewrite take_add, drop_drop. do 3 f_equal.
  replace ((first + 1 - 1) * pageSize f) with ((first - 1) * pageSize f + pageSize f)
    by lia.
  apply Z2Nat.inj_add; nia.
Qed.

(** X16. For a page size of at least 1, the pages 1 to [totalPages] laid
    end to end are the filtered and sorted products: paging drops no
    product and shows none twice. *)
Theorem pages_partition_the_result
    (products : list (CatalogProduct num)) (f : Filters)
    (Hsize : 1 <= pageSize f) :
  let c := computed localeCompare products f in
  pagesFrom localeCompare products f 1 (Z.to_nat (totalPages c))
  = sorted localeCompare (sort f) (filtered products f).
Proof.
  intros c.
  assert (Hpages : 1 <= totalPages c) by (simpl; lia).
  rewrite pagesFrom_window by (fold c; lia).
  replace ((1 - 1) * pageSize f) with 0 by lia. change (Z.to_nat 0) with 0%nat.
  rewrite drop_0. apply take_ge.
  pose proof (CatalogFacts.ceilDiv_spec
                (Z.of_nat (length (sorted localeCompare (sort f) (filtered products f))))
                (pageSize f) ltac:(lia)) as [_ Hceil].
  assert (Htp : ceilDiv (Z.of_nat (length (sorted localeCompare (sort f)
                                              (filtered products f)))) (pageSize f)
                <= totalPages c) by (simpl; lia).
  apply Nat2Z.inj_le. rewrite Nat2Z.inj_mul, !Z2Nat.id by lia. nia.
Qed.

(** X17. From a remembered page within 1..[totalPages], every control of
    the pager (previous, next, a numbered button, the last page) and the
    reset after a filter change lead to a page within 1..[totalPages],
    which is then the page shown. *)
Theorem pager_stays_in_range
    (products : list (CatalogProduct num)) (f : Filters) (ev : PageEvent)
    (Hpage : 1 <= page f <= totalPages (computed localeCompare products f)) :
  let c := computed localeCompare products f in
  let next := setPage c (page f) ev in
  1 <= next <= totalPages c
  /\ currentPage (computed localeCompare products (onPage next f)) = next.
Proof.
  intros c next. fold c in Hpage.
  assert (Hcur : currentPage c = Z.min (page f) (totalPages c)) by reflexivity.
  assert (Hnext : 1 <= next <= totalPages c).
  { subst next. clearbody c.
    destruct ev; cbn [setPage]; unfold canPrev, canNext; rewrite ?Hcur;
      repeat match goal with
             | |- context [?a >? ?b] => destruct (Z.gtb_spec a b)
             | |- context [?a <? ?b] => destruct (Z.ltb_spec a b)
             end; cbn [andb]; lia. }
  split; [exact Hnext|].
  change (currentPage (computed localeCompare products (onPage next f)))
    with (Z.min next (totalPages c)).
  lia.
Qed.

(** X18. A remembered page beyond the last one is not repaired by
    "Previous": with more than one page and the remembered page above
    [totalPages] (the wishlist view after products were taken off the
    wishlist, for one), the click lowers the remembered page by one and
    the catalog shows what it showed before. *)
Theorem stale_page_prev_is_silent
    (products : list (CatalogProduct num)) (f : Filters)
    (Hpages : 1 < totalPages (computed localeCompare products f))
    (Hstale : totalPages (computed localeCompare products f) < page f) :
  let c := computed localeCompare products f in
  setPage c (page f) PrevClick = page f - 1
  /\ computed localeCompare products (onPage (page f - 1) f) = c.
Proof.
  intros c. fold c in Hpages, Hstale.
  assert (Hcur : currentPage c = Z.min (page f) (totalPages c)) by reflexivity.
  split.
  - cbn [setPage]. unfold canPrev. rewrite Hcur.
    destruct (Z.gtb_spec (totalPages c) 1); [|lia].
    destruct (Z.gtb_spec (Z.min (page f) (totalPages c)) 1); [reflexivity|lia].
  - subst c. unfold computed in *. cbn [totalPages] in *.
    change (pageSize (onPage (page f - 1) f)) with (pageSize f).
    change (page (onPage (page f - 1) f)) with (page f - 1).
    change (sort (onPage (page f - 1) f)) with (sort f).
    change (filtered products (onPage (page f - 1) f)) with (filtered products f).
    rewrite !Z.min_r by lia. reflexivity.
Qed.

End Query.

Section Sorting.

Variable localeCompare : string -> string -> Z.

Lemma insertSorted_inOrder {A} (le : A -> A -> Prop) (positive : A -> A -> bool) :
  (forall a b c, le a b -> le b c -> le a c) ->
  (forall a b, positive a b = true -> le b a) ->
  (forall a b, positive a b = false -> le a b) ->
  forall a l, inOrder le l -> inOrder le (insertSorted positive a l).
Proof.
  intros Htrans Hpos Hneg a l. induction l as [|b l IH]; intros Hl.
  - simpl. split; [constructor|exact I].
  - destruct Hl as [Hb Hl]. cbn [insertSorted]. destruct (positive a b) eqn:Hab.
    + cbn [inOrder]. split; [|exact (IH Hl)].
      rewrite CatalogFacts.insertSorted_Permutation.
      constructor; [exact (Hpos _ _ Hab)|exact Hb].
    + cbn [inOrder]. split; [|split; assumption].
      constructor; [exact (Hneg _ _ Hab)|].
      apply Forall_forall. intros x Hx.
      exact (Htrans _ _ _ (Hneg _ _ Hab) (proj1 (Forall_forall _ _) Hb x Hx)).
Qed.

Lemma sortWith_inOrder {A} (le : A -> A -> Prop) (positive : A -> A -> bool) :
  (forall a b c, le a b -> le b c -> le a c) ->
  (forall a b, positive a b = true -> le b a) ->
  (forall a b, positive a b = false -> le a b) ->
  forall l, inOrder le (sortWith positive l).
Proof.
  intros Htrans Hpos Hneg l. induction l as [|a l IH]; [exact I|].
  cbn [sortWith]. apply insertSorted_inOrder; assumption.
Qed.

Lemma positive_difference (x y : Q) :
  (n_lt (n_lit 0) (n_sub x y) = true -> (y <= x)%Q)
  /\ (n_lt (n_lit 0) (n_sub x y) = false -> (x <= y)%Q).
Proof.
  cbn [n_lt n_lit n_sub exact_number]. unfold Exact.lt.
  change (inject_Z 0) with 0%Q.
  destruct (Qle_bool (x - y) 0) eqn:E; split; intros Hb; try discriminate Hb.
  - apply Qle_bool_iff in E. lra.
  - assert (~ (x - y <= 0)%Q) by (rewrite <- Qle_bool_iff; congruence). lra.
Qed.

(** X19. In exact arithmetic the two price sorts put the products in
    order: after "price, low to high" no product is followed by a cheaper
    one, after "price, high to low" none by a dearer one; both keep the
    products they were given. *)
Theorem price_sort_is_ordered (l : list (CatalogProduct Q)) :
  inOrder (fun a b => p_price a <= p_price b)%Q (sorted localeCompare PriceAsc l)
  /\ inOrder (fun a b => p_price b <= p_price a)%Q (sorted localeCompare PriceDesc l)
  /\ sorted localeCompare PriceAsc l ≡ₚ l
  /\ sorted localeCompare PriceDesc l ≡ₚ l.
Proof.
  split; [|split; [|split; apply CatalogFacts.sorted_Permutation]].
  - cbn [sorted]. apply sortWith_inOrder.
    + intros a b c Hab Hbc. exact (Qle_trans _ _ _ Hab Hbc).
    + intros a b Hpos. exact (proj1 (positive_difference _ _) Hpos).
    + intros a b Hneg. exact (proj2 (positive_difference _ _) Hneg).
  - cbn [sorted]. apply sortWith_inOrder.
    + intros a b c Hab Hbc. exact (Qle_trans _ _ _ Hbc Hab).
    + intros a b Hpos. exact (proj1 (positive_difference _ _) Hpos).
    + intros a b Hneg. exact (proj2 (positive_difference _ _) Hneg).
Qed.

End Sorting.

Section Selecting.

Lemma In_activeKeys (m : gmap string bool) (k : string) :
  In k (activeKeys m) <-> m !! k = Some true.
Proof.
  unfold activeKeys. rewrite filter_In. unfold flagged. split.
  - intros [_ Hf]. destruct (m !! k) as [[|]|]; simpl in Hf; congruence.
  - intros Hk. rewrite Hk. split; [|reflexivity].
    apply list_elem_of_In. apply list_elem_of_fmap. exists (k, true).
    split; [reflexivity|]. apply elem_of_map_to_list. exact Hk.
Qed.

Lemma flagged_lookup (m : gmap string bool) (k : string) :
  flagged m k = true <-> m !! k = Some true.
Proof. unfold flagged. destruct (m !! k) as [[|]|]; simpl; split; congruence. Qed.

Lemma filter_sublist {A} (test : A -> bool) (l : list A) :
  List.filter test l `sublist_of` l.
Proof.
  induction l as [|x l IH]; simpl; [constructor|].
  destruct (test x); constructor; exact IH.
Qed.

Lemma NoDup_activeKeys (m : gmap string bool) : NoDup (activeKeys m).
Proof.
  unfold activeKeys.
  exact (sublist_NoDup _ _ (NoDup_fst_map_to_list m) (filter_sublist _ _)).
Qed.

Lemma activeKeys_empty : activeKeys ∅ = [].
Proof. unfold activeKeys. rewrite map_to_list_empty. reflexivity. Qed.

(** X20. Toggling the wishlist flips the flag of that product and no
    other; when the host rejects the change, every flag reads as before
    and an error is shown; and toggling the same product twice (neither
    change rejected) restores every flag. *)
Theorem wishlist_toggle_and_rollback (id : string) (w : gmap string bool) (k : string) :
  (forall callback, callback <> Some false ->
     flagged (fst (toggleWishlist callback id w)) k
     = if decide (id = k) then negb (flagged w id) else flagged w k)
  /\ flagged (fst (toggleWishlist (Some false) id w)) k = flagged w k
  /\ rejected (snd (toggleWishlist (Some false) id w)) = true
  /\ (forall callback callback',
        callback <> Some false -> callback' <> Some false ->
        flagged (fst (toggleWishlist callback' id (fst (toggleWishlist callback id w)))) k
        = flagged w k).
Proof.
  assert (Hflip : forall w' k' callback, callback <> Some false ->
            flagged (fst (toggleWishlist callback id w')) k'
            = if decide (id = k') then negb (flagged w' id) else flagged w' k').
  { intros w' k' [[|]|] Hcb; try congruence; unfold toggleWishlist, wishlistToggled;
      cbn [fst]; apply CatalogFacts.flagged_insert. }
  split; [exact (Hflip w k)|]. split; [|split; [reflexivity|]].
  - unfold toggleWishlist, wishlistToggled, wishlistReverted. cbn [fst].
    rewrite !CatalogFacts.flagged_insert.
    destruct (decide (id = k)) as [->|_]; [|reflexivity]. apply negb_involutive.
  - intros callback callback' Hcb Hcb'. rewrite (Hflip _ k callback' Hcb').
    rewrite (Hflip w k callback Hcb), (Hflip w id callback Hcb).
    destruct (decide (id = k)) as [E|_]; [|reflexivity].
    destruct (decide (id = id)) as [_|Hk]; [|contradiction].
    rewrite negb_involutive, E. reflexivity.
Qed.

(** X21. After [toggleSelect] the selected ids are those selected before,
    with the toggled id in or out as the new flag says (the value given,
    or else the opposite of its flag); the list names no id twice. *)
Theorem selection_after_toggle
    (id : string) (value : option bool) (prev : gmap string bool) (k : string) :
  (In k (selectedIds (toggleSelect id value prev))
   <-> (k = id /\ default (negb (flagged prev id)) value = true)
       \/ (k <> id /\ In k (selectedIds prev)))
  /\ NoDup (selectedIds (toggleSelect id value prev)).
Proof.
  split; [|apply NoDup_activeKeys].
  unfold selectedIds, toggleSelect. rewrite !In_activeKeys, lookup_insert.
  destruct (decide (id = k)) as [->|Hne].
  - split.
    + intros E. left. split; [reflexivity|congruence].
    + intros [[_ E]|[Hk _]]; [congruence|contradiction].
  - split.
    + intros E. right. split; [congruence|exact E].
    + intros [[Hk _]|[_ E]]; [congruence|exact E].
Qed.

(** X22. A bulk action on an empty selection does nothing at all. On a
    selection that is not empty it clears the selection unless the host
    rejects it, so that the same click again does nothing; a rejected
    action keeps the selection and shows an error. The host is only ever
    handed a list that is not empty, of exactly the selected ids. *)
Theorem bulk_action_outcome
    (callback : option bool) (action : BulkAction) (selected : gmap string bool) :
  let r := bulkAction callback action selected in
  (selectedIds selected = [] -> r = (selected, [], None))
  /\ (callback <> Some false ->
      forall callback' action',
        bulkAction callback' action' (fst (fst r)) = (fst (fst r), [], None))
  /\ (callback = Some false -> selectedIds selected <> [] ->
      fst (fst r) = selected /\ rejected (snd (fst r)) = true)
  /\ (forall ids, snd r = Some ids ->
        ids <> [] /\ NoDup ids /\ forall k, In k ids <-> flagged selected k = true).
Proof.
  intros r. subst r. unfold bulkAction.
  destruct (selectedIds selected) as [|i ids'] eqn:Hids.
  - repeat split; try discriminate; try congruence.
    intros _ callback' action'. cbn [fst]. rewrite Hids. reflexivity.
  - split; [discriminate|]. split; [|split].
    + intros Hcb callback' action'.
      destruct callback as [[|]|]; try congruence; cbn [fst];
        unfold selectedIds; rewrite activeKeys_empty; reflexivity.
    + intros -> _. split; reflexivity.
    + intros ids Hhanded.
      assert (ids = selectedIds selected).
      { rewrite Hids. destruct callback as [[|]|]; cbn [snd] in Hhanded; congruence. }
      subst ids. split; [rewrite Hids; discriminate|].
      split; [apply NoDup_activeKeys|].
      intros k. unfold selectedIds. rewrite In_activeKeys, flagged_lookup. reflexivity.
Qed.

End Selecting.

Section Categories.

Context {num : Type} `{JsNumber num}.

Variable localeCompare : string -> string -> Z.

Lemma addOnce_spec (seen : list string) (c : string) :
  NoDup seen ->
  NoDup (addOnce seen c) /\ forall x, In x (addOnce seen c) <-> In x seen \/ x = c.
Proof.
  intros Hnd. unfold addOnce. destruct (existsb (String.eqb c) seen) eqn:Hex.
  - apply existsb_exists in Hex. destruct Hex as [y [Hy Hcy]].
    apply String.eqb_eq in Hcy. subst y. split; [exact Hnd|].
    intros x. split; [auto|]. intros [Hx| ->]; assumption.
  - assert (Hfresh : ~ In c seen).
    { intros Hc. assert (existsb (String.eqb c) seen = true); [|congruence].
      apply existsb_exists. exists c. split; [exact Hc|apply String.eqb_refl]. }
    split.
    + apply NoDup_app. split; [exact Hnd|]. split; [|apply NoDup_singleton].
      intros x Hx Hx'. apply list_elem_of_In in Hx. apply list_elem_of_In in Hx'.
      destruct Hx' as [<-|[]]. contradiction.
    + intros x. rewrite in_app_iff. simpl. intuition congruence.
Qed.

Lemma addCategory_spec (seen : list string) (p : CatalogProduct num) :
  NoDup seen ->
  NoDup (addCategory seen p)
  /\ forall c, In c (addCategory seen p)
               <-> In c seen
                   \/ (p_category p = Some c
                       /\ JsString.truthy (JsString.trim c) = true).
Proof.
  intros Hnd. unfold addCategory. destruct (p_category p) as [c0|].
  - destruct (JsString.truthy c0 && JsString.truthy (JsString.trim c0)) eqn:Hc0.
    + apply andb_true_iff in Hc0. destruct Hc0 as [_ Htrim].
      destruct (addOnce_spec seen c0 Hnd) as [Hnd' Hin]. split; [exact Hnd'|].
      intros c. rewrite Hin. split.
      * intros [Hc| ->]; [left; exact Hc|right; split; [reflexivity|exact Htrim]].
      * intros [Hc|[E _]]; [left; exact Hc|right; congruence].
    + split; [exact Hnd|]. intros c. split; [auto|].
      intros [Hc|[E Htrim]]; [exact Hc|]. inversion E; subst c0.
      assert (Htruthy : JsString.truthy c = true)
        by (destruct c; [discriminate Htrim|reflexivity]).
      rewrite Htruthy, Htrim in Hc0. discriminate Hc0.
  - split; [exact Hnd|]. intros c. split; [auto|].
    intros [Hc|[E _]]; [exact Hc|discriminate E].
Qed.

(** The categories a product list names, from a start [seen]. *)
Lemma named_from (products : list (CatalogProduct num)) : forall seen : list string,
  NoDup seen ->
  NoDup (fold_left addCategory products seen)
  /\ forall c, In c (fold_left addCategory products seen)
               <-> In c seen
                   \/ exists p, In p products /\ p_category p = Some c
                                /\ JsString.truthy (JsString.trim c) = true.
Proof.
  induction products as [|p l IH]; intros seen Hnd.
  - simpl. split; [exact Hnd|]. intros c. split; [auto|].
    intros [Hc|[p [[] _]]]. exact Hc.
  - cbn [fold_left].
    destruct (addCategory_spec seen p Hnd) as [Hnd' Hin].
    destruct (IH (addCategory seen p) Hnd') as [IHnd IHin].
    split; [exact IHnd|]. intros c. rewrite (IHin c), Hin. split.
    + intros [[Hc|[E Ht]]|[q [Hq Hrest]]].
      * left. exact Hc.
      * right. exists p. split; [left; reflexivity|split; assumption].
      * right. exists q. split; [right; exact Hq|exact Hrest].
    + intros [Hc|[q [[<-|Hq] [E Ht]]]].
      * left. left. exact Hc.
      * left. right. split; assumption.
      * right. exists q. split; [exact Hq|split; assumption].
Qed.

(** X23. The category menu starts with "all"; after it come, each once,
    exactly the categories that some product carries and that are not
    blank. *)
Theorem categories_listing (products : list (CatalogProduct num)) :
  exists rest,
    categories localeCompare products = "all" :: rest
    /\ NoDup rest
    /\ forall c, In c rest
                 <-> exists p, In p products /\ p_category p = Some c
                               /\ JsString.truthy (JsString.trim c) = true.
Proof.
  unfold categories. eexists. split; [reflexivity|].
  destruct (named_from products [] (NoDup_nil_2 (A := string))) as [Hnd Hin].
  fold (namedCategories products) in Hnd, Hin.
  split.
  - rewrite CatalogFacts.sortWith_Permutation. exact Hnd.
  - intros c. rewrite <- list_elem_of_In, CatalogFacts.sortWith_Permutation,
      list_elem_of_In, Hin.
    split; [intros [[]|Hc]; exact Hc|intros Hc; right; exact Hc].
Qed.

End Categories.

(** The theorems above at concrete inputs. *)

Lemma items_satisfy_filters_witness :
  In (giftCard (num := Q))
     (items (computed codeUnitCompare (giftCard :: Page.products) giftQuery))
  /\ matchesQuery "gift" (giftCard (num := Q)) = true.
Proof.
  assert (Hin : In (giftCard (num := Q))
                  (items (computed codeUnitCompare (giftCard :: Page.products) giftQuery)))
    by (left; reflexivity).
  split; [exact Hin|].
  exact (proj1 (proj2 (items_satisfy_filters codeUnitCompare _ giftQuery _ Hin)) eq_refl).
Defined.

Lemma pages_partition_the_result_witness :
  1 <= pageSize twoPerPage
  /\ map p_id
       (pagesFrom codeUnitCompare (Page.products (num := Q)) twoPerPage 1
          (Z.to_nat (totalPages (computed codeUnitCompare (Page.products (num := Q))
                                   twoPerPage))))
     = ["p-001"; "p-004"; "p-002"; "p-003"; "p-005"].
Proof.
  split; [simpl; lia|].
  rewrite (pages_partition_the_result codeUnitCompare (Page.products (num := Q))
             twoPerPage ltac:(simpl; lia)).
  reflexivity.
Defined.

Lemma pager_stays_in_range_witness :
  1 <= page twoPerPage
    <= totalPages (computed codeUnitCompare (Page.products (num := Q)) twoPerPage)
  /\ setPage (computed codeUnitCompare (Page.products (num := Q)) twoPerPage)
       (page twoPerPage) NextClick = 2
  /\ currentPage (computed codeUnitCompare (Page.products (num := Q))
                    (onPage 2 twoPerPage)) = 2.
Proof.
  assert (Hpage : 1 <= page twoPerPage
                    <= totalPages (computed codeUnitCompare (Page.products (num := Q))
                                     twoPerPage))
    by (vm_compute; split; intros E; discriminate E).
  split; [exact Hpage|]. split; [reflexivity|].
  exact (proj2 (pager_stays_in_range codeUnitCompare (Page.products (num := Q))
                  twoPerPage NextClick Hpage)).
Defined.

Lemma stale_page_prev_is_silent_witness :
  1 < totalPages (computed codeUnitCompare (Page.products (num := Q)) staleWishlistView)
  /\ totalPages (computed codeUnitCompare (Page.products (num := Q)) staleWishlistView)
     < page staleWishlistView
  /\ computed codeUnitCompare (Page.products (num := Q))
       (onPage (page staleWishlistView - 1) staleWishlistView)
     = computed codeUnitCompare (Page.products (num := Q)) staleWishlistView.
Proof.
  assert (Hpages : 1 < totalPages (computed codeUnitCompare (Page.products (num := Q))
                                     staleWishlistView)) by (vm_compute; reflexivity).
  assert (Hstale : totalPages (computed codeUnitCompare (Page.products (num := Q))
                                 staleWishlistView)
                   < page staleWishlistView) by (vm_compute; reflexivity).
  split; [exact Hpages|]. split; [exact Hstale|].
  exact (proj2 (stale_page_prev_is_silent codeUnitCompare (Page.products (num := Q))
                  staleWishlistView Hpages Hstale)).
Defined.

End CatalogMore.

(** ** The page: the path from the catalog to the cart *)

Module PageMore.

Import ShoppingCart ProductCatalog Page.

Section Host.

Context {num : Type} `{JsNumber num}.

(** The catalog handed to the page; its products have distinct ids. *)
Variable catalog : list (CatalogProduct num).
Hypothesis distinct_ids : NoDup (map p_id catalog).

(** A product that passes the catalog's guard carries a positive count. *)
Lemma guard_passed (callback : option bool) (p : CatalogProduct num) :
  fst (ProductCatalog.handleAddToCart callback p) = true ->
  exists n, p_inventoryCount p = Some n /\ 0 < n.
Proof.
  unfold ProductCatalog.handleAddToCart.
  destruct (negb (notMarkedOut p) || (default 0 (p_inventoryCount p) <=? 0)) eqn:Hg;
    [discriminate|]. intros _.
  apply orb_false_iff in Hg. destruct Hg as [_ Hcount].
  destruct (p_inventoryCount p) as [n|]; simpl in Hcount.
  - exists n. split; [reflexivity|]. apply Z.leb_gt in Hcount. exact Hcount.
  - discriminate Hcount.
Qed.

Lemma shopped_reachable (cart : list (CartItem num)) :
  shopped catalog cart -> cartReachable catalog cart.
Proof.
  induction 1 as [|p prev Hp _ IH|prev _ IH].
  - apply cart_initial.
  - unfold addFromCatalog.
    destruct (ProductCatalog.handleAddToCart (Some true) p) as [[|] toasts]; cbn [fst].
    + apply cart_added; assumption.
    + exact IH.
  - apply cart_completed. exact IH.
Qed.

(** One click that passed the guard keeps the lines within their stock. *)
Lemma added_within_stock (p : CatalogProduct num) (prev : list (CartItem num)) (n : Z) :
  In p catalog -> p_inventoryCount p = Some n -> 0 < n ->
  NoDup (map ci_id prev) -> Forall (recordedFrom catalog) prev ->
  Forall lineInvariant prev ->
  Forall lineInvariant (handleAddToCart p prev).
Proof using distinct_ids.
  intros Hp Hn Hpos Hnd Hrec Hinv. unfold handleAddToCart.
  destruct (List.find _ prev) as [existing|] eqn:Hfind.
  - apply find_some in Hfind. destruct Hfind as [Hex _].
    pose proof (proj1 (Forall_forall _ _) Hinv existing
                  (proj2 (list_elem_of_In _ _) Hex)) as Hexisting.
    unfold lineInvariant in Hexisting.
    apply Forall_forall. intros line Hline. apply list_elem_of_In in Hline.
    apply in_map_iff in Hline. destruct Hline as [i [Hi Hin]].
    pose proof (proj1 (Forall_forall _ _) Hinv i (proj2 (list_elem_of_In _ _) Hin))
      as Hline.
    destruct (String.eqb_spec (ci_id i) (p_id p)) as [E|_]; subst line; [|exact Hline].
    pose proof (proj1 (Forall_forall _ _) Hrec i (proj2 (list_elem_of_In _ _) Hin))
      as [q [Hq1 [Hq2 Hq3]]].
    assert (q = p) by (apply (PageFacts.same_id_same_product catalog distinct_ids);
                       congruence).
    subst q. rewrite Hn in Hq3. simpl in Hq3.
    unfold lineInvariant, setQuantity. simpl. rewrite Hn, Hq3. simpl. lia.
  - apply Forall_app. split; [exact Hinv|]. apply Forall_singleton.
    unfold lineInvariant, newLine. simpl. rewrite Hn. simpl. lia.
Qed.

Lemma shopped_invariant (cart : list (CartItem num)) :
  shopped catalog cart -> Forall lineInvariant cart.
Proof using distinct_ids.
  induction 1 as [|p prev Hp Hprev IH|prev _ _].
  - constructor.
  - destruct (PageFacts.cart_invariant catalog distinct_ids prev
                (shopped_reachable prev Hprev)) as [Hnd Hrec].
    unfold addFromCatalog.
    destruct (ProductCatalog.handleAddToCart (Some true) p) as [passed toasts] eqn:Hg.
    destruct passed; cbn [fst]; [|exact IH].
    destruct (guard_passed (Some true) p) as [n [Hn Hpos]]; [rewrite Hg; reflexivity|].
    exact (added_within_stock p prev n Hp Hn Hpos Hnd Hrec IH).
  - constructor.
Qed.

Lemma shopped_parts (cart : list (CartItem num)) :
  shopped catalog cart ->
  Forall lineInvariant cart /\ NoDup (map ci_id cart)
  /\ Forall (recordedFrom catalog) cart.
Proof using distinct_ids.
  intros Hshop. split; [exact (shopped_invariant cart Hshop)|].
  exact (PageFacts.cart_invariant catalog distinct_ids cart
           (shopped_reachable cart Hshop)).
Qed.

(** X24. In a cart filled through the catalog of the page (products with
    distinct ids), every line has a quantity between 1 and its stock, and
    no two lines share an id: the catalog's guard keeps products without
    stock out, and the page's handler stops at the stock. *)
Theorem shopped_lines_within_stock (cart : list (CartItem num))
    (Hshop : shopped catalog cart) :
  Forall lineInvariant cart /\ NoDup (map ci_id cart).
Proof using distinct_ids.
  destruct (shopped_parts cart Hshop) as [Hinv [Hnd _]]. split; assumption.
Qed.

(** The badge as a sum. *)
Lemma cartCount_sum (cart : list (CartItem num)) : forall a : Z,
  fold_left (fun n it => n + ci_quantity it) cart a
  = a + fold_right Z.add 0 (map ci_quantity cart).
Proof.
  induction cart as [|x l IH]; intros a; simpl; [lia|]. rewrite IH. lia.
Qed.

(** Setting the quantity of the one line with a given id. *)
Lemma sum_after_update (pid : string) (v : Z) (e : CartItem num) :
  forall l : list (CartItem num),
  NoDup (map ci_id l) -> In e l -> ci_id e = pid ->
  fold_right Z.add 0
    (map ci_quantity
       (map (fun i => if String.eqb (ci_id i) pid then setQuantity i v else i) l))
  = fold_right Z.add 0 (map ci_quantity l) - ci_quantity e + v.
Proof.
  induction l as [|x l IH]; intros Hnd He Hid; [contradiction|].
  simpl in Hnd. apply NoDup_cons in Hnd. destruct Hnd as [Hx Hl].
  destruct He as [->|He].
  - cbn [map fold_right]. rewrite Hid, String.eqb_refl.
    assert (Hsame : map (fun i => if String.eqb (ci_id i) pid then setQuantity i v else i) l
                    = l).
    { rewrite <- (map_id l) at 2. apply map_ext_in. intros i Hi.
      destruct (String.eqb_spec (ci_id i) pid) as [E|_]; [|reflexivity].
      exfalso. apply Hx. rewrite Hid, <- E. apply list_elem_of_In, in_map, Hi. }
    rewrite Hsame. unfold setQuantity. simpl. lia.
  - cbn [map fold_right].
    destruct (String.eqb_spec (ci_id x) pid) as [E|_].
    + exfalso. apply Hx. rewrite E, <- Hid. apply list_elem_of_In, in_map, He.
    + rewrite (IH Hl He Hid). lia.
Qed.

(** X25. One click on "Add to cart" in the catalog raises the cart badge
    by one or leaves it as it is (when the guard refuses the product or
    its line has reached its stock); it never lowers it, and a refused
    click leaves the cart untouched. *)
Theorem badge_grows_by_at_most_one
    (cart : list (CartItem num)) (p : CatalogProduct num)
    (Hshop : shopped catalog cart) (Hp : In p catalog) :
  let next := fst (addFromCatalog p cart) in
  cartCount cart <= cartCount next <= cartCount cart + 1
  /\ (rejected (snd (addFromCatalog p cart)) = true -> next = cart).
Proof using distinct_ids.
  intros next. subst next.
  destruct (shopped_parts cart Hshop) as [Hinv [Hnd Hrec]].
  unfold addFromCatalog.
  destruct (ProductCatalog.handleAddToCart (Some true) p) as [passed toasts] eqn:Hg.
  destruct passed; cbn [fst snd].
  - destruct (guard_passed (Some true) p) as [n [Hn Hpos]]; [rewrite Hg; reflexivity|].
    split.
    + unfold cartCount. rewrite !cartCount_sum. unfold handleAddToCart.
      destruct (List.find _ cart) as [existing|] eqn:Hfind.
      * apply find_some in Hfind. destruct Hfind as [Hex Hexid].
        apply String.eqb_eq in Hexid.
        rewrite (sum_after_update (p_id p) _ existing cart Hnd Hex Hexid).
        pose proof (proj1 (Forall_forall _ _) Hinv existing
                      (proj2 (list_elem_of_In _ _) Hex)) as Hline.
        pose proof (proj1 (Forall_forall _ _) Hrec existing
                      (proj2 (list_elem_of_In _ _) Hex)) as [q [Hq1 [Hq2 Hq3]]].
        assert (q = p) by (apply (PageFacts.same_id_same_product catalog distinct_ids);
                           congruence).
        subst q. rewrite Hn in Hq3. simpl in Hq3.
        unfold lineInvariant in Hline. rewrite Hn. simpl. lia.
      * rewrite map_app, fold_right_app. simpl.
        assert (Hsum : forall (l : list Z) (b : Z),
                  fold_right Z.add b l = fold_right Z.add 0 l + b).
        { induction l as [|x l IH]; intros b; simpl; [lia|]. rewrite IH. lia. }
        rewrite (Hsum _ (1 + 0)). lia.
    + unfold ProductCatalog.handleAddToCart in Hg.
      destruct (negb (notMarkedOut p) || (default 0 (p_inventoryCount p) <=? 0));
        inversion Hg; subst; discriminate.
  - split; [lia|]. reflexivity.
Qed.

End Host.

(** The theorems above on the page's own products. *)

Lemma tee_clicked_twice : shopped products (teeClicked (teeClicked (num := Q) [])).
Proof.
  cbv beta iota delta [teeClicked products head].
  do 2 (apply shopped_added; [left; reflexivity|]). apply shopped_initial.
Qed.

Lemma shopped_lines_within_stock_witness :
  NoDup (map p_id (products (num := Q)))
  /\ shopped products (teeClicked (teeClicked (num := Q) []))
  /\ Forall lineInvariant (teeClicked (teeClicked (num := Q) [])).
Proof.
  split; [exact PageFacts.products_distinct_ids|]. split; [exact tee_clicked_twice|].
  exact (proj1 (shopped_lines_within_stock products PageFacts.products_distinct_ids _
                  tee_clicked_twice)).
Defined.

Lemma badge_grows_by_at_most_one_witness :
  NoDup (map p_id (products (num := Q)))
  /\ shopped products (teeClicked (teeClicked (num := Q) []))
  /\ In (nth 1 products giftCard) (products (num := Q))
  /\ cartCount (teeClicked (teeClicked (num := Q) [])) = 2
  /\ cartCount (fst (addFromCatalog (nth 1 products giftCard)
                       (teeClicked (teeClicked (num := Q) []))))
     <= 2 + 1.
Proof.
  assert (Hin : In (nth 1 products giftCard) (products (num := Q)))
    by (right; left; reflexivity).
  split; [exact PageFacts.products_distinct_ids|]. split; [exact tee_clicked_twice|].
  split; [exact Hin|]. split; [reflexivity|].
  exact (proj2 (proj1 (badge_grows_by_at_most_one products PageFacts.products_distinct_ids
                         (teeClicked (teeClicked []))
                         (nth 1 products giftCard) tee_clicked_twice Hin))).
Defined.

End PageMore.

(** ** The dashboard: the sales analyzer *)

Module DashboardFacts.

Import MainDashboard.

Section Rows.

Context {num : Type} `{JsNumber num}.

Lemma filter_other_ids (id : string) (l : list (SalesRow num)) :
  ~ In id (map r_id l) ->
  List.filter (fun r => negb (String.eqb (r_id r) id)) l = l.
Proof.
  induction l as [|x l IH]; intros Hid; [reflexivity|]. simpl.
  destruct (String.eqb_spec (r_id x) id) as [E|_].
  - exfalso. apply Hid. left. exact E.
  - simpl. f_equal. apply IH. intros Hin. apply Hid. right. exact Hin.
Qed.

Lemma filter_drops_at_most_one (id : string) (l : list (SalesRow num)) :
  NoDup (map r_id l) ->
  (length l <= S (length (List.filter (fun r => negb (String.eqb (r_id r) id)) l)))%nat.
Proof.
  induction l as [|x l IH]; intros Hnd; [simpl; lia|].
  simpl in Hnd. apply NoDup_cons in Hnd. destruct Hnd as [Hx Hl]. simpl.
  destruct (String.eqb_spec (r_id x) id) as [E|_]; simpl.
  - rewrite filter_other_ids; [lia|].
    intros Hin. apply Hx. rewrite E. apply list_elem_of_In. exact Hin.
  - specialize (IH Hl). lia.
Qed.

(** X26. Removing a row never empties a table whose rows have distinct
    ids: at most one row goes, the last remaining row stays whatever id
    is asked for, and the rows kept are those with another id. *)
Theorem removeRow_keeps_a_row (id : string) (prev : list (SalesRow num))
    (Hrows : prev <> []) (Hids : NoDup (map r_id prev)) :
  removeRow id prev <> []
  /\ (length prev <= S (length (removeRow id prev)))%nat
  /\ forall r, In r (removeRow id prev)
               <-> In r prev /\ (r_id r <> id \/ length prev = 1%nat).
Proof.
  unfold removeRow. destruct (Nat.ltb_spec 1 (length prev)) as [Hmany|Hone].
  - pose proof (filter_drops_at_most_one id prev Hids) as Hlen.
    split; [|split; [exact Hlen|]].
    + intros Hnil. rewrite Hnil in Hlen. simpl in Hlen. lia.
    + intros r. rewrite filter_In, negb_true_iff, String.eqb_neq.
      split; [intros [Hr Hne]; split; [exact Hr|left; exact Hne]|].
      intros [Hr [Hne|Hlen1]]; [split; assumption|lia].
  - split; [exact Hrows|]. split; [lia|].
    intros r. split; [|intros [Hr _]; exact Hr].
    intros Hr. split; [exact Hr|]. right.
    destruct prev as [|x [|y l]]; [contradiction|reflexivity|simpl in Hone; lia].
Qed.

(** X27. "Add rows" appends to the table, after the rows it has, as many
    blank rows as the count says, but at least 1 and at most 20. *)
Theorem bulk_rows_are_appended
    (now : nat -> Z) (bulkRowCount : Z) (prev : list (SalesRow num)) :
  exists added,
    fst (addBulkRows now bulkRowCount prev) = prev ++ added
    /\ Z.of_nat (length added) = Z.max 1 (Z.min 20 bulkRowCount)
    /\ 1 <= Z.of_nat (length added) <= 20
    /\ Forall (fun r => exists id, r = blankRow id) added.
Proof.
  unfold addBulkRows. cbn [fst]. eexists. split; [reflexivity|].
  assert (Hlen : forall (g : nat -> SalesRow num) (k : nat),
            length (map g (seq 0 k)) = k)
    by (intros g k; rewrite length_map, length_seq; reflexivity).
  rewrite Hlen. unfold bulkCount. split; [lia|]. split; [lia|].
  apply Forall_forall. intros r Hr. apply list_elem_of_In in Hr.
  apply in_map_iff in Hr. destruct Hr as [i [<- _]]. eexists. reflexivity.
Qed.

End Rows.

Section Totals.

Local Open Scope Q_scope.

Lemma fold_left_sum (g : SalesRow Q -> Q) (rows : list (SalesRow Q)) : forall a : Q,
  fold_left (fun s r => s + g r) rows a
  == a + fold_right (fun r s => g r + s) 0 rows.
Proof.
  induction rows as [|x l IH]; intros a; simpl; [ring|]. rewrite IH. ring.
Qed.

Lemma contributions_sum (rows : list (SalesRow Q)) :
  fold_right (fun r s => orZero (r_qty r) * orZero (r_price r) + s) 0 rows
  - fold_right (fun r s => orZero (r_qty r) * orZero (r_cost r) + s) 0 rows
  == sumContributions rows.
Proof.
  induction rows as [|x l IH]; simpl; [ring|]. rewrite <- IH.
  unfold contribution. cbn [n_mul n_sub exact_number]. ring.
Qed.

(** X28. In exact arithmetic the totals agree with each other and with
    the rows: the profit is the sum over the rows of quantity times
    (price - cost), as the summary computes a row's contribution; with a
    positive revenue the margin times the revenue is the profit, and
    without one the margin is 0 (nothing is divided by zero). *)
Theorem totals_consistent (rows : list (SalesRow Q)) :
  profit (totals rows) == sumContributions rows
  /\ (0 < revenue (totals rows) ->
      margin (totals rows) * revenue (totals rows) == profit (totals rows))
  /\ (~ 0 < revenue (totals rows) -> margin (totals rows) = 0).
Proof.
  unfold totals. cbn [profit margin revenue cost].
  cbn [n_add n_sub n_mul n_div n_lt n_lit exact_number].
  change (inject_Z 0) with 0.
  set (rev := fold_left _ rows 0). set (cst := fold_left _ rows 0).
  split; [|split].
  - subst rev cst.
    rewrite (fold_left_sum (fun r => orZero (r_qty r) * orZero (r_price r)) rows 0).
    rewrite (fold_left_sum (fun r => orZero (r_qty r) * orZero (r_cost r)) rows 0).
    rewrite <- contributions_sum. ring.
  - intros Hpos. unfold Exact.lt.
    destruct (Qle_bool rev 0) eqn:E.
    + apply Qle_bool_iff in E. lra.
    + simpl. field. intros Hz. rewrite Hz in Hpos. exact (Qlt_irrefl _ Hpos).
  - intros Hneg. unfold Exact.lt.
    destruct (Qle_bool rev 0) eqn:E; [reflexivity|].
    exfalso. apply Hneg. apply Qnot_le_lt. rewrite <- Qle_bool_iff. congruence.
Qed.

(** X29. The top contributor named in the summary is a row of the table,
    under its name or "Untitled", and no row contributes more than it (in
    exact arithmetic). *)
Theorem topContributor_is_largest (rows : list (SalesRow Q)) (top : string * Q)
    (Htop : topContributor rows = Some top) :
  (exists r, In r rows /\ top = (productLabel r, contribution r))
  /\ forall r, In r rows -> contribution r <= snd top.
Proof.
  unfold topContributor in Htop.
  set (pairs := map (fun r => (productLabel r, contribution r)) rows) in Htop.
  set (positive := fun a b : string * Q => n_lt (n_lit 0) (n_sub (snd b) (snd a)))
    in Htop.
  assert (Horder : ProductCatalog.inOrder (fun a b : string * Q => snd b <= snd a)
                     (ProductCatalog.sortWith positive pairs)).
  { apply CatalogMore.sortWith_inOrder.
    - intros a b c Hab Hbc. exact (Qle_trans _ _ _ Hbc Hab).
    - intros a b Hpos. exact (proj1 (CatalogMore.positive_difference _ _) Hpos).
    - intros a b Hneg. exact (proj2 (CatalogMore.positive_difference _ _) Hneg). }
  pose proof (CatalogFacts.sortWith_Permutation positive pairs) as Hperm.
  destruct (ProductCatalog.sortWith positive pairs) as [|first rest] eqn:Hsorted;
    [discriminate Htop|].
  simpl in Htop. inversion Htop; subst first. destruct Horder as [Hfirst _].
  split.
  - assert (Hin : In top pairs).
    { apply list_elem_of_In. rewrite <- Hperm. left. }
    apply in_map_iff in Hin. destruct Hin as [r [Hr Hin]]. exists r. split; [exact Hin|].
    symmetry. exact Hr.
  - intros r Hr.
    assert (Hin : (productLabel r, contribution r) ∈ top :: rest).
    { rewrite Hperm. apply list_elem_of_In. subst pairs.
      exact (in_map (fun r => (productLabel r, contribution r)) rows r Hr). }
    apply elem_of_cons in Hin. destruct Hin as [Heq|Hin].
    + rewrite <- Heq. simpl. apply Qle_refl.
    + exact (proj1 (Forall_forall _ _) Hfirst _ Hin).
Qed.

End Totals.

(** Rows made within one reading of the clock share their id, and one
    click on "Remove" then takes them all. *)
Example rows_with_one_id_go_together :
  rowsAfter (RowRemoved "r-5")
    (rowsAfter (RowAdded 5) (rowsAfter (RowsCleared 5) (initialRows (num := Q))))
  = [].
Proof. reflexivity. Qed.

Lemma removeRow_keeps_a_row_witness :
  sampleRows <> []
  /\ NoDup (map r_id sampleRows)
  /\ map r_id (removeRow "r-1" sampleRows) = ["r-2"]
  /\ removeRow "r-2" (removeRow "r-1" sampleRows) <> [].
Proof.
  assert (Hrows : removeRow "r-1" sampleRows <> []) by discriminate.
  assert (Hids : NoDup (map r_id (removeRow "r-1" sampleRows)))
    by (apply (bool_decide_unpack _); vm_compute; exact I).
  split; [discriminate|].
  split; [apply (bool_decide_unpack _); vm_compute; exact I|].
  split; [reflexivity|].
  exact (proj1 (removeRow_keeps_a_row "r-2" (removeRow "r-1" sampleRows) Hrows Hids)).
Defined.

Lemma topContributor_is_largest_witness :
  topContributor sampleRows = Some ("Tee", 160%Q)
  /\ forall r, In r sampleRows -> (contribution r <= 160)%Q.
Proof.
  assert (Htop : topContributor sampleRows = Some ("Tee", 160%Q)) by reflexivity.
  split; [exact Htop|].
  exact (proj2 (topContributor_is_largest sampleRows ("Tee", 160%Q) Htop)).
Defined.

End DashboardFacts.
